(** * randomchat-app: the coordination kernel in Rocq

    A shallow embedding of the three server-side managers of the
    repository,

      - [src/managers/UserManager.js]   (modules [UserManager],
        [UserQueries]),
      - [src/managers/ChatManager.js]   (modules [ChatManager],
        [ChatQueries]),
      - [src/services/MatchingEngine.js] (modules [MatchingEngine],
        [MatchingLoop]),

    of the socket handlers of the server that drive them (module
    [Server]), and of the fragment of JavaScript they rely on (modules
    [Js] and [JsArray]).

    Conventions.
      - A JavaScript [number] that is a genuine double (trust scores,
        compatibility scores, priorities, engagement scores) is a
        primitive binary64 [float]; counters and millisecond timestamps
        are [Z].
      - [new Date()] / [Date.now()] are an explicit argument [now] of the
        operation, read once per call; [uuidv4()] is an explicit argument
        as well.
      - A [Map] that the code iterates over is an insertion-ordered
        association list ([Js.omap]); a [Map] that is only looked up is a
        [gmap].
      - Session objects are shared between the two indices of the
        UserManager, so they live in a heap addressed by [nat].
      - A thrown exception is the [Throw] case of [Js.result]. *)

From Stdlib Require Import ZArith String Ascii List Bool Lia.
From Stdlib Require Import Uint63 Floats DecimalString.
From stdpp Require Import gmap strings list.

Set Warnings "-register-all,-inexact-float,-abstract-large-number".

Local Open Scope string_scope.
Local Open Scope Z_scope.

(* ===================================================================== *)
(** * Part I: definitions *)
(* ===================================================================== *)

Module Js.

(** ** Exceptions *)

Inductive error : Type :=
| TypeError                       (* e.g. "x.toLowerCase is not a function" *)
| QueueFullError.                 (* new Error('Matching queue is full') *)

Inductive result (A : Type) : Type :=
| Ok (a : A)
| Throw (e : error).
Arguments Ok {A} a.
Arguments Throw {A} e.

Definition bind {A B} (r : result A) (k : A -> result B) : result B :=
  match r with
  | Ok a => k a
  | Throw e => Throw e
  end.

Definition is_ok {A} (r : result A) : bool :=
  match r with Ok _ => true | Throw _ => false end.

Fixpoint mapM {A B} (f : A -> result B) (l : list A) : result (list B) :=
  match l with
  | [] => Ok []
  | x :: l' => bind (f x) (fun y => bind (mapM f l') (fun ys => Ok (y :: ys)))
  end.

(** ** Values received from a client

    A payload that arrives over the socket is JSON-shaped.  Numbers in
    payloads are taken to be integers. *)

Inductive value : Type :=
| VUndefined
| VNull
| VBool (b : bool)
| VNum (n : Z)
| VStr (s : string)
| VArr (l : list value)
| VObj (fields : list (string * value)).

Fixpoint assoc {A} (k : string) (l : list (string * A)) : option A :=
  match l with
  | [] => None
  | (k', v) :: l' => if String.eqb k k' then Some v else assoc k l'
  end.

(** [v.k] for the property names the managers read ([gender],
    [location], [chatType], ...): none of them is a built-in property of
    a primitive or of an array. *)
Definition getProp (v : value) (k : string) : result value :=
  match v with
  | VUndefined | VNull => Throw TypeError
  | VObj fields => Ok (default VUndefined (assoc k fields))
  | _ => Ok VUndefined
  end.

(** ToBoolean *)
Definition truthy (v : value) : bool :=
  match v with
  | VUndefined | VNull => false
  | VBool b => b
  | VNum n => negb (n =? 0)
  | VStr s => negb (String.eqb s "")
  | VArr _ | VObj _ => true
  end.

(** [a || b] *)
Definition js_or (a b : value) : value := if truthy a then a else b.

(** [v === s] for a string [s] *)
Definition strict_eq_str (v : value) (s : string) : bool :=
  match v with
  | VStr s' => String.eqb s' s
  | _ => false
  end.

(** [v.length] *)
Definition getLength (v : value) : value :=
  match v with
  | VStr s => VNum (Z.of_nat (String.length s))
  | VArr l => VNum (Z.of_nat (List.length l))
  | VObj fields => default VUndefined (assoc "length" fields)
  | _ => VUndefined
  end.

(** [v > 0] and [v === 0], for [v] a number, a boolean, [undefined] or
    [null] (a [length] that is itself a string or an object is compared
    as not a number) *)
Definition gt0 (v : value) : bool :=
  match v with
  | VNum n => 0 <? n
  | VBool b => b
  | _ => false
  end.

Definition is0 (v : value) : bool :=
  match v with
  | VNum n => n =? 0
  | _ => false
  end.

(** ** Strings (one byte per character) *)

Definition lower_ascii (c : ascii) : ascii :=
  let n := nat_of_ascii c in
  if (65 <=? n)%nat && (n <=? 90)%nat then ascii_of_nat (n + 32) else c.

Fixpoint toLowerCase (s : string) : string :=
  match s with
  | EmptyString => EmptyString
  | String c s' => String (lower_ascii c) (toLowerCase s')
  end.

Definition is_space (c : ascii) : bool :=
  let n := nat_of_ascii c in
  ((9 <=? n)%nat && (n <=? 13)%nat) || (n =? 32)%nat || (n =? 160)%nat.

Fixpoint trimStart (s : string) : string :=
  match s with
  | EmptyString => EmptyString
  | String c s' => if is_space c then trimStart s' else s
  end.

Fixpoint rev_string (s acc : string) : string :=
  match s with
  | EmptyString => acc
  | String c s' => rev_string s' (String c acc)
  end.

Definition trim (s : string) : string :=
  rev_string (trimStart (rev_string (trimStart s) "")) "".

(** [s.substring(0, n)] *)
Definition substring0 (n : nat) (s : string) : string := String.substring 0 n s.

(** [s.split(',')] *)
Fixpoint split_comma_aux (s cur : string) : list string :=
  match s with
  | EmptyString => [rev_string cur ""]
  | String c s' =>
      if Ascii.eqb c ","%char
      then rev_string cur "" :: split_comma_aux s' ""
      else split_comma_aux s' (String c cur)
  end.

Definition split_comma (s : string) : list string := split_comma_aux s "".

(** [s.split(',')[0]]: [split] never returns an empty array *)
Definition split_comma_head (s : string) : string :=
  match split_comma s with
  | h :: _ => h
  | [] => ""
  end.

Fixpoint tails_include (s sub : string) : bool :=
  String.prefix sub s ||
  match s with
  | EmptyString => false
  | String _ s' => tails_include s' sub
  end.

(** [s.includes(sub)] *)
Definition includes (s sub : string) : bool := tails_include s sub.

(** [arr.includes(s)] for an array of strings and a string *)
Definition arr_includes (arr : list string) (s : string) : bool :=
  existsb (String.eqb s) arr.

Definition Z_toString (n : Z) : string :=
  NilZero.string_of_int (Z.to_int n).

(** [v.toString()].  An object that came in as JSON has no callable
    [toString] of its own: if it carries a [toString] key the call
    throws, otherwise [Object.prototype.toString] answers. *)
Fixpoint toString (v : value) : result string :=
  match v with
  | VUndefined | VNull => Throw TypeError
  | VBool b => Ok (if b then "true" else "false")
  | VNum n => Ok (Z_toString n)
  | VStr s => Ok s
  | VArr l =>
      (fix join (l : list value) : result string :=
         match l with
         | [] => Ok ""
         | x :: rest =>
             bind (match x with
                   | VUndefined | VNull => Ok ""
                   | _ => toString x
                   end)
               (fun e =>
                  match rest with
                  | [] => Ok e
                  | _ => bind (join rest) (fun r => Ok (String.append e (String.append "," r)))
                  end)
         end) l
  | VObj fields =>
      match assoc "toString" fields with
      | Some _ => Throw TypeError
      | None => Ok "[object Object]"
      end
  end.

(** [v.toLowerCase()]: only strings have the method *)
Definition toLowerCase_method (v : value) : result string :=
  match v with
  | VStr s => Ok (toLowerCase s)
  | _ => Throw TypeError
  end.

(** ** Doubles *)

(** The double of an integer (exact below [2^53] in absolute value, the
    range of counters and timestamps) *)
Definition Z2F (z : Z) : float :=
  if z <? 0 then PrimFloat.opp (PrimFloat.of_uint63 (Uint63.of_Z (- z)))
  else PrimFloat.of_uint63 (Uint63.of_Z z).

(** ToBoolean of a number: [0], [-0] and [NaN] are falsy *)
Definition truthyF (x : float) : bool :=
  negb (PrimFloat.is_nan x || PrimFloat.is_zero x).

(** [x || d] on numbers *)
Definition orF (x d : float) : float := if truthyF x then x else d.

(** [Math.max(a, b)]: [NaN] if either is, and [+0] beats [-0] *)
Definition Math_max (a b : float) : float :=
  if PrimFloat.is_nan a || PrimFloat.is_nan b then PrimFloat.nan
  else if PrimFloat.ltb a b then b
  else if PrimFloat.ltb b a then a
  else if PrimFloat.get_sign a then b else a.

(** [Math.min(a, b)]: [NaN] if either is, and [-0] beats [+0] *)
Definition Math_min (a b : float) : float :=
  if PrimFloat.is_nan a || PrimFloat.is_nan b then PrimFloat.nan
  else if PrimFloat.ltb a b then a
  else if PrimFloat.ltb b a then b
  else if PrimFloat.get_sign a then a else b.

(** ** Insertion-ordered maps ([Map] objects that are iterated) *)

Definition omap (V : Type) : Type := list (string * V).

Definition om_get {V} (k : string) (m : omap V) : option V := assoc k m.

Definition om_has {V} (k : string) (m : omap V) : bool :=
  match om_get k m with Some _ => true | None => false end.

(** [m.set(k, v)]: an existing key keeps its place *)
Fixpoint om_set {V} (k : string) (v : V) (m : omap V) : omap V :=
  match m with
  | [] => [(k, v)]
  | (k', v') :: m' =>
      if String.eqb k k' then (k, v) :: m' else (k', v') :: om_set k v m'
  end.

Fixpoint om_delete {V} (k : string) (m : omap V) : omap V :=
  match m with
  | [] => []
  | (k', v') :: m' =>
      if String.eqb k k' then om_delete k m' else (k', v') :: om_delete k m'
  end.

Definition om_size {V} (m : omap V) : nat := List.length m.

Definition om_values {V} (m : omap V) : list V := List.map snd m.

End Js.

(* --------------------------------------------------------------------- *)
(** ** src/managers/UserManager.js *)
(* --------------------------------------------------------------------- *)

Module UserManager.
Import Js.

(** The object [sanitizeProfile] returns: a key is present only when the
    input had a truthy value for it. *)
Record Profile : Type := mkProfile {
  gender : option string;
  location : option string;
  age : option string;
  keywords : option (list string)
}.

Record Preferences : Type := mkPreferences {
  preferredGender : value;
  preferredAgeRange : value;
  preferredLocation : value;
  interests : value
}.

Record Stats : Type := mkStats {
  totalChats : Z;
  totalMessages : Z;
  averageChatDuration : Z;
  violations : Z
}.

Record Flags : Type := mkFlags {
  isReported : bool;
  isBanned : bool;
  isBot : bool;
  trustScore : float
}.

Record Violation : Type := mkViolation {
  v_type : string;
  v_timestamp : Z;
  v_details : value;
  v_severity : string
}.

Record BanInfo : Type := mkBanInfo {
  reason : string;
  b_timestamp : Z;
  bannedBy : string
}.

Record User : Type := mkUser {
  id : string;
  socketId : string;
  profile : Profile;
  connectionTime : Z;
  lastActivity : Z;
  status : string;
  currentChatId : option string;
  preferences : Preferences;
  stats : Stats;
  flags : Flags;
  u_violations : list Violation;      (* [user.violations]; absent = [] *)
  banInfo : option BanInfo
}.

Definition validGenders : list string :=
  ["male"; "female"; "other"; "not-specified"].
Definition validAges : list string :=
  ["18-25"; "26-35"; "36-45"; "46+"; "not-specified"].

Definition sanitizeGender (g : value) : result (option string) :=
  if truthy g then
    bind (toLowerCase_method g) (fun l =>
    Ok (Some (if arr_includes validGenders l then l else "not-specified")))
  else Ok None.

Definition sanitizeLocation (l : value) : result (option string) :=
  if truthy l then
    bind (toString l) (fun s => Ok (Some (trim (substring0 100 s))))
  else Ok None.

Definition sanitizeAge (a : value) : option string :=
  if truthy a then
    Some (match a with
          | VStr s => if arr_includes validAges s then s else "not-specified"
          | _ => "not-specified"
          end)
  else None.

Definition sanitizeKeywords (k : value) : result (option (list string)) :=
  if truthy k then
    let keywords :=
      match k with
      | VStr s => VArr (List.map VStr (split_comma s))
      | _ => k
      end in
    match keywords with
    | VArr l =>
        bind (mapM (fun k => bind (toString k)
                               (fun s => Ok (substring0 50 (trim s)))) l)
          (fun ks => Ok (Some (firstn 10 ks)))
    | _ => Ok (Some [])
    end
  else Ok None.

Definition sanitizeProfile (profile : value) : result Profile :=
  bind (getProp profile "gender") (fun g =>
  bind (sanitizeGender g) (fun sg =>
  bind (getProp profile "location") (fun l =>
  bind (sanitizeLocation l) (fun sl =>
  bind (getProp profile "age") (fun a =>
  bind (getProp profile "keywords") (fun k =>
  bind (sanitizeKeywords k) (fun sk =>
  Ok (mkProfile sg sl (sanitizeAge a) sk)))))))).

(** [{ ...old, ...upd }] on sanitized profiles *)
Definition mergeProfile (old upd : Profile) : Profile :=
  let pick {A} (o u : option A) := match u with Some _ => u | None => o end in
  mkProfile (pick (gender old) (gender upd))
            (pick (location old) (location upd))
            (pick (age old) (age upd))
            (pick (keywords old) (keywords upd)).

Definition profile_value (p : Profile) : value :=
  let field {A} (k : string) (f : A -> value) (o : option A) :=
    match o with Some a => [(k, f a)] | None => [] end in
  VObj (field "gender" VStr (gender p) ++
        field "location" VStr (location p) ++
        field "age" VStr (age p) ++
        field "keywords" (fun l => VArr (List.map VStr l)) (keywords p)).

Definition extractPreferences (profile : value) : result Preferences :=
  bind (getProp profile "preferredGender") (fun g =>
  bind (getProp profile "preferredAgeRange") (fun a =>
  bind (getProp profile "preferredLocation") (fun l =>
  bind (getProp profile "keywords") (fun k =>
  Ok (mkPreferences (js_or g (VStr "any")) (js_or a (VStr "any"))
                    (js_or l (VStr "any")) (js_or k (VArr []))))))).

Record PublicProfile : Type := mkPublicProfile {
  pp_gender : string;
  pp_location : string;
  pp_age : string;
  pp_interests : list string;
  pp_trustScore : float
}.

Definition or_str (o : option string) (d : string) : string :=
  match o with
  | Some s => if String.eqb s "" then d else s
  | None => d
  end.

(** [getPublicProfile] is only called from [createUser], where the
    trust score is the seed [1.0], a fixed point of
    [Math.round(x * 100) / 100]. *)
Definition getPublicProfile (user : User) : PublicProfile :=
  mkPublicProfile (or_str (gender (profile user)) "not-specified")
                  (or_str (location (profile user)) "unknown")
                  (or_str (age (profile user)) "not-specified")
                  (default [] (keywords (profile user)))
                  (trustScore (flags user)).

Inductive HistoryEntry : Type :=
| Connected (userId socketId : string) (connectionTime : Z)
            (profile : PublicProfile)
| Disconnected (userId socketId : string) (disconnectionTime : Z)
               (sessionDuration : Z) (totalChats totalMessages : Z).

(** The manager.  [heap] holds the session objects; [users] and
    [usersByUserId] hold references into it. *)
Record State : Type := mkState {
  heap : list User;
  users : omap nat;                      (* socketId -> User *)
  usersByUserId : gmap string nat;       (* userId -> User *)
  totalConnections : Z;
  connectionHistory : list HistoryEntry;
  sessionTimeouts : gmap string nat;     (* userId -> timer *)
  timers : gmap nat string;              (* armed timer -> userId it closes over *)
  nextTimer : nat
}.

Definition maxHistorySize : nat := 1000.
Definition defaultSessionTimeout : Z := 30 * 60 * 1000.

Definition init : State :=
  mkState [] [] ∅ 0 [] ∅ ∅ 0.

(** [arr.slice(-n)] *)
Definition slice_last {A} (n : nat) (l : list A) : list A :=
  skipn (List.length l - n) l.

Definition set_heap (h : list User) (s : State) : State :=
  mkState h (users s) (usersByUserId s) (totalConnections s)
          (connectionHistory s) (sessionTimeouts s) (timers s) (nextTimer s).

(** Mutation of the object at address [a] *)
Definition modify (a : nat) (f : User -> User) (s : State) : State :=
  match heap s !! a with
  | Some u => set_heap (<[a := f u]> (heap s)) s
  | None => s
  end.

(** [this.users.get(socketId)], dereferenced *)
Definition lookupSocket (socketId : string) (s : State) : option (nat * User) :=
  match om_get socketId (users s) with
  | Some a => match heap s !! a with Some u => Some (a, u) | None => None end
  | None => None
  end.

(** [this.usersByUserId.get(userId)], dereferenced *)
Definition lookupUserId (userId : string) (s : State) : option (nat * User) :=
  match usersByUserId s !! userId with
  | Some a => match heap s !! a with Some u => Some (a, u) | None => None end
  | None => None
  end.

Definition getUser (socketId : string) (s : State) : option User :=
  snd <$> lookupSocket socketId s.

Definition getUserById (userId : string) (s : State) : option User :=
  snd <$> lookupUserId userId s.

Definition addToConnectionHistory (e : HistoryEntry) (s : State) : State :=
  let h := (connectionHistory s ++ [e])%list in
  let h' := if (maxHistorySize <? List.length h)%nat
            then slice_last maxHistorySize h else h in
  mkState (heap s) (users s) (usersByUserId s) (totalConnections s)
          h' (sessionTimeouts s) (timers s) (nextTimer s).

Definition clearSessionTimeout (userId : string) (s : State) : State :=
  match sessionTimeouts s !! userId with
  | Some t =>
      mkState (heap s) (users s) (usersByUserId s) (totalConnections s)
              (connectionHistory s) (delete userId (sessionTimeouts s))
              (delete t (timers s)) (nextTimer s)
  | None => s
  end.

Definition setSessionTimeout (userId : string) (s : State) : State :=
  let s := clearSessionTimeout userId s in
  let t := nextTimer s in
  mkState (heap s) (users s) (usersByUserId s) (totalConnections s)
          (connectionHistory s) (<[userId := t]> (sessionTimeouts s))
          (<[t := userId]> (timers s)) (S t).

Definition seedFlags : Flags := mkFlags false false false 1%float.
Definition seedStats : Stats := mkStats 0 0 0 0.

(** [createUser(socketId, profile = {})] *)
Definition createUser (socketId : string) (profile : value)
    (uuid : string) (now : Z) (s : State) : result User * State :=
  let profile := match profile with VUndefined => VObj [] | _ => profile end in
  match sanitizeProfile profile with
  | Throw e => (Throw e, s)
  | Ok p =>
      match extractPreferences profile with
      | Throw e => (Throw e, s)
      | Ok prefs =>
          let user := mkUser uuid socketId p now now "online" None prefs
                             seedStats seedFlags [] None in
          let a := List.length (heap s) in
          let s := mkState (heap s ++ [user]) (om_set socketId a (users s))
                           (<[uuid := a]> (usersByUserId s))
                           (totalConnections s + 1) (connectionHistory s)
                           (sessionTimeouts s) (timers s) (nextTimer s) in
          let s := addToConnectionHistory
                     (Connected uuid socketId now (getPublicProfile user)) s in
          let s := setSessionTimeout uuid s in
          (Ok user, s)
      end
  end.

Definition removeUser (socketId : string) (now : Z) (s : State) : bool * State :=
  match lookupSocket socketId s with
  | None => (false, s)
  | Some (_, user) =>
      let s := clearSessionTimeout (id user) s in
      let s := mkState (heap s) (om_delete socketId (users s))
                       (delete (id user) (usersByUserId s))
                       (totalConnections s) (connectionHistory s)
                       (sessionTimeouts s) (timers s) (nextTimer s) in
      let s := addToConnectionHistory
                 (Disconnected (id user) socketId now
                    (now - connectionTime user)
                    (totalChats (stats user)) (totalMessages (stats user))) s in
      (true, s)
  end.

Definition set_lastActivity (t : Z) (u : User) : User :=
  mkUser (id u) (socketId u) (profile u) (connectionTime u) t (status u)
         (currentChatId u) (preferences u) (stats u) (flags u)
         (u_violations u) (banInfo u).

Definition set_profile (p : Profile) (prefs : Preferences) (u : User) : User :=
  mkUser (id u) (socketId u) p (connectionTime u) (lastActivity u) (status u)
         (currentChatId u) prefs (stats u) (flags u)
         (u_violations u) (banInfo u).

Definition set_currentChatId (c : option string) (u : User) : User :=
  mkUser (id u) (socketId u) (profile u) (connectionTime u) (lastActivity u)
         (status u) c (preferences u) (stats u) (flags u)
         (u_violations u) (banInfo u).

Definition set_stats (st : Stats) (u : User) : User :=
  mkUser (id u) (socketId u) (profile u) (connectionTime u) (lastActivity u)
         (status u) (currentChatId u) (preferences u) st (flags u)
         (u_violations u) (banInfo u).

Definition set_flags (f : Flags) (u : User) : User :=
  mkUser (id u) (socketId u) (profile u) (connectionTime u) (lastActivity u)
         (status u) (currentChatId u) (preferences u) (stats u) f
         (u_violations u) (banInfo u).

Definition set_violations (vs : list Violation) (u : User) : User :=
  mkUser (id u) (socketId u) (profile u) (connectionTime u) (lastActivity u)
         (status u) (currentChatId u) (preferences u) (stats u) (flags u)
         vs (banInfo u).

Definition set_banInfo (b : option BanInfo) (u : User) : User :=
  mkUser (id u) (socketId u) (profile u) (connectionTime u) (lastActivity u)
         (status u) (currentChatId u) (preferences u) (stats u) (flags u)
         (u_violations u) b.

Definition updateActivity (socketId : string) (now : Z) (s : State) : State :=
  match lookupSocket socketId s with
  | Some (a, user) =>
      setSessionTimeout (id user) (modify a (set_lastActivity now) s)
  | None => s
  end.

Definition updateProfile (socketId : string) (profileUpdates : value)
    (now : Z) (s : State) : result bool * State :=
  match lookupSocket socketId s with
  | None => (Ok false, s)
  | Some (a, user) =>
      match sanitizeProfile profileUpdates with
      | Throw e => (Throw e, s)
      | Ok sanitizedUpdates =>
          let p := mergeProfile (profile user) sanitizedUpdates in
          match extractPreferences (profile_value p) with
          | Throw e => (Throw e, modify a (set_profile p (preferences user)) s)
          | Ok prefs =>
              (Ok true,
               modify a (fun u => set_lastActivity now (set_profile p prefs u)) s)
          end
      end
  end.

Definition setCurrentChat (socketId chatId : string) (now : Z) (s : State) : State :=
  match lookupSocket socketId s with
  | Some (a, _) =>
      modify a (fun u => set_lastActivity now (set_currentChatId (Some chatId) u)) s
  | None => s
  end.

Definition incr_totalChats (st : Stats) : Stats :=
  mkStats (totalChats st + 1) (totalMessages st) (averageChatDuration st)
          (violations st).

Definition clearCurrentChat (socketId : string) (now : Z) (s : State) : State :=
  match lookupSocket socketId s with
  | Some (a, _) =>
      modify a (fun u =>
        set_lastActivity now
          (set_stats (incr_totalChats (stats u)) (set_currentChatId None u))) s
  | None => s
  end.

(** The argument of [updateStats]: the statistics it carries *)
Record StatUpdates : Type := mkStatUpdates {
  su_totalChats : option Z;
  su_totalMessages : option Z;
  su_averageChatDuration : option Z;
  su_violations : option Z
}.

(** [Object.assign(stats, statUpdates)] *)
Definition assignStats (st : Stats) (upd : StatUpdates) : Stats :=
  mkStats (default (totalChats st) (su_totalChats upd))
          (default (totalMessages st) (su_totalMessages upd))
          (default (averageChatDuration st) (su_averageChatDuration upd))
          (default (violations st) (su_violations upd)).

Definition updateStats (socketId : string) (statUpdates : StatUpdates)
    (now : Z) (s : State) : State :=
  match lookupSocket socketId s with
  | Some (a, _) =>
      modify a (fun u =>
        set_lastActivity now (set_stats (assignStats (stats u) statUpdates) u)) s
  | None => s
  end.

Definition getViolationSeverity (violationType : string) : string :=
  default "medium"
    (assoc violationType
       [("spam", "medium"); ("inappropriate_content", "high");
        ("harassment", "high"); ("rate_limit_exceeded", "low");
        ("suspicious_behavior", "medium"); ("malicious_content", "high")]).

Definition ban (reason : string) (now : Z) (u : User) : User :=
  set_banInfo (Some (mkBanInfo reason now "system"))
    (set_flags (mkFlags (isReported (flags u)) true (isBot (flags u))
                        (trustScore (flags u))) u).

Definition banUser (userId reason : string) (now : Z) (s : State) : State :=
  match lookupUserId userId s with
  | Some (a, _) => modify a (ban reason now) s
  | None => s
  end.

Definition incr_violations (st : Stats) : Stats :=
  mkStats (totalChats st) (totalMessages st) (averageChatDuration st)
          (violations st + 1).

(** [Math.max(0, trustScore - 0.1)] *)
Definition decrTrust (t : float) : float :=
  Math_max 0%float (PrimFloat.sub t 0.1%float).

(** The body of [flagUser] up to the auto-ban test *)
Definition flag (violationType : string) (details : value) (now : Z)
    (u : User) : User :=
  set_violations
    (u_violations u ++
       [mkViolation violationType now details (getViolationSeverity violationType)])
    (set_flags (mkFlags (isReported (flags u)) (isBanned (flags u))
                        (isBot (flags u)) (decrTrust (trustScore (flags u))))
       (set_stats (incr_violations (stats u)) u)).

Definition autoBanDue (u : User) : bool :=
  (5 <=? violations (stats u)) || PrimFloat.leb (trustScore (flags u)) 0.3%float.

Definition autoBanReason : string := "Automated ban due to multiple violations".

(** [flagUser(userId, violationType, details = {})] *)
Definition flagUser (userId violationType : string) (details : value)
    (now : Z) (s : State) : State :=
  let details := match details with VUndefined => VObj [] | _ => details end in
  match lookupUserId userId s with
  | Some (a, user) =>
      let user' := flag violationType details now user in
      let s := modify a (fun _ => user') s in
      if autoBanDue user' then banUser userId autoBanReason now s else s
  | None => s
  end.

Definition isUserBanned (userId : string) (s : State) : bool :=
  match lookupUserId userId s with
  | Some (_, user) => isBanned (flags user)
  | None => false
  end.

Definition getOnlineCount (s : State) : nat := om_size (users s).

Definition inactiveSockets (threshold now : Z) (s : State) : list string :=
  List.map fst
    (List.filter
       (fun '(_, a) =>
          match heap s !! a with
          | Some user => threshold <? now - lastActivity user
          | None => false
          end)
       (users s)).

Definition cleanupInactiveUsers (inactivityThreshold now : Z) (s : State)
    : nat * State :=
  let inactiveUsers := inactiveSockets inactivityThreshold now s in
  (List.length inactiveUsers,
   fold_left (fun s socketId => snd (removeUser socketId now s)) inactiveUsers s).

(** The callback armed by [setSessionTimeout] *)
Definition sessionTimerFires (t : nat) (now : Z) (s : State) : State :=
  match timers s !! t with
  | Some userId =>
      let s := mkState (heap s) (users s) (usersByUserId s) (totalConnections s)
                       (connectionHistory s) (sessionTimeouts s)
                       (delete t (timers s)) (nextTimer s) in
      match lookupUserId userId s with
      | Some (_, user) => snd (removeUser (socketId user) now s)
      | None => s
      end
  | None => s
  end.

(** The operations that change the manager *)
Inductive Op : Type :=
| OpCreateUser (socketId : string) (profile : value) (uuid : string)
| OpRemoveUser (socketId : string)
| OpUpdateActivity (socketId : string)
| OpUpdateProfile (socketId : string) (profileUpdates : value)
| OpSetCurrentChat (socketId chatId : string)
| OpClearCurrentChat (socketId : string)
| OpUpdateStats (socketId : string) (statUpdates : StatUpdates)
| OpFlagUser (userId violationType : string) (details : value)
| OpBanUser (userId reason : string)
| OpCleanupInactiveUsers (inactivityThreshold : Z)
| OpSessionTimerFires (t : nat).

Definition step (op : Op) (now : Z) (s : State) : State :=
  match op with
  | OpCreateUser socketId profile uuid => snd (createUser socketId profile uuid now s)
  | OpRemoveUser socketId => snd (removeUser socketId now s)
  | OpUpdateActivity socketId => updateActivity socketId now s
  | OpUpdateProfile socketId upd => snd (updateProfile socketId upd now s)
  | OpSetCurrentChat socketId chatId => setCurrentChat socketId chatId now s
  | OpClearCurrentChat socketId => clearCurrentChat socketId now s
  | OpUpdateStats socketId upd => updateStats socketId upd now s
  | OpFlagUser userId violationType details =>
      flagUser userId violationType details now s
  | OpBanUser userId reason => banUser userId reason now s
  | OpCleanupInactiveUsers th => snd (cleanupInactiveUsers th now s)
  | OpSessionTimerFires t => sessionTimerFires t now s
  end.

Definition run (ops : list (Op * Z)) (s : State) : State :=
  fold_left (fun s '(op, now) => step op now s) ops s.

Inductive reachable : State -> Prop :=
| reachable_init : reachable init
| reachable_step s op now : reachable s -> reachable (step op now s).

(** *** Notions used to state the properties *)

(** What one operation may do to a session object: leave its flags
    alone or lower the trust score by one notch; a ban is never lifted. *)
Definition evolves (u u' : User) : Prop :=
  (trustScore (flags u') = trustScore (flags u)
   \/ trustScore (flags u') = decrTrust (trustScore (flags u)))
  /\ (isBanned (flags u) = true -> isBanned (flags u') = true).

(** What one operation may do to the heap: nothing, a mutation of one
    object, or the allocation of a freshly seeded one. *)
Inductive heapStep (h h' : list User) : Prop :=
| heapStep_same : h' = h -> heapStep h h'
| heapStep_mutate a u u' :
    h !! a = Some u -> h' = <[a := u']> h -> evolves u u' -> heapStep h h'
| heapStep_alloc u :
    h' = (h ++ [u])%list -> trustScore (flags u) = 1%float -> heapStep h h'.

(** The values a trust score passes through: [1.0] and what repeated
    [Math.max(0, t - 0.1)] makes of it. *)
Fixpoint trustChainFrom (n : nat) (t : float) : list float :=
  match n with
  | O => [t]
  | S n' => t :: trustChainFrom n' (decrTrust t)
  end.

Definition trustChain : list float := trustChainFrom 11 1%float.

Definition trustOk (u : User) : Prop := In (trustScore (flags u)) trustChain.

(** A session on socket [sock-1], and the same session after three
    flags. *)
Definition oneUser : State :=
  snd (createUser "sock-1" (VObj [("gender", VStr "Male")]) "user-1" 1000 init).

Definition flaggedUser : State :=
  run [(OpFlagUser "user-1" "spam" VUndefined, 2000);
       (OpFlagUser "user-1" "spam" VUndefined, 3000);
       (OpFlagUser "user-1" "harassment" VUndefined, 4000)] oneUser.

Definition bannedUser : State :=
  banUser "user-1" "manual" 5000 oneUser.

Definition user1 : User :=
  mkUser "user-1" "sock-1" (mkProfile (Some "male") None None None) 1000 1000
         "online" None
         (mkPreferences (VStr "any") (VStr "any") (VStr "any") (VArr []))
         seedStats seedFlags [] None.

Definition user1Flagged : User :=
  default user1 (heap flaggedUser !! 0%nat).

Definition user1Banned : User :=
  ban "manual" 5000 user1.

Definition afterBan : list (Op * Z) :=
  [(OpUpdateStats "sock-1" (mkStatUpdates None None None (Some 0)), 6000);
   (OpUpdateProfile "sock-1" (VObj [("age", VStr "18-25")]), 7000);
   (OpFlagUser "user-1" "spam" VUndefined, 8000);
   (OpUpdateActivity "sock-1", 9000)].

End UserManager.

(* --------------------------------------------------------------------- *)
(** ** src/managers/ChatManager.js *)
(* --------------------------------------------------------------------- *)

Module ChatManager.
Import Js.

Inductive Status : Type := active | ended.

Definition Status_eqb (a b : Status) : bool :=
  match a, b with
  | active, active | ended, ended => true
  | _, _ => false
  end.

(** The message object the socket handler passes to [addMessage] *)
Record MessageIn : Type := mkMessageIn {
  in_id : string;               (* "" stands for a missing / falsy id *)
  in_senderId : string;
  in_message : string;
  in_timestamp : string;
  in_type : string
}.

(** [enhancedMessage] *)
Record Message : Type := mkMessage {
  m_id : string;
  senderId : string;
  message : string;
  m_type : string;
  m_timestamp : Z;
  m_chatId : string;
  sequence : nat;
  edited : bool;
  editHistory : list string
}.

Record QualityIssue : Type := mkQualityIssue {
  q_type : value;
  q_timestamp : Z;
  q_details : value
}.

Record Report : Type := mkReport {
  r_id : string;
  reporterId : string;
  issueType : string;
  description : string;
  r_timestamp : Z;
  r_status : string
}.

Record Metadata : Type := mkMetadata {
  messageCount : Z;
  duration : Z;
  endedBy : option string;
  endReason : option string;
  webrtcEnabled : bool;
  qualityIssues : list QualityIssue;
  webrtcConnected : option bool;
  webrtcConnectedAt : option Z
}.

Record Settings : Type := mkSettings {
  maxMessages : nat;
  allowWebRTC : bool;
  contentFilterEnabled : bool;
  recordingEnabled : bool
}.

Record Analytics : Type := mkAnalytics {
  responseTime : list Z;
  activeTime : Z;
  silentPeriods : Z;
  lastMessageTime : Z;
  lastTypingTime : option Z;
  webrtcDuration : option Z;
  averageResponseTime : option float;
  engagementScore : option float
}.

Record Chat : Type := mkChat {
  id : string;
  type : value;
  participants : list string;
  createdAt : Z;
  lastActivity : Z;
  status : Status;
  messages : list Message;
  metadata : Metadata;
  settings : Settings;
  analytics : Analytics;
  endedAt : option Z;
  timeoutId : option nat;
  reports : option (list Report)
}.

Record HistoryEntry : Type := mkHistoryEntry {
  h_id : string;
  h_type : value;
  h_createdAt : Z;
  h_endedAt : option Z;
  h_duration : Z;
  h_messageCount : Z;
  h_endReason : option string;
  h_engagementScore : float;
  h_qualityIssues : nat;
  h_webrtcDuration : Z
}.

Record State : Type := mkState {
  chats : omap Chat;                   (* chatId -> Chat *)
  userChats : gmap string string;      (* userId -> chatId *)
  chatHistory : list HistoryEntry;
  totalChats : Z;
  totalMessages : Z;
  timers : gmap nat string;            (* armed timer -> chatId it closes over *)
  nextTimer : nat
}.

Definition maxHistorySize : nat := 10000.
Definition maxChatDuration : Z := 60 * 60 * 1000.
Definition maxMessagesPerChat : nat := 1000.

Definition init : State := mkState [] ∅ [] 0 0 ∅ 0.

Definition slice_last {A} (n : nat) (l : list A) : list A :=
  skipn (List.length l - n) l.

Definition set_chats (c : omap Chat) (s : State) : State :=
  mkState c (userChats s) (chatHistory s) (totalChats s) (totalMessages s)
          (timers s) (nextTimer s).

Definition set_timeoutId (t : option nat) (c : Chat) : Chat :=
  mkChat (id c) (type c) (participants c) (createdAt c) (lastActivity c)
         (status c) (messages c) (metadata c) (settings c) (analytics c)
         (endedAt c) t (reports c).

Definition set_lastActivity (t : Z) (c : Chat) : Chat :=
  mkChat (id c) (type c) (participants c) (createdAt c) t
         (status c) (messages c) (metadata c) (settings c) (analytics c)
         (endedAt c) (timeoutId c) (reports c).

Definition set_metadata (m : Metadata) (c : Chat) : Chat :=
  mkChat (id c) (type c) (participants c) (createdAt c) (lastActivity c)
         (status c) (messages c) m (settings c) (analytics c)
         (endedAt c) (timeoutId c) (reports c).

Definition set_analytics (a : Analytics) (c : Chat) : Chat :=
  mkChat (id c) (type c) (participants c) (createdAt c) (lastActivity c)
         (status c) (messages c) (metadata c) (settings c) a
         (endedAt c) (timeoutId c) (reports c).

Definition set_messages (ms : list Message) (c : Chat) : Chat :=
  mkChat (id c) (type c) (participants c) (createdAt c) (lastActivity c)
         (status c) ms (metadata c) (settings c) (analytics c)
         (endedAt c) (timeoutId c) (reports c).

Definition set_reports (r : option (list Report)) (c : Chat) : Chat :=
  mkChat (id c) (type c) (participants c) (createdAt c) (lastActivity c)
         (status c) (messages c) (metadata c) (settings c) (analytics c)
         (endedAt c) (timeoutId c) r.

Definition set_ended (now : Z) (c : Chat) : Chat :=
  mkChat (id c) (type c) (participants c) (createdAt c) (lastActivity c)
         ended (messages c) (metadata c) (settings c) (analytics c)
         (Some now) (timeoutId c) (reports c).

Definition getChat (chatId : string) (s : State) : option Chat :=
  om_get chatId (chats s).

Definition getUserCurrentChat (userId : string) (s : State) : option Chat :=
  match userChats s !! userId with
  | Some chatId => if String.eqb chatId "" then None else om_get chatId (chats s)
  | None => None
  end.

Definition clearChatTimeout (chatId : string) (s : State) : State :=
  match om_get chatId (chats s) with
  | Some chat =>
      match timeoutId chat with
      | Some t =>
          mkState (om_set chatId (set_timeoutId None chat) (chats s))
                  (userChats s) (chatHistory s) (totalChats s) (totalMessages s)
                  (delete t (timers s)) (nextTimer s)
      | None => s
      end
  | None => s
  end.

Definition setChatTimeout (chatId : string) (s : State) : State :=
  let s := clearChatTimeout chatId s in
  let t := nextTimer s in
  let chats' :=
    match om_get chatId (chats s) with
    | Some chat => om_set chatId (set_timeoutId (Some t) chat) (chats s)
    | None => chats s
    end in
  mkState chats' (userChats s) (chatHistory s) (totalChats s) (totalMessages s)
          (<[t := chatId]> (timers s)) (S t).

(** [createChat(user1Id, user2Id, chatType = 'text')] *)
Definition createChat (user1Id user2Id : string) (chatType : value)
    (uuid : string) (now : Z) (s : State) : Chat * State :=
  let chatType := match chatType with VUndefined => VStr "text" | _ => chatType end in
  let chatId := uuid in
  let chat :=
    mkChat chatId chatType [user1Id; user2Id] now now active []
           (mkMetadata 0 0 None None (strict_eq_str chatType "video") [] None None)
           (mkSettings maxMessagesPerChat (strict_eq_str chatType "video") true false)
           (mkAnalytics [] 0 0 now None None None None)
           None None None in
  let s := mkState (om_set chatId chat (chats s))
                   (<[user2Id := chatId]> (<[user1Id := chatId]> (userChats s)))
                   (chatHistory s) (totalChats s + 1) (totalMessages s)
                   (timers s) (nextTimer s) in
  let s := setChatTimeout chatId s in
  (default chat (om_get chatId (chats s)), s).

Definition sumZ (l : list Z) : Z := fold_left Z.add l 0.

Definition calculateEngagementScore (chat : Chat) : float :=
  if (List.length (messages chat) =? 0)%nat then 0%float else
  let duration := Z2F (duration (metadata chat)) in
  let messageCount := Z2F (Z.of_nat (List.length (messages chat))) in
  let activeTime := Z2F (activeTime (analytics chat)) in
  let silentPeriods := Z2F (silentPeriods (analytics chat)) in
  let messageFrequency := (messageCount / (duration / 60000))%float in
  let score := Math_min (messageFrequency * 10)%float 50%float in
  let score :=
    if PrimFloat.ltb 0%float duration
    then (score + (activeTime / duration) * 30)%float
    else score in
  let score := (score - Math_min (silentPeriods * 5)%float 20%float)%float in
  Math_max 0%float (Math_min 100%float score).

Definition calculateFinalAnalytics (chat : Chat) : Chat :=
  if (0 <? List.length (messages chat))%nat then
    let a := analytics chat in
    let avg :=
      if (0 <? List.length (responseTime a))%nat
      then Some (Z2F (sumZ (responseTime a))
                 / Z2F (Z.of_nat (List.length (responseTime a))))%float
      else averageResponseTime a in
    let chat := set_analytics
                  (mkAnalytics (responseTime a) (activeTime a) (silentPeriods a)
                     (lastMessageTime a) (lastTypingTime a) (webrtcDuration a)
                     avg (engagementScore a)) chat in
    let a := analytics chat in
    set_analytics
      (mkAnalytics (responseTime a) (activeTime a) (silentPeriods a)
         (lastMessageTime a) (lastTypingTime a) (webrtcDuration a)
         (averageResponseTime a) (Some (calculateEngagementScore chat))) chat
  else chat.

Definition historyEntry (chat : Chat) : HistoryEntry :=
  mkHistoryEntry (id chat) (type chat) (createdAt chat) (endedAt chat)
    (duration (metadata chat)) (messageCount (metadata chat))
    (endReason (metadata chat))
    (match engagementScore (analytics chat) with
     | Some x => orF x 0%float
     | None => 0%float
     end)
    (List.length (qualityIssues (metadata chat)))
    (default 0 (webrtcDuration (analytics chat))).

Definition addToHistory (chat : Chat) (s : State) : State :=
  let h := (chatHistory s ++ [historyEntry chat])%list in
  let h' := if (maxHistorySize <? List.length h)%nat
            then slice_last maxHistorySize h else h in
  mkState (chats s) (userChats s) h' (totalChats s) (totalMessages s)
          (timers s) (nextTimer s).

Definition markEnded (reason : string) (endedBy : option string) (now : Z)
    (chat : Chat) : Chat :=
  let m := metadata chat in
  set_ended now
    (set_metadata
       (mkMetadata (messageCount m) (now - createdAt chat) endedBy (Some reason)
                   (webrtcEnabled m) (qualityIssues m) (webrtcConnected m)
                   (webrtcConnectedAt m)) chat).

(** [endChat(chatId, reason = 'user_action', endedBy = null)] *)
Definition endChat (chatId : string) (reason : option string)
    (endedBy : option string) (now : Z) (s : State) : bool * State :=
  let reason := default "user_action" reason in
  match om_get chatId (chats s) with
  | None => (false, s)
  | Some chat =>
      let chat := calculateFinalAnalytics (markEnded reason endedBy now chat) in
      let s := mkState (om_set chatId chat (chats s))
                       (fold_left (fun m userId => delete userId m)
                                  (participants chat) (userChats s))
                       (chatHistory s) (totalChats s) (totalMessages s)
                       (timers s) (nextTimer s) in
      let s := addToHistory chat s in
      let s := set_chats (om_delete chatId (chats s)) s in
      let s := clearChatTimeout chatId s in
      (true, s)
  end.

Definition updateChatAnalytics (now : Z) (chat : Chat) : Chat :=
  let a := analytics chat in
  let last := lastMessageTime a in
  let rt :=
    if (1 <? List.length (messages chat))%nat then
      let r := (responseTime a ++ [now - last])%list in
      if (50 <? List.length r)%nat then slice_last 50 r else r
    else responseTime a in
  let timeSinceLastMessage := now - last in
  let within := timeSinceLastMessage <? 60000 in
  set_analytics
    (mkAnalytics rt
       (if within then activeTime a + timeSinceLastMessage else activeTime a)
       (if within then silentPeriods a else silentPeriods a + 1)
       now (lastTypingTime a) (webrtcDuration a)
       (averageResponseTime a) (engagementScore a)) chat.

Definition enhance (chatId : string) (m : MessageIn) (uuid : string) (now : Z)
    (seq : nat) : Message :=
  mkMessage (if String.eqb (in_id m) "" then uuid else in_id m)
            (in_senderId m) (in_message m) (in_type m) now chatId seq false [].

Definition incr_messageCount (m : Metadata) : Metadata :=
  mkMetadata (messageCount m + 1) (duration m) (endedBy m) (endReason m)
             (webrtcEnabled m) (qualityIssues m) (webrtcConnected m)
             (webrtcConnectedAt m).

(** [addMessage(chatId, message)] *)
Definition addMessage (chatId : string) (msg : MessageIn) (uuid : string)
    (now : Z) (s : State) : bool * State :=
  match om_get chatId (chats s) with
  | None => (false, s)
  | Some chat =>
      if negb (Status_eqb (status chat) active) then (false, s)
      else if (maxMessages (settings chat) <=? List.length (messages chat))%nat
      then (false, snd (endChat chatId (Some "message_limit_reached") None now s))
      else
        let enhancedMessage :=
          enhance chatId msg uuid now (List.length (messages chat) + 1) in
        let chat :=
          set_lastActivity now
            (set_metadata (incr_messageCount (metadata chat))
               (set_messages (messages chat ++ [enhancedMessage]) chat)) in
        let chat := updateChatAnalytics now chat in
        let s := mkState (om_set chatId chat (chats s)) (userChats s)
                         (chatHistory s) (totalChats s) (totalMessages s + 1)
                         (timers s) (nextTimer s) in
        (true, setChatTimeout chatId s)
  end.

Definition applyActivity (activityType : string) (data : value) (now : Z)
    (chat : Chat) : result Chat :=
  let m := metadata chat in
  let a := analytics chat in
  if String.eqb activityType "typing" then
    Ok (set_analytics
          (mkAnalytics (responseTime a) (activeTime a) (silentPeriods a)
             (lastMessageTime a) (Some now) (webrtcDuration a)
             (averageResponseTime a) (engagementScore a)) chat)
  else if String.eqb activityType "webrtc_connected" then
    Ok (set_metadata
          (mkMetadata (messageCount m) (duration m) (endedBy m) (endReason m)
             (webrtcEnabled m) (qualityIssues m) (Some true) (Some now)) chat)
  else if String.eqb activityType "webrtc_disconnected" then
    let chat := set_metadata
          (mkMetadata (messageCount m) (duration m) (endedBy m) (endReason m)
             (webrtcEnabled m) (qualityIssues m) (Some false)
             (webrtcConnectedAt m)) chat in
    Ok (match webrtcConnectedAt m with
        | Some t =>
            set_analytics
              (mkAnalytics (responseTime a) (activeTime a) (silentPeriods a)
                 (lastMessageTime a) (lastTypingTime a)
                 (Some (default 0 (webrtcDuration a) + (now - t)))
                 (averageResponseTime a) (engagementScore a)) chat
        | None => chat
        end)
  else if String.eqb activityType "quality_issue" then
    bind (getProp data "type") (fun ty =>
    bind (getProp data "details") (fun details =>
    Ok (set_metadata
          (mkMetadata (messageCount m) (duration m) (endedBy m) (endReason m)
             (webrtcEnabled m)
             (qualityIssues m ++ [mkQualityIssue ty now details])
             (webrtcConnected m) (webrtcConnectedAt m)) chat)))
  else Ok chat.

(** [updateActivity(chatId, activityType, data = {})] *)
Definition updateActivity (chatId activityType : string) (data : value)
    (now : Z) (s : State) : result unit * State :=
  let data := match data with VUndefined => VObj [] | _ => data end in
  match om_get chatId (chats s) with
  | None => (Ok tt, s)
  | Some chat =>
      let chat := set_lastActivity now chat in
      match applyActivity activityType data now chat with
      | Ok chat' => (Ok tt, setChatTimeout chatId (set_chats (om_set chatId chat' (chats s)) s))
      | Throw e => (Throw e, set_chats (om_set chatId chat (chats s)) s)
      end
  end.

Definition inactiveChats (threshold now : Z) (s : State) : list string :=
  List.map fst
    (List.filter (fun '(_, chat) => threshold <? now - lastActivity chat) (chats s)).

Definition cleanupInactiveChats (inactivityThreshold now : Z) (s : State)
    : nat * State :=
  let inactive := inactiveChats inactivityThreshold now s in
  (List.length inactive,
   fold_left (fun s chatId => snd (endChat chatId (Some "inactive_timeout") None now s))
             inactive s).

Definition severeIssues : list string :=
  ["harassment"; "inappropriate_content"; "spam"].

Definition reportIssue (chatId reporterId issueType description uuid : string)
    (now : Z) (s : State) : bool * State :=
  match om_get chatId (chats s) with
  | None => (false, s)
  | Some chat =>
      let r := mkReport uuid reporterId issueType description now "pending" in
      let chat := set_reports (Some (default [] (reports chat) ++ [r])%list) chat in
      let s := set_chats (om_set chatId chat (chats s)) s in
      let s :=
        if arr_includes severeIssues issueType
        then snd (endChat chatId (Some (String.append "reported_" issueType))
                          (Some reporterId) now s)
        else s in
      (true, s)
  end.

(** The callback armed by [setChatTimeout] *)
Definition chatTimerFires (t : nat) (now : Z) (s : State) : State :=
  match timers s !! t with
  | Some chatId =>
      let s := mkState (chats s) (userChats s) (chatHistory s) (totalChats s)
                       (totalMessages s) (delete t (timers s)) (nextTimer s) in
      snd (endChat chatId (Some "timeout") None now s)
  | None => s
  end.

Inductive Op : Type :=
| OpCreateChat (user1Id user2Id : string) (chatType : value) (uuid : string)
| OpAddMessage (chatId : string) (msg : MessageIn) (uuid : string)
| OpEndChat (chatId : string) (reason endedBy : option string)
| OpUpdateActivity (chatId activityType : string) (data : value)
| OpCleanupInactiveChats (inactivityThreshold : Z)
| OpReportIssue (chatId reporterId issueType description uuid : string)
| OpChatTimerFires (t : nat).

Definition step (op : Op) (now : Z) (s : State) : State :=
  match op with
  | OpCreateChat u1 u2 ty uuid => snd (createChat u1 u2 ty uuid now s)
  | OpAddMessage chatId msg uuid => snd (addMessage chatId msg uuid now s)
  | OpEndChat chatId reason endedBy => snd (endChat chatId reason endedBy now s)
  | OpUpdateActivity chatId ty data => snd (updateActivity chatId ty data now s)
  | OpCleanupInactiveChats th => snd (cleanupInactiveChats th now s)
  | OpReportIssue chatId rep ty desc uuid =>
      snd (reportIssue chatId rep ty desc uuid now s)
  | OpChatTimerFires t => chatTimerFires t now s
  end.

Definition run (ops : list (Op * Z)) (s : State) : State :=
  fold_left (fun s '(op, now) => step op now s) ops s.

Inductive reachable : State -> Prop :=
| reachable_init : reachable init
| reachable_step s op now : reachable s -> reachable (step op now s).

(** Rooms of the active map in which [u] takes part *)
Definition roomsOf (u : string) (s : State) : list string :=
  List.map fst
    (List.filter
       (fun '(_, chat) =>
          Status_eqb (status chat) active && arr_includes (participants chat) u)
       (chats s)).

(** Each user participates in at most one active room *)
Definition atMostOneRoom (s : State) : Prop :=
  forall u, (List.length (roomsOf u s) <= 1)%nat.

Definition sequences (chat : Chat) : list nat :=
  List.map sequence (messages chat).

(** *** Notions used to state the properties *)

(** Two rooms that differ at most in the armed timer *)
Definition sameButTimer (c c' : Chat) : Prop :=
  id c' = id c /\ participants c' = participants c /\ status c' = status c
  /\ messages c' = messages c /\ settings c' = settings c.

(** What holds of every binding of the active map in a reachable state *)
Definition wellFormed (kc : string * Chat) : Prop :=
  id (snd kc) = fst kc
  /\ status (snd kc) = active
  /\ maxMessages (settings (snd kc)) = maxMessagesPerChat
  /\ sequences (snd kc) = seq 1 (List.length (messages (snd kc))).

(** One room between alice and bob; a message as the socket handler
    builds it. *)
Definition oneRoom : State :=
  snd (createChat "alice" "bob" (VStr "text") "room-1" 1000 init).

Definition msgFrom (sender text : string) : MessageIn :=
  mkMessageIn "" sender text "2024-01-01T00:00:00.000Z" "user".

Definition twoMessages : State :=
  run [(OpAddMessage "room-1" (msgFrom "alice" "hi") "m-1", 2000);
       (OpAddMessage "room-1" (msgFrom "bob" "hello") "m-2", 3000)] oneRoom.

(** [n] messages from alice, one second apart *)
Fixpoint sendMany (n : nat) (now : Z) (s : State) : State :=
  match n with
  | O => s
  | S n' =>
      sendMany n' (now + 1000)
        (snd (addMessage "room-1" (msgFrom "alice" "hi") "m" now s))
  end.

Definition roomAfterTwo : Chat :=
  default (fst (createChat "alice" "bob" (VStr "text") "room-1" 1000 init))
          (getChat "room-1" twoMessages).

End ChatManager.

(* --------------------------------------------------------------------- *)
(** ** src/services/MatchingEngine.js *)
(* --------------------------------------------------------------------- *)

Module MatchingEngine.
Import Js.

(** The queue operations ([addToQueue], [removeFromQueue],
    [cleanupQueue]) and the scoring functions.  The matching loop
    ([findMatch], [findBestMatch], [processMatchingQueue]) reads the
    entries, counts its attempts on them and takes matched pairs out
    through [removeFromQueue]; the properties below do not involve it. *)

Record Weights : Type := mkWeights {
  w_gender : float;
  w_age : float;
  w_location : float;
  w_interests : float;
  w_trustScore : float
}.

(** [this.weights] as the constructor sets it *)
Definition weights : Weights :=
  mkWeights 0.3%float 0.2%float 0.15%float 0.25%float 0.1%float.

Definition maxQueueSize : nat := 1000.
Definition maxWaitTime : Z := 5 * 60 * 1000.

(** The object [sanitizePreferences] returns *)
Record QPreferences : Type := mkQPreferences {
  chatType : value;
  gender : value;
  age : value;
  location : value;
  keywords : list value
}.

Record Requirement : Type := mkRequirement {
  r_type : string;
  r_value : value;
  strict : bool
}.

Record Compatibility : Type := mkCompatibility {
  requirements : list Requirement;
  flexibility : float
}.

(** A queue entry.  [user] is a reference to the session object of the
    UserManager; the engine only reads it, and the record here stands
    for the object's contents at the time of the read. *)
Record QueueEntry : Type := mkQueueEntry {
  id : string;
  userId : string;
  user : UserManager.User;
  preferences : QPreferences;
  queuedAt : Z;
  attempts : Z;
  lastAttempt : option Z;
  priority : float;
  compatibility : Compatibility
}.

Inductive QueueHistoryEntry : Type :=
| Queued (userId : string) (timestamp : Z) (preferences : value)
| Removed (userId : string) (timestamp : Z).

Record State : Type := mkState {
  matchingQueue : omap QueueEntry;     (* userId -> QueueEntry *)
  queueHistory : list QueueHistoryEntry
}.

Definition init : State := mkState [] [].

Definition sanitizePreferences (preferences : value) : result QPreferences :=
  bind (getProp preferences "chatType") (fun c =>
  bind (getProp preferences "gender") (fun g =>
  bind (getProp preferences "age") (fun a =>
  bind (getProp preferences "location") (fun l =>
  bind (getProp preferences "keywords") (fun k =>
  Ok (mkQPreferences (js_or c (VStr "text")) (js_or g (VStr "any"))
        (js_or a (VStr "any")) (js_or l (VStr "any"))
        (match k with VArr l => l | _ => [] end))))))).

Definition calculatePriority (user : UserManager.User) (now : Z) : float :=
  let priority := 1%float in
  let priority :=
    (priority + (UserManager.trustScore (UserManager.flags user) - 0.5) * 0.5)%float in
  let priority :=
    (priority - Z2F (UserManager.violations (UserManager.stats user)) * 0.1)%float in
  let hoursSinceConnection :=
    (Z2F (now - UserManager.connectionTime user) / Z2F (60 * 60 * 1000))%float in
  let priority :=
    if PrimFloat.ltb hoursSinceConnection 1%float
    then (priority + 0.2)%float else priority in
  Math_max 0.1%float (Math_min 2%float priority).

Definition calculateFlexibility (preferences : value) : result float :=
  bind (getProp preferences "gender") (fun g =>
  bind (getProp preferences "age") (fun a =>
  bind (getProp preferences "location") (fun l =>
  bind (getProp preferences "keywords") (fun k =>
  let b2z (b : bool) : Z := if b then 1 else 0 in
  let flexibilityScore :=
    b2z (strict_eq_str g "any")
    + b2z (negb (truthy a) || strict_eq_str a "any")
    + b2z (negb (truthy l) || strict_eq_str l "any")
    + b2z (negb (truthy k) || is0 (getLength k)) in
  Ok (Z2F flexibilityScore / Z2F 4)%float)))).

Definition extractRequirements (preferences : value) : result (list Requirement) :=
  bind (getProp preferences "gender") (fun g =>
  bind (getProp preferences "age") (fun a =>
  bind (getProp preferences "location") (fun l =>
  bind (getProp preferences "keywords") (fun k =>
  let req (c : bool) (r : Requirement) := if c then [r] else [] in
  Ok (req (truthy g && negb (strict_eq_str g "any"))
          (mkRequirement "gender" g true) ++
      req (truthy a && negb (strict_eq_str a "any"))
          (mkRequirement "age" a false) ++
      req (truthy l && negb (strict_eq_str l "any"))
          (mkRequirement "location" l false) ++
      req (truthy k && gt0 (getLength k))
          (mkRequirement "interests" k false))%list)))).

(** [addToQueue(user, preferences)] *)
Definition addToQueue (user : UserManager.User) (preferences : value)
    (uuid : string) (now : Z) (s : State) : result QueueEntry * State :=
  match om_get (UserManager.id user) (matchingQueue s) with
  | Some entry => (Ok entry, s)
  | None =>
      if (maxQueueSize <=? om_size (matchingQueue s))%nat
      then (Throw QueueFullError, s)
      else
        match
          bind (sanitizePreferences preferences) (fun prefs =>
          bind (extractRequirements preferences) (fun reqs =>
          bind (calculateFlexibility preferences) (fun flex =>
          Ok (mkQueueEntry uuid (UserManager.id user) user prefs now 0 None
                (calculatePriority user now) (mkCompatibility reqs flex)))))
        with
        | Throw e => (Throw e, s)
        | Ok queueEntry =>
            (Ok queueEntry,
             mkState (om_set (UserManager.id user) queueEntry (matchingQueue s))
                     (queueHistory s ++
                        [Queued (UserManager.id user) now preferences]))
        end
  end.

Definition removeFromQueue (userId : string) (now : Z) (s : State) : bool * State :=
  if om_has userId (matchingQueue s)
  then (true, mkState (om_delete userId (matchingQueue s))
                      (queueHistory s ++ [Removed userId now]))
  else (false, s).

Definition staleEntries (now : Z) (s : State) : list string :=
  List.map fst
    (List.filter (fun '(_, entry) => maxWaitTime <? now - queuedAt entry)
                 (matchingQueue s)).

Definition cleanupQueue (now : Z) (s : State) : nat * State :=
  let stale := staleEntries now s in
  (List.length stale,
   fold_left (fun s userId => snd (removeFromQueue userId now s)) stale s).

(** Successive calls of [addToQueue]: each call comes with the session
    object as it is then, the preferences sent, and what [uuidv4] and
    the clock return. *)
Definition Call : Type := (UserManager.User * value * string * Z)%type.

Fixpoint addToQueueMany (calls : list Call) (s : State)
    : list (result QueueEntry) * State :=
  match calls with
  | [] => ([], s)
  | (user, preferences, uuid, now) :: rest =>
      let '(r, s1) := addToQueue user preferences uuid now s in
      let '(rs, s2) := addToQueueMany rest s1 in
      (r :: rs, s2)
  end.

(** Entries of the queue that belong to [uid] *)
Definition entriesOf (uid : string) (s : State) : list QueueEntry :=
  List.filter (fun e => String.eqb (userId e) uid) (om_values (matchingQueue s)).

(** *** Compatibility scoring *)

Definition falsy_str (o : option string) : bool :=
  match o with
  | Some s => String.eqb s ""
  | None => true
  end.

Definition calculateGenderCompatibility (entry1 entry2 : QueueEntry) : float :=
  let pref1 := js_or (gender (preferences entry1)) (VStr "any") in
  let pref2 := js_or (gender (preferences entry2)) (VStr "any") in
  let gender1 :=
    UserManager.or_str (UserManager.gender (UserManager.profile (user entry1)))
                       "not-specified" in
  let gender2 :=
    UserManager.or_str (UserManager.gender (UserManager.profile (user entry2)))
                       "not-specified" in
  if strict_eq_str pref1 "any" && strict_eq_str pref2 "any" then 1%float else
  let score := 0%float in
  let score :=
    if strict_eq_str pref1 "any" || strict_eq_str pref1 gender2
    then (score + 0.5)%float else score in
  let score :=
    if strict_eq_str pref2 "any" || strict_eq_str pref2 gender1
    then (score + 0.5)%float else score in
  score.

Definition calculateAgeCompatibility (entry1 entry2 : QueueEntry) : float :=
  let age1 := UserManager.age (UserManager.profile (user entry1)) in
  let age2 := UserManager.age (UserManager.profile (user entry2)) in
  let prefAge1 := age (preferences entry1) in
  let prefAge2 := age (preferences entry2) in
  match age1, age2 with
  | Some a1, Some a2 =>
      if String.eqb a1 "" || String.eqb a2 ""
         || String.eqb a1 "not-specified" || String.eqb a2 "not-specified"
      then 0.5%float
      else if String.eqb a1 a2 then 1%float
      else
        let score := 0%float in
        let score :=
          if negb (truthy prefAge1) || strict_eq_str prefAge1 "any"
             || strict_eq_str prefAge1 a2
          then (score + 0.5)%float else score in
        let score :=
          if negb (truthy prefAge2) || strict_eq_str prefAge2 "any"
             || strict_eq_str prefAge2 a1
          then (score + 0.5)%float else score in
        score
  | _, _ => 0.5%float
  end.

Definition calculateLocationCompatibility (entry1 entry2 : QueueEntry) : float :=
  let loc1 := UserManager.location (UserManager.profile (user entry1)) in
  let loc2 := UserManager.location (UserManager.profile (user entry2)) in
  match loc1, loc2 with
  | Some l1, Some l2 =>
      if String.eqb l1 "" || String.eqb l2 "" then 0.5%float else
      let location1 := toLowerCase l1 in
      let location2 := toLowerCase l2 in
      if String.eqb location1 location2 then 1%float else
      let country1 := trim (split_comma_head location1) in
      let country2 := trim (split_comma_head location2) in
      if String.eqb country1 country2 then 0.8%float else
      if includes location1 location2 || includes location2 location1
      then 0.6%float
      else 0.3%float
  | _, _ => 0.5%float
  end.

Definition calculateInterestCompatibility (entry1 entry2 : QueueEntry) : float :=
  let interests1 :=
    default [] (UserManager.keywords (UserManager.profile (user entry1))) in
  let interests2 :=
    default [] (UserManager.keywords (UserManager.profile (user entry2))) in
  if (List.length interests1 =? 0)%nat && (List.length interests2 =? 0)%nat
  then 0.5%float
  else if (List.length interests1 =? 0)%nat || (List.length interests2 =? 0)%nat
  then 0.4%float
  else
    let set1 : gset string := list_to_set (List.map toLowerCase interests1) in
    let set2 : gset string := list_to_set (List.map toLowerCase interests2) in
    let intersection : gset string := filter (fun x => x ∈ set2) set1 in
    let union : gset string := set1 ∪ set2 in
    let jaccardSimilarity :=
      (Z2F (Z.of_nat (size intersection)) / Z2F (Z.of_nat (size union)))%float in
    let commonCount := Z2F (Z.of_nat (size intersection)) in
    let bonus := Math_min (commonCount * 0.1)%float 0.3%float in
    Math_min (jaccardSimilarity + bonus)%float 1%float.

Definition calculateTrustCompatibility (entry1 entry2 : QueueEntry) : float :=
  let trust1 := orF (UserManager.trustScore (UserManager.flags (user entry1))) 1%float in
  let trust2 := orF (UserManager.trustScore (UserManager.flags (user entry2))) 1%float in
  let averageTrust := ((trust1 + trust2) / 2)%float in
  let trustDifference := PrimFloat.abs (trust1 - trust2)%float in
  (averageTrust * (1 - trustDifference * 0.5))%float.

Definition calculateCompatibility (w : Weights) (entry1 entry2 : QueueEntry)
    : float :=
  let totalScore := 0%float in
  let totalWeight := 0%float in
  let genderScore := calculateGenderCompatibility entry1 entry2 in
  let totalScore := (totalScore + genderScore * w_gender w)%float in
  let totalWeight := (totalWeight + w_gender w)%float in
  let ageScore := calculateAgeCompatibility entry1 entry2 in
  let totalScore := (totalScore + ageScore * w_age w)%float in
  let totalWeight := (totalWeight + w_age w)%float in
  let locationScore := calculateLocationCompatibility entry1 entry2 in
  let totalScore := (totalScore + locationScore * w_location w)%float in
  let totalWeight := (totalWeight + w_location w)%float in
  let interestScore := calculateInterestCompatibility entry1 entry2 in
  let totalScore := (totalScore + interestScore * w_interests w)%float in
  let totalWeight := (totalWeight + w_interests w)%float in
  let trustScore := calculateTrustCompatibility entry1 entry2 in
  let totalScore := (totalScore + trustScore * w_trustScore w)%float in
  let totalWeight := (totalWeight + w_trustScore w)%float in
  if PrimFloat.ltb 0%float totalWeight
  then (totalScore / totalWeight)%float else 0%float.

Definition getMinimumCompatibility (queueEntry : QueueEntry) (now : Z) : float :=
  let baseThreshold := 0.3%float in
  let waitTime := Z2F (now - queuedAt queueEntry) in
  let waitMinutes := (waitTime / Z2F (60 * 1000))%float in
  let reduction := Math_min (waitMinutes * 0.02)%float 0.2%float in
  Math_max (baseThreshold - reduction)%float 0.1%float.

(** *** Notions used to state the properties *)

Definition callUser (c : Call) : UserManager.User := fst (fst (fst c)).

(** Every binding of the queue sits under the id of its user *)
Definition keyed (s : State) : Prop :=
  Forall (fun kc : string * QueueEntry => userId (snd kc) = fst kc) (matchingQueue s).

(** A first call for the session of [user-1], and two later calls. *)
Definition firstPreferences : value :=
  VObj [("chatType", VStr "video"); ("gender", VStr "female")].

Definition queuedOnce : result QueueEntry * State :=
  addToQueue UserManager.user1 firstPreferences "entry-1" 5000 init.

Definition entry1 : QueueEntry :=
  mkQueueEntry "entry-1" "user-1" UserManager.user1
    (mkQPreferences (VStr "video") (VStr "female") (VStr "any") (VStr "any") [])
    5000 0 None 1.45%float
    (mkCompatibility [mkRequirement "gender" (VStr "female") true] 0.75%float).

(** Two entries with full profiles *)
Definition entryParis : QueueEntry :=
  mkQueueEntry "entry-9" "user-9"
    (UserManager.mkUser "user-9" "sock-9"
       (UserManager.mkProfile (Some "female") (Some "Paris, France") (Some "18-25")
                              (Some ["Music"; "chess"]))
       0 0 "online" None
       (UserManager.mkPreferences (VStr "any") (VStr "any") (VStr "any") (VArr []))
       UserManager.seedStats (UserManager.mkFlags false false false 0.8%float) [] None)
    (mkQPreferences (VStr "text") (VStr "male") (VStr "any") (VStr "any") [])
    0 0 None 1%float (mkCompatibility [] 1%float).

Definition entryLyon : QueueEntry :=
  mkQueueEntry "entry-8" "user-8"
    (UserManager.mkUser "user-8" "sock-8"
       (UserManager.mkProfile (Some "male") (Some "Lyon, France") (Some "26-35")
                              (Some ["music"; "go"; "tea"]))
       0 0 "online" None
       (UserManager.mkPreferences (VStr "any") (VStr "any") (VStr "any") (VArr []))
       UserManager.seedStats UserManager.seedFlags [] None)
    (mkQPreferences (VStr "text") (VStr "female") (VStr "18-25") (VStr "any") [])
    0 0 None 1%float (mkCompatibility [] 1%float).

Definition laterCalls : list Call :=
  [(UserManager.user1, VNull, "entry-2", 6000);
   (UserManager.user1Banned, VObj [("gender", VStr "male")], "entry-3", 7000)].

End MatchingEngine.

(* --------------------------------------------------------------------- *)
(** ** Arrays: [sort], [findIndex], [slice] *)
(* --------------------------------------------------------------------- *)

Module JsArray.
Import Js.

(** [arr.sort(comparefn)].  ECMAScript asks for a stable sort; an element
    moves in front of another only when [comparefn] says so with a
    positive number.  This is the insertion sort; for a [comparefn] that
    is a consistent ordering every stable sort returns the same array. *)
Fixpoint insertBy {A} (comparefn : A -> A -> float) (x : A) (l : list A) : list A :=
  match l with
  | [] => [x]
  | y :: l' =>
      if PrimFloat.ltb 0%float (comparefn y x)
      then x :: y :: l'
      else y :: insertBy comparefn x l'
  end.

Definition sortBy {A} (comparefn : A -> A -> float) (l : list A) : list A :=
  fold_left (fun acc x => insertBy comparefn x acc) l [].

(** [arr.findIndex(p)], [-1] when nothing is found *)
Fixpoint findIndexFrom {A} (p : A -> bool) (l : list A) (i : Z) : Z :=
  match l with
  | [] => -1
  | x :: l' => if p x then i else findIndexFrom p l' (i + 1)
  end.

Definition findIndex {A} (p : A -> bool) (l : list A) : Z := findIndexFrom p l 0.

(** [arr.slice(0, n)]: a negative [n] counts from the end *)
Definition slice0 {A} (n : Z) (l : list A) : list A :=
  if n <? 0 then firstn (Z.to_nat (Z.of_nat (List.length l) + n)) l
  else firstn (Z.to_nat n) l.

End JsArray.

(* --------------------------------------------------------------------- *)
(** ** src/managers/ChatManager.js: reading the history *)
(* --------------------------------------------------------------------- *)

Module ChatQueries.
Import Js JsArray ChatManager.

(** The [filters] of [getChatHistory].  Dates are millisecond timestamps;
    a field that is missing, [0] or [""] is falsy and switches its filter
    off. *)
Record Filters : Type := mkFilters {
  f_type : option string;
  f_minDuration : option Z;
  f_maxDuration : option Z;
  f_startDate : option Z;
  f_endDate : option Z;
  f_limit : option Z
}.

Definition noFilters : Filters := mkFilters None None None None None None.

Definition givenStr (o : option string) : option string :=
  match o with
  | Some s => if String.eqb s "" then None else Some s
  | None => None
  end.

Definition givenZ (o : option Z) : option Z :=
  match o with
  | Some z => if z =? 0 then None else Some z
  | None => None
  end.

Definition keepIf {A} (o : option A) (p : A -> HistoryEntry -> bool)
    (history : list HistoryEntry) : list HistoryEntry :=
  match o with
  | Some a => List.filter (p a) history
  | None => history
  end.

(** The two duration filters read [chat.metadata.duration], and an
    entry of the history has no [metadata] (see [historyEntry]): the
    callback throws on the first entry it is given. *)
Definition durationFilter (o : option Z) (history : list HistoryEntry)
    : result (list HistoryEntry) :=
  match givenZ o, history with
  | Some _, _ :: _ => Throw TypeError
  | _, _ => Ok history
  end.

(** [getChatHistory(filters = {})] *)
Definition getChatHistory (filters : Filters) (s : State)
    : result (list HistoryEntry) :=
  let history := chatHistory s in
  let history := keepIf (givenStr (f_type filters))
                   (fun t chat => strict_eq_str (h_type chat) t) history in
  bind (durationFilter (f_minDuration filters) history) (fun history =>
  bind (durationFilter (f_maxDuration filters) history) (fun history =>
  let history := keepIf (givenZ (f_startDate filters))
                   (fun d chat => d <=? h_createdAt chat) history in
  let history := keepIf (givenZ (f_endDate filters))
                   (fun d chat => h_createdAt chat <=? d) history in
  Ok (match givenZ (f_limit filters) with
      | Some n => slice0 n history
      | None => history
      end))).

(** *** Notions used to state the properties *)

(** What holds of every room of the active map in a reachable state: the
    counter follows the messages and the response-time window holds one
    sample per message after the first, the last fifty at most. *)
Definition counted (kc : string * Chat) : Prop :=
  messageCount (metadata (snd kc)) = Z.of_nat (List.length (messages (snd kc)))
  /\ List.length (responseTime (analytics (snd kc)))
     = Nat.min 50 (List.length (messages (snd kc)) - 1).

(** A room is stale at [now] for [threshold] *)
Definition stale (threshold now : Z) (chat : Chat) : bool :=
  threshold <? now - lastActivity chat.

(** A video room whose peers connect at [t1] and disconnect at [t2] *)
Definition videoRoom : State :=
  snd (createChat "alice" "bob" (VStr "video") "room-v" 1000 init).

(** A history of three rooms *)
Definition threeEnded : State :=
  run [(OpCreateChat "carol" "dave" (VStr "video") "room-2", 2000);
       (OpCreateChat "erin" "frank" VUndefined "room-3", 3000);
       (OpEndChat "room-1" None None, 10000);
       (OpEndChat "room-2" (Some "timeout") None, 200000);
       (OpEndChat "room-3" None (Some "erin"), 300000)] oneRoom.

End ChatQueries.

(* --------------------------------------------------------------------- *)
(** ** src/managers/UserManager.js: the read side *)
(* --------------------------------------------------------------------- *)

Module UserQueries.
Import Js JsArray UserManager.

(** [Array.from(this.users.values())], each reference followed *)
Definition userValues (s : State) : list User :=
  List.flat_map
    (fun ka : string * nat =>
       match heap s !! snd ka with Some u => [u] | None => [] end)
    (users s).

(** The [criteria] of [getUsersByCriteria], as its documentation has
    them: strings, an array of strings for [keywords], a number for
    [minTrustScore]; a criterion that is missing or falsy is not
    applied. *)
Record Criteria : Type := mkCriteria {
  c_status : option string;
  c_gender : option string;
  c_ageRange : option string;
  c_location : option string;
  c_keywords : option (list string);
  c_minTrustScore : option float
}.

Definition noCriteria : Criteria := mkCriteria None None None None None None.

Definition falsy (o : option string) : bool :=
  match o with
  | Some s => String.eqb s ""
  | None => true
  end.

Definition isInAgeRange (userAge : option string) (targetAgeRange : string) : bool :=
  if falsy userAge || String.eqb targetAgeRange "" || String.eqb targetAgeRange "any"
  then true
  else match userAge with
       | Some a => String.eqb a targetAgeRange
       | None => false
       end.

Definition matchesLocation (userLocation : option string) (targetLocation : string)
    : bool :=
  if falsy userLocation || String.eqb targetLocation ""
     || String.eqb targetLocation "any"
  then true
  else match userLocation with
       | Some l =>
           includes (toLowerCase l) (toLowerCase targetLocation)
           || includes (toLowerCase targetLocation) (toLowerCase l)
       | None => false
       end.

Definition hasMatchingKeywords (userKeywords : option (list string))
    (targetKeywords : list string) : bool :=
  match userKeywords with
  | None => true
  | Some userKw =>
      if (List.length targetKeywords =? 0)%nat then true
      else
        existsb (fun uk =>
          existsb (fun tk =>
            includes (toLowerCase uk) (toLowerCase tk)
            || includes (toLowerCase tk) (toLowerCase uk)) targetKeywords) userKw
  end.

(** The callback of [users.filter] in [getUsersByCriteria] *)
Definition meets (criteria : Criteria) (user : User) : bool :=
  if negb (falsy (c_status criteria))
     && negb (String.eqb (status user) (default "" (c_status criteria)))
  then false
  else if negb (falsy (c_gender criteria))
          && negb (match gender (profile user) with
                   | Some g => String.eqb g (default "" (c_gender criteria))
                   | None => false
                   end)
  then false
  else if negb (falsy (c_ageRange criteria))
          && negb (isInAgeRange (age (profile user)) (default "" (c_ageRange criteria)))
  then false
  else if negb (falsy (c_location criteria))
          && negb (matchesLocation (location (profile user))
                                   (default "" (c_location criteria)))
  then false
  else if match c_keywords criteria with
          | Some kw => negb (hasMatchingKeywords (keywords (profile user)) kw)
          | None => false
          end
  then false
  else if isBanned (flags user) then false
  else if match c_minTrustScore criteria with
          | Some m => truthyF m && PrimFloat.ltb (trustScore (flags user)) m
          | None => false
          end
  then false
  else true.

Definition getUsersByCriteria (criteria : Criteria) (s : State) : list User :=
  List.filter (meets criteria) (userValues s).

(** [{ ...criteria, status: 'online' }] *)
Definition online (criteria : Criteria) : Criteria :=
  mkCriteria (Some "online") (c_gender criteria) (c_ageRange criteria)
             (c_location criteria) (c_keywords criteria) (c_minTrustScore criteria).

(** The [comparefn] of [getAvailableUsers]: higher trust first, then
    the earlier connection *)
Definition byTrust (a b : User) : float :=
  if negb (PrimFloat.eqb (trustScore (flags b)) (trustScore (flags a)))
  then (trustScore (flags b) - trustScore (flags a))%float
  else (Z2F (connectionTime a) - Z2F (connectionTime b))%float.

Definition getAvailableUsers (criteria : Criteria) (s : State) : list User :=
  let availableUsers :=
    List.filter (fun user => falsy (currentChatId user))
                (getUsersByCriteria (online criteria) s) in
  sortBy byTrust availableUsers.

(** *** Notions used to state the properties *)

(** The two indexes point into the heap, and a session is filed under
    its own socket id and its own user id. *)
Definition indexed (s : State) : Prop :=
  (forall k a, In (k, a) (users s) ->
     exists u, heap s !! a = Some u /\ socketId u = k)
  /\ (forall uid a, usersByUserId s !! uid = Some a ->
        exists u, heap s !! a = Some u /\ id u = uid).

(** A profile as the client form sends it: an object whose [gender] and
    [location], when present, are strings, and whose [keywords], when
    present, are a string or an array of strings. *)
Definition isStr (v : value) : bool :=
  match v with VStr _ => true | _ => false end.

Definition absentOr (p : value -> bool) (v : value) : bool :=
  match v with VUndefined => true | _ => p v end.

Definition wellTyped (profile : value) : bool :=
  match profile with
  | VObj fields =>
      absentOr isStr (default VUndefined (assoc "gender" fields))
      && absentOr isStr (default VUndefined (assoc "location" fields))
      && absentOr (fun k => match k with
                            | VStr _ => true
                            | VArr l => forallb isStr l
                            | _ => false
                            end)
                  (default VUndefined (assoc "keywords" fields))
  | _ => false
  end.

(** Whether the session has been idle for more than [threshold] at
    [now] *)
Definition idle (threshold now : Z) (u : User) : bool :=
  threshold <? now - lastActivity u.

(** The test of the loop of [cleanupInactiveUsers] on a binding of
    [users], with the heap the reference is followed in *)
Definition isIdle (h : list User) (threshold now : Z) (ka : string * nat) : bool :=
  let '(_, a) := ka in
  match h !! a with
  | Some user => threshold <? now - lastActivity user
  | None => false
  end.

(** The session of [sock-1] and two more: one with a location, active
    later, and one that is banned. *)
Definition threeUsers : State :=
  run [(OpCreateUser "sock-2" (VObj [("location", VStr "  Oslo ")]) "user-2", 2000);
       (OpCreateUser "sock-3" VUndefined "user-3", 3000);
       (OpUpdateActivity "sock-2", 50000);
       (OpBanUser "user-3" "manual", 60000)] oneUser.

End UserQueries.

(* --------------------------------------------------------------------- *)
(** ** src/services/MatchingEngine.js: matching *)
(* --------------------------------------------------------------------- *)

Module MatchingLoop.
Import Js JsArray MatchingEngine.

(** [findMatch] and [processMatchingQueue] are [async], and the only
    promises they await are those of [findBestMatch], which settle
    without waiting for anything: each call is taken here as one step,
    with one reading [now] of the clock. *)

Record MatchingStats : Type := mkMatchingStats {
  totalMatches : Z;
  successfulMatches : Z;
  averageWaitTime : float;
  matchingAccuracy : float
}.

(** The engine: the queue with its history, and [this.matchingStats] *)
Record Engine : Type := mkEngine {
  queue : State;
  matchingStats : MatchingStats
}.

Definition start : Engine :=
  mkEngine init (mkMatchingStats 0 0 0%float 0%float).

(** What [findBestMatch] returns: a copy of the candidate with its
    score *)
Record Scored : Type := mkScored {
  candidate : QueueEntry;
  compatibilityScore : float
}.

(** [findBestMatch(queueEntry, candidates = null)] *)
Definition findBestMatch (queueEntry : QueueEntry)
    (candidates : option (list QueueEntry)) (now : Z) (s : State) : option Scored :=
  let searchPool :=
    match candidates with
    | Some l => l
    | None =>
        List.filter
          (fun entry => negb (String.eqb (userId entry) (userId queueEntry)))
          (om_values (matchingQueue s))
    end in
  if (List.length searchPool =? 0)%nat then None else
  let scoredCandidates :=
    List.map (fun c => mkScored c (calculateCompatibility weights queueEntry c))
             searchPool in
  let viableCandidates :=
    List.filter
      (fun c => PrimFloat.leb (getMinimumCompatibility queueEntry now)
                              (compatibilityScore c))
      scoredCandidates in
  if (List.length viableCandidates =? 0)%nat then None else
  List.head
    (sortBy (fun a b => (compatibilityScore b - compatibilityScore a)%float)
            viableCandidates).

Definition recordMatch (entry1 entry2 : QueueEntry) (successful : bool) (now : Z)
    (st : MatchingStats) : MatchingStats :=
  let total := totalMatches st + 1 in
  let good := if successful then successfulMatches st + 1 else successfulMatches st in
  let waitTime1 := Z2F (now - queuedAt entry1) in
  let waitTime2 := Z2F (now - queuedAt entry2) in
  let average := ((waitTime1 + waitTime2) / 2)%float in
  mkMatchingStats total good
    ((averageWaitTime st * Z2F (total - 1) + average) / Z2F total)%float
    (Z2F good / Z2F total * 100)%float.

(** The two [removeFromQueue] of a match *)
Definition removePair (userId1 userId2 : string) (now : Z) (s : State) : State :=
  snd (removeFromQueue userId2 now (snd (removeFromQueue userId1 now s))).

(** [findMatch(user, preferences)] *)
Definition findMatch (u : UserManager.User) (preferences : value)
    (uuid : string) (now : Z) (e : Engine) : result (option UserManager.User) * Engine :=
  match addToQueue u preferences uuid now (queue e) with
  | (Throw err, _) => (Throw err, e)
  | (Ok queueEntry, q) =>
      match findBestMatch queueEntry None now q with
      | Some m =>
          (Ok (Some (user (candidate m))),
           mkEngine (removePair (UserManager.id u) (userId (candidate m)) now q)
                    (recordMatch queueEntry (candidate m) true now (matchingStats e)))
      | None => (Ok None, mkEngine q (matchingStats e))
      end
  end.

(** [entry.attempts++; entry.lastAttempt = new Date()] *)
Definition touch (now : Z) (entry : QueueEntry) : QueueEntry :=
  mkQueueEntry (id entry) (userId entry) (user entry) (preferences entry)
               (queuedAt entry) (attempts entry + 1) (Some now) (priority entry)
               (compatibility entry).

(** The [comparefn] of the matching loop: longer wait and higher
    priority first *)
Definition byUrgency (now : Z) (a b : string * QueueEntry) : float :=
  let waitTimeA := Z2F (now - queuedAt (snd a)) in
  let waitTimeB := Z2F (now - queuedAt (snd b)) in
  let scoreA := (waitTimeA + priority (snd a) * 10000)%float in
  let scoreB := (waitTimeB + priority (snd b) * 10000)%float in
  (scoreB - scoreA)%float.

(** The loop of [processMatchingQueue] over the sorted array, at most
    [n] entries of it.  The array holds the entry objects of the map:
    each is carried with the key it sits under, so that marking an
    attempt on it shows in the map.  The result is the pair handed to
    [emitMatchFound], if any. *)
Fixpoint processFrom (queueArray : list (string * QueueEntry)) (n : nat) (now : Z)
    (e : Engine) : option (QueueEntry * Scored) * Engine :=
  match n, queueArray with
  | S n', (k, entry0) :: rest =>
      let entry := touch now entry0 in
      let q := mkState (om_set k entry (matchingQueue (queue e)))
                       (queueHistory (queue e)) in
      match findBestMatch entry (Some (List.map snd rest)) now q with
      | Some m =>
          (Some (entry, m),
           mkEngine (removePair (userId entry) (userId (candidate m)) now q)
                    (recordMatch entry (candidate m) true now (matchingStats e)))
      | None => processFrom rest n' now (mkEngine q (matchingStats e))
      end
  | _, _ => (None, e)
  end.

Definition processMatchingQueue (now : Z) (e : Engine)
    : option (QueueEntry * Scored) * Engine :=
  if (om_size (matchingQueue (queue e)) <? 2)%nat then (None, e)
  else processFrom (sortBy (byUrgency now) (matchingQueue (queue e))) 10 now e.

(** The [comparefn] of [getQueuePosition]: higher priority first, then
    the earlier arrival *)
Definition byPriority (a b : QueueEntry) : float :=
  if negb (PrimFloat.eqb (priority b) (priority a))
  then (priority b - priority a)%float
  else (Z2F (queuedAt a) - Z2F (queuedAt b))%float.

Definition getQueuePosition (uid : string) (s : State) : Z :=
  if negb (om_has uid (matchingQueue s)) then -1
  else
    let queueArray := sortBy byPriority (om_values (matchingQueue s)) in
    findIndex (fun entry => String.eqb (userId entry) uid) queueArray + 1.

(** The session object an entry refers to belongs to the UserManager,
    which changes it while the entry waits: [sessionChanged] is that
    change as the engine sees it.  The id of a session never changes. *)
Definition set_user (u : UserManager.User) (entry : QueueEntry) : QueueEntry :=
  mkQueueEntry (id entry) (userId entry) u (preferences entry) (queuedAt entry)
               (attempts entry) (lastAttempt entry) (priority entry)
               (compatibility entry).

Definition sessionChanged (u : UserManager.User) (s : State) : State :=
  match om_get (UserManager.id u) (matchingQueue s) with
  | Some entry =>
      if String.eqb (UserManager.id (user entry)) (UserManager.id u)
      then mkState (om_set (UserManager.id u) (set_user u entry) (matchingQueue s))
                   (queueHistory s)
      else s
  | None => s
  end.

(** The operations of the engine *)
Inductive Op : Type :=
| OpAddToQueue (u : UserManager.User) (preferences : value) (uuid : string)
| OpRemoveFromQueue (uid : string)
| OpFindMatch (u : UserManager.User) (preferences : value) (uuid : string)
| OpCleanupQueue
| OpProcessMatchingQueue
| OpSessionChanged (u : UserManager.User).

Definition onQueue (f : State -> State) (e : Engine) : Engine :=
  mkEngine (f (queue e)) (matchingStats e).

Definition step (op : Op) (now : Z) (e : Engine) : Engine :=
  match op with
  | OpAddToQueue u preferences uuid =>
      onQueue (fun s => snd (addToQueue u preferences uuid now s)) e
  | OpRemoveFromQueue uid => onQueue (fun s => snd (removeFromQueue uid now s)) e
  | OpFindMatch u preferences uuid => snd (findMatch u preferences uuid now e)
  | OpCleanupQueue => onQueue (fun s => snd (cleanupQueue now s)) e
  | OpProcessMatchingQueue => snd (processMatchingQueue now e)
  | OpSessionChanged u => onQueue (sessionChanged u) e
  end.

Definition run (ops : list (Op * Z)) (e : Engine) : Engine :=
  fold_left (fun e '(op, now) => step op now e) ops e.

Inductive reachable : Engine -> Prop :=
| reachable_start : reachable start
| reachable_next e op now : reachable e -> reachable (step op now e).

(** *** Notions used to state the properties *)

(** Every entry sits under the id of its user, once *)
Definition filed (s : State) : Prop :=
  List.NoDup (List.map fst (matchingQueue s))
  /\ Forall (fun kc : string * QueueEntry =>
               userId (snd kc) = fst kc
               /\ UserManager.id (user (snd kc)) = fst kc)
            (matchingQueue s).

Definition queued (uid : string) (s : State) : bool := om_has uid (matchingQueue s).

(** An entry as it was queued, whatever the attempts made on it since *)
Definition sameButAttempts (e e' : QueueEntry) : Prop :=
  id e' = id e /\ userId e' = userId e /\ user e' = user e
  /\ preferences e' = preferences e /\ queuedAt e' = queuedAt e
  /\ priority e' = priority e /\ compatibility e' = compatibility e.

(** What a round of the matching loop that matches nobody does to the
    engine: the same users wait in the same order, and nothing but the
    attempts marked on their entries has changed. *)
Definition attemptsOnly (e e' : Engine) : Prop :=
  List.map fst (matchingQueue (queue e')) = List.map fst (matchingQueue (queue e))
  /\ (forall k x', om_get k (matchingQueue (queue e')) = Some x' ->
        exists x, om_get k (matchingQueue (queue e)) = Some x /\ sameButAttempts x x')
  /\ queueHistory (queue e') = queueHistory (queue e)
  /\ matchingStats e' = matchingStats e.

Definition isStale (now : Z) (entry : QueueEntry) : bool :=
  maxWaitTime <? now - queuedAt entry.

(** Sessions with empty profiles, and an engine in which two of them
    wait: one that accepts anyone, one that asks for a gender. *)
Definition userOf (uid : string) (connectedAt : Z) : UserManager.User :=
  UserManager.mkUser uid (String.append "sock-" uid)
    (UserManager.mkProfile None None None None) connectedAt connectedAt "online" None
    (UserManager.mkPreferences (VStr "any") (VStr "any") (VStr "any") (VArr []))
    UserManager.seedStats UserManager.seedFlags [] None.

Definition picky : value := VObj [("gender", VStr "female")].

Definition twoWaiting : Engine :=
  run [(OpAddToQueue (userOf "ann" 0) (VObj []) "entry-a", 1000);
       (OpAddToQueue (userOf "bob" 0) picky "entry-b", 2000)] start.

End MatchingLoop.

(* --------------------------------------------------------------------- *)
(** ** The server: socket handlers (RandomChatServer) *)
(* --------------------------------------------------------------------- *)

Module Server.
Import Js JsArray.

(** The handlers that register a user, look for a match, end a chat and
    take a disconnection into account.  What a handler sends is
    returned as a list of actions on sockets; what it logs, and the
    fields it sets on the socket object, are left out.  [connected]
    tells which socket ids [io.sockets.sockets] holds.

    The server calls no method of the UserManager that changes a
    session object once it is created, so the session an entry of the
    queue refers to is the one [getUser] returns.  A handler is taken
    as one step: the promise [handleFindMatch] awaits settles without
    waiting for anything. *)

Record State : Type := mkServer {
  userManager : UserManager.State;
  chatManager : ChatManager.State;
  matchingEngine : MatchingLoop.Engine
}.

Definition boot : State :=
  mkServer UserManager.init ChatManager.init MatchingLoop.start.

(** [getPublicProfile(user)] of the server *)
Record Shown : Type := mkShown {
  sh_gender : string;
  sh_location : string;
  sh_age : string;
  sh_interests : list string
}.

Definition getPublicProfile (u : UserManager.User) : Shown :=
  mkShown
    (UserManager.or_str (UserManager.gender (UserManager.profile u)) "not-specified")
    (UserManager.or_str (UserManager.location (UserManager.profile u)) "unknown")
    (UserManager.or_str (UserManager.age (UserManager.profile u)) "not-specified")
    (default [] (UserManager.keywords (UserManager.profile u))).

Inductive Payload : Type :=
| RegistrationSuccess (userId : string) (onlineCount : nat)
| RegistrationError (message : string)
| OnlineCountUpdate (count : nat)
| MatchError (message : string)
| MatchSearching (message : string)
| MatchFound (chatId : string) (chatType : value) (strangerId : string) (filters : Shown)
| SystemMessage (message : string) (timestamp : Z)
| MatchQueued (message : string) (position : Z) (onlineUsers : nat)
| ChatEnded (reason message : string)
| ChatEndedConfirm (message : string).

Inductive Action : Type :=
| Emit (socketId : string) (p : Payload)               (* [socket.emit] *)
| Broadcast (p : Payload)                              (* [io.emit] *)
| EmitToRoom (room : string) (p : Payload)             (* [io.to(room).emit] *)
| EmitToOthers (socketId room : string) (p : Payload)  (* [socket.to(room).emit] *)
| Join (socketId room : string)
| Leave (socketId room : string).

Definition handleUserRegistration (sock : string) (userData : value)
    (uuid : string) (now : Z) (s : State) : list Action * State :=
  match UserManager.createUser sock userData uuid now (userManager s) with
  | (Ok u, um) =>
      ([Emit sock (RegistrationSuccess (UserManager.id u) (UserManager.getOnlineCount um));
        Broadcast (OnlineCountUpdate (UserManager.getOnlineCount um))],
       mkServer um (chatManager s) (matchingEngine s))
  | (Throw _, um) =>
      ([Emit sock (RegistrationError "Registration failed")],
       mkServer um (chatManager s) (matchingEngine s))
  end.

Definition queuedMessage (position : Z) (online : nat) : string :=
  String.append "Looking for someone to chat with... (Position: "
    (String.append (Z_toString position)
       (String.append ", Online: "
          (String.append (Z_toString (Z.of_nat online)) ")"))).

(** [handleFindMatch(socket, preferences)]; [uuid1] and [uuid2] are what
    [uuidv4] returns in [addToQueue] and in [createChat]. *)
Definition handleFindMatch (connected : string -> bool) (sock : string)
    (preferences : value) (uuid1 uuid2 : string) (now : Z) (s : State)
    : list Action * State :=
  match UserManager.getUser sock (userManager s) with
  | None => ([Emit sock (MatchError "User not found")], s)
  | Some u =>
      let searching := Emit sock (MatchSearching "Searching for a match...") in
      let failed := Emit sock (MatchError "Failed to find match") in
      match MatchingLoop.findMatch u preferences uuid1 now (matchingEngine s) with
      | (Throw _, me) =>
          ([searching; failed], mkServer (userManager s) (chatManager s) me)
      | (Ok (Some partner), me) =>
          match getProp preferences "chatType" with
          | Throw _ =>
              ([searching; failed], mkServer (userManager s) (chatManager s) me)
          | Ok chatType =>
              let '(chatRoom, cm) :=
                ChatManager.createChat (UserManager.id u) (UserManager.id partner)
                                       chatType uuid2 now (chatManager s) in
              let s' := mkServer (userManager s) cm me in
              if connected (UserManager.socketId u)
                 && connected (UserManager.socketId partner)
              then
                ([searching;
                  Join (UserManager.socketId u) (ChatManager.id chatRoom);
                  Join (UserManager.socketId partner) (ChatManager.id chatRoom);
                  Emit (UserManager.socketId u)
                       (MatchFound (ChatManager.id chatRoom) chatType
                                   (UserManager.id partner) (getPublicProfile partner));
                  Emit (UserManager.socketId partner)
                       (MatchFound (ChatManager.id chatRoom) chatType
                                   (UserManager.id u) (getPublicProfile u));
                  EmitToRoom (ChatManager.id chatRoom)
                    (SystemMessage "You are now connected to a stranger. Say hello!" now)],
                 s')
              else ([searching], s')
          end
      | (Ok None, me) =>
          let queuePosition :=
            MatchingLoop.getQueuePosition (UserManager.id u) (MatchingLoop.queue me) in
          let online := UserManager.getOnlineCount (userManager s) in
          ([searching;
            Emit sock (MatchQueued (queuedMessage queuePosition online)
                                   queuePosition online)],
           mkServer (userManager s) (chatManager s) me)
      end
  end.

Definition dequeue (uid : string) (now : Z) (e : MatchingLoop.Engine)
    : MatchingLoop.Engine :=
  MatchingLoop.onQueue (fun q => snd (MatchingEngine.removeFromQueue uid now q)) e.

Definition handleEndChat (sock : string) (now : Z) (s : State) : list Action * State :=
  match UserManager.getUser sock (userManager s) with
  | None => ([], s)
  | Some u =>
      match ChatManager.getUserCurrentChat (UserManager.id u) (chatManager s) with
      | None => ([], s)
      | Some chat =>
          let cm := snd (ChatManager.endChat (ChatManager.id chat) None None now
                           (chatManager s)) in
          let me := dequeue (UserManager.id u) now (matchingEngine s) in
          ([EmitToOthers sock (ChatManager.id chat)
              (ChatEnded "stranger_left" "Stranger has disconnected");
            Leave sock (ChatManager.id chat);
            Emit sock (ChatEndedConfirm "Chat ended successfully")],
           mkServer (userManager s) cm me)
      end
  end.

Definition handleDisconnect (sock : string) (now : Z) (s : State)
    : list Action * State :=
  match UserManager.getUser sock (userManager s) with
  | None => ([], s)
  | Some u =>
      let '(told, cm) :=
        match ChatManager.getUserCurrentChat (UserManager.id u) (chatManager s) with
        | Some chat =>
            ([EmitToOthers sock (ChatManager.id chat)
                (ChatEnded "stranger_disconnected" "Stranger has disconnected")],
             snd (ChatManager.endChat (ChatManager.id chat) None None now
                    (chatManager s)))
        | None => ([], chatManager s)
        end in
      let me := dequeue (UserManager.id u) now (matchingEngine s) in
      let um := snd (UserManager.removeUser sock now (userManager s)) in
      ((told ++ [Broadcast (OnlineCountUpdate (UserManager.getOnlineCount um))])%list,
       mkServer um cm me)
  end.

(** *** Notions used to state the properties *)

Definition everyone (sock : string) : bool := true.

(** Two registered users; the first waits for a match. *)
Definition annWaits : State :=
  let s := snd (handleUserRegistration "sock-ann" (VObj []) "ann" 1000 boot) in
  let s := snd (handleUserRegistration "sock-bob" (VObj []) "bob" 2000 s) in
  snd (handleFindMatch everyone "sock-ann" (VObj [("chatType", VStr "video")])
         "entry-a" "room-0" 3000 s).

(** The second asks for a match and gets the first. *)
Definition chatting : State :=
  snd (handleFindMatch everyone "sock-bob" (VObj []) "entry-b" "room-1" 4000 annWaits).

End Server.
(* ===================================================================== *)
(** * Part II: properties *)
(* ===================================================================== *)

Module JsFacts.
Import Js.

(** ** Doubles *)

Lemma Prim2SF_zero : Prim2SF 0%float = S754_zero false.
Proof. reflexivity. Qed.

Lemma add_comm (a b : float) : (a + b = b + a)%float.
Proof.
  apply Prim2SF_inj. rewrite !FloatAxioms.add_spec.
  generalize (Prim2SF a) (Prim2SF b). intros x y.
  unfold SF64add, SFadd.
  destruct x as [sx|sx| |sx mx ex], y as [sy|sy| |sy my ey];
    try reflexivity; try (destruct sx, sy; reflexivity).
  rewrite Z.min_comm. f_equal. apply Z.add_comm.
Qed.

(** Rounding does not look at the sign. *)
Lemma SFabs_binary_round (s : bool) m e :
  SFabs (binary_round prec emax s m e) = SFabs (binary_round prec emax false m e).
Proof.
  unfold binary_round, binary_round_aux.
  destruct (shl_align _ _ _) as [mz ez].
  destruct (shr_fexp _ _ _ _ _) as [mrs' e'].
  destruct (shr_fexp _ _ _ _ _) as [mrs'' e''].
  destruct (shr_m mrs''); try reflexivity.
  destruct (Z.leb _ _); reflexivity.
Qed.

Lemma SFabs_binary_normalize_opp m e :
  SFabs (binary_normalize prec emax (- m) e false)
  = SFabs (binary_normalize prec emax m e false).
Proof.
  destruct m as [|p|p]; simpl; try reflexivity.
  - apply SFabs_binary_round.
  - symmetry. apply SFabs_binary_round.
Qed.

Lemma abs_sub_comm (a b : float) :
  PrimFloat.abs (a - b)%float = PrimFloat.abs (b - a)%float.
Proof.
  apply Prim2SF_inj. rewrite !FloatAxioms.abs_spec, !FloatAxioms.sub_spec.
  generalize (Prim2SF a) (Prim2SF b). intros x y.
  unfold SF64sub, SFsub.
  destruct x as [sx|sx| |sx mx ex], y as [sy|sy| |sy my ey];
    try reflexivity; try (destruct sx, sy; reflexivity).
  rewrite (Z.min_comm ey ex).
  rewrite <- SFabs_binary_normalize_opp. f_equal. f_equal. lia.
Qed.

Lemma SFcompare_refl x : x <> S754_nan -> SFcompare x x = Some Eq.
Proof.
  destruct x as [s|s| |s m e]; intros H; try congruence; simpl.
  - destruct s; reflexivity.
  - destruct s; reflexivity.
  - destruct s; rewrite Z.compare_refl, Pos.compare_cont_refl; reflexivity.
Qed.

Lemma is_nan_spec x : PrimFloat.is_nan x = true <-> Prim2SF x = S754_nan.
Proof.
  unfold PrimFloat.is_nan. rewrite FloatAxioms.eqb_spec. unfold SFeqb.
  destruct (Prim2SF x) as [s|s| |s m e] eqn:E.
  - rewrite SFcompare_refl by congruence. split; [discriminate | congruence].
  - rewrite SFcompare_refl by congruence. split; [discriminate | congruence].
  - simpl. split; reflexivity.
  - rewrite SFcompare_refl by congruence. split; [discriminate | congruence].
Qed.

(** [Math.max(0, x)] *)
Lemma Math_max_0 x :
  Math_max 0%float x =
  if PrimFloat.is_nan x then PrimFloat.nan
  else if PrimFloat.ltb 0%float x then x else 0%float.
Proof.
  unfold Math_max.
  change (PrimFloat.is_nan 0%float) with false.
  change (PrimFloat.get_sign 0%float) with false. simpl.
  destruct (PrimFloat.is_nan x); [reflexivity |].
  destruct (PrimFloat.ltb 0%float x); [reflexivity |].
  destruct (PrimFloat.ltb x 0%float); reflexivity.
Qed.

Lemma ltb_0_not_nan x : PrimFloat.ltb 0%float x = true -> PrimFloat.is_nan x = false.
Proof.
  intros H. destruct (PrimFloat.is_nan x) eqn:E; [| reflexivity].
  apply is_nan_spec in E. rewrite FloatAxioms.ltb_spec, E in H. discriminate.
Qed.

Lemma leb_0_not_nan x : PrimFloat.leb x 0%float = true -> PrimFloat.is_nan x = false.
Proof.
  intros H. destruct (PrimFloat.is_nan x) eqn:E; [| reflexivity].
  apply is_nan_spec in E. rewrite FloatAxioms.leb_spec, E in H. discriminate.
Qed.

Lemma leb_0_not_ltb x : PrimFloat.leb x 0%float = true -> PrimFloat.ltb 0%float x = false.
Proof.
  rewrite FloatAxioms.leb_spec, FloatAxioms.ltb_spec, Prim2SF_zero. unfold SFleb, SFltb.
  destruct (Prim2SF x) as [s|s| |s m e]; simpl; try reflexivity;
    destruct s; simpl; congruence.
Qed.

Lemma ltb_0_not_ltb x : PrimFloat.ltb 0%float x = true -> PrimFloat.ltb x 0%float = false.
Proof.
  rewrite !FloatAxioms.ltb_spec, Prim2SF_zero. unfold SFltb.
  destruct (Prim2SF x) as [s|s| |s m e]; simpl; try reflexivity;
    destruct s; simpl; congruence.
Qed.

Lemma Math_max_0_pos x : PrimFloat.ltb 0%float x = true -> Math_max 0%float x = x.
Proof.
  intros H. rewrite Math_max_0, (ltb_0_not_nan _ H), H. reflexivity.
Qed.

Lemma Math_max_0_nonpos x : PrimFloat.leb x 0%float = true -> Math_max 0%float x = 0%float.
Proof.
  intros H. rewrite Math_max_0, (leb_0_not_nan _ H), (leb_0_not_ltb _ H). reflexivity.
Qed.

Lemma Math_max_0_not_neg x : PrimFloat.ltb (Math_max 0%float x) 0%float = false.
Proof.
  rewrite Math_max_0.
  destruct (PrimFloat.is_nan x); [reflexivity |].
  destruct (PrimFloat.ltb 0%float x) eqn:E; [| reflexivity].
  apply ltb_0_not_ltb, E.
Qed.

(** ** Insertion-ordered maps *)

Section OMap.
Context {V : Type}.
Implicit Types (m : omap V) (k : string) (v : V).

Lemma om_get_set_eq k v m : om_get k (om_set k v m) = Some v.
Proof.
  unfold om_get. induction m as [|[k' v'] m IH]; simpl.
  - rewrite String.eqb_refl. reflexivity.
  - destruct (String.eqb k k') eqn:E; simpl.
    + rewrite String.eqb_refl. reflexivity.
    + rewrite E. exact IH.
Qed.

Lemma om_get_set_ne k k' v m : k <> k' -> om_get k' (om_set k v m) = om_get k' m.
Proof.
  intros Hne. unfold om_get. induction m as [|[k0 v0] m IH]; simpl.
  - destruct (String.eqb k' k) eqn:E; [| reflexivity].
    apply String.eqb_eq in E. congruence.
  - destruct (String.eqb k k0) eqn:E; simpl.
    + apply String.eqb_eq in E. subst k0.
      destruct (String.eqb k' k) eqn:E'; [| reflexivity].
      apply String.eqb_eq in E'. congruence.
    + destruct (String.eqb k' k0); [reflexivity | exact IH].
Qed.

Lemma om_get_delete_eq k m : om_get k (om_delete k m) = None.
Proof.
  unfold om_get. induction m as [|[k' v'] m IH]; simpl; [reflexivity |].
  destruct (String.eqb k k') eqn:E; simpl; [exact IH |].
  rewrite E. exact IH.
Qed.

Lemma om_get_delete_ne k k' m : k <> k' -> om_get k' (om_delete k m) = om_get k' m.
Proof.
  intros Hne. unfold om_get. induction m as [|[k0 v0] m IH]; simpl; [reflexivity |].
  destruct (String.eqb k k0) eqn:E; simpl.
  - apply String.eqb_eq in E. subst k0.
    destruct (String.eqb k' k) eqn:E'; [| exact IH].
    apply String.eqb_eq in E'. congruence.
  - destruct (String.eqb k' k0); [reflexivity | exact IH].
Qed.

Lemma om_delete_set k v m : om_delete k (om_set k v m) = om_delete k m.
Proof.
  induction m as [|[k' v'] m IH]; simpl.
  - rewrite String.eqb_refl. reflexivity.
  - destruct (String.eqb k k') eqn:E; simpl.
    + rewrite String.eqb_refl. reflexivity.
    + rewrite E, IH. reflexivity.
Qed.

Lemma om_get_In k v m : om_get k m = Some v -> In (k, v) m.
Proof.
  unfold om_get. induction m as [|[k' v'] m IH]; simpl; [discriminate |].
  destruct (String.eqb k k') eqn:E.
  - apply String.eqb_eq in E. intros [= ->]. left. congruence.
  - intros H. right. auto.
Qed.

Lemma om_get_None_In k v m : om_get k m = None -> ~ In (k, v) m.
Proof.
  unfold om_get. induction m as [|[k' v'] m IH]; simpl; [tauto |].
  destruct (String.eqb k k') eqn:E; [discriminate |].
  intros H [Heq | Hin]; [| exact (IH H Hin)].
  inversion Heq; subst. rewrite String.eqb_refl in E. discriminate.
Qed.

(** A property of all bindings survives [set] and [delete]. *)
Lemma Forall_om_set (P : string * V -> Prop) k v m :
  P (k, v) -> Forall P m -> Forall P (om_set k v m).
Proof.
  intros Hv. induction 1 as [|[k' v'] m Hx Hm IH]; simpl.
  - repeat constructor. exact Hv.
  - destruct (String.eqb k k'); constructor; assumption.
Qed.

Lemma Forall_om_delete (P : string * V -> Prop) k m :
  Forall P m -> Forall P (om_delete k m).
Proof.
  induction 1 as [|[k' v'] m Hx Hm IH]; simpl; [constructor |].
  destruct (String.eqb k k'); [assumption | constructor; assumption].
Qed.

Lemma Forall_om_get (P : string * V -> Prop) k v m :
  Forall P m -> om_get k m = Some v -> P (k, v).
Proof.
  intros HF Hg. apply om_get_In in Hg.
  rewrite List.Forall_forall in HF. exact (HF _ Hg).
Qed.

(** Counting the bindings that satisfy a test. *)
Lemma filter_om_set_le (f : string * V -> bool) k v m :
  (List.length (List.filter f (om_set k v m))
   <= List.length (List.filter f m) + (if f (k, v) then 1 else 0))%nat.
Proof.
  induction m as [|[k' v'] m IH]; simpl.
  - destruct (f (k, v)); simpl; lia.
  - destruct (String.eqb k k'); simpl.
    + destruct (f (k, v)), (f (k', v')); simpl; lia.
    + destruct (f (k', v')); simpl; lia.
Qed.

Lemma filter_om_set_same (f : string * V -> bool) k v v0 m :
  om_get k m = Some v0 -> f (k, v) = f (k, v0) ->
  List.length (List.filter f (om_set k v m)) = List.length (List.filter f m).
Proof.
  unfold om_get. intros Hg Hf. induction m as [|[k' v'] m IH]; simpl in *.
  - discriminate.
  - destruct (String.eqb k k') eqn:E; simpl.
    + apply String.eqb_eq in E. subst k'. injection Hg as ->.
      rewrite Hf. destruct (f (k, v0)); reflexivity.
    + destruct (f (k', v')); simpl; rewrite (IH Hg); reflexivity.
Qed.
End OMap.

End JsFacts.

Module UserManagerSpec.
Import Js JsFacts UserManager.

(** ** How an operation touches the heap of session objects *)

Lemma heap_clearSessionTimeout userId s :
  heap (clearSessionTimeout userId s) = heap s.
Proof. unfold clearSessionTimeout. destruct (sessionTimeouts s !! userId); reflexivity. Qed.

Lemma heap_setSessionTimeout userId s :
  heap (setSessionTimeout userId s) = heap s.
Proof. unfold setSessionTimeout. simpl. apply heap_clearSessionTimeout. Qed.

Lemma byId_clearSessionTimeout userId s :
  usersByUserId (clearSessionTimeout userId s) = usersByUserId s.
Proof. unfold clearSessionTimeout. destruct (sessionTimeouts s !! userId); reflexivity. Qed.

Lemma heap_modify a f s :
  heap (modify a f s) =
  match heap s !! a with Some u => <[a := f u]> (heap s) | None => heap s end.
Proof. unfold modify. destruct (heap s !! a); reflexivity. Qed.

Lemma byId_modify a f s : usersByUserId (modify a f s) = usersByUserId s.
Proof. unfold modify. destruct (heap s !! a); reflexivity. Qed.

Lemma heap_removeUser socketId now s :
  heap (snd (removeUser socketId now s)) = heap s.
Proof.
  unfold removeUser. destruct (lookupSocket socketId s) as [[a u]|]; [| reflexivity].
  simpl. apply heap_clearSessionTimeout.
Qed.

Lemma heap_cleanupInactiveUsers th now s :
  heap (snd (cleanupInactiveUsers th now s)) = heap s.
Proof.
  unfold cleanupInactiveUsers. simpl.
  generalize (inactiveSockets th now s). intros l. revert s.
  induction l as [|x l IH]; intros s; simpl; [reflexivity |].
  rewrite IH. apply heap_removeUser.
Qed.

Lemma heap_sessionTimerFires t now s :
  heap (sessionTimerFires t now s) = heap s.
Proof.
  unfold sessionTimerFires. destruct (timers s !! t); [| reflexivity].
  match goal with |- context [lookupUserId ?u ?s'] =>
    destruct (lookupUserId u s') as [[a usr]|] end; [| reflexivity].
  rewrite heap_removeUser. reflexivity.
Qed.

Lemma lookupSocket_heap socketId s a u :
  lookupSocket socketId s = Some (a, u) -> heap s !! a = Some u.
Proof.
  unfold lookupSocket. destruct (om_get socketId (users s)); [| discriminate].
  destruct (heap s !! n) eqn:E; [| discriminate]. intros [= <- <-]. exact E.
Qed.

Lemma lookupUserId_inv userId s a u :
  lookupUserId userId s = Some (a, u) <->
  usersByUserId s !! userId = Some a /\ heap s !! a = Some u.
Proof.
  unfold lookupUserId. split.
  - destruct (usersByUserId s !! userId) as [n|]; [| discriminate].
    destruct (heap s !! n) eqn:E; [| discriminate]. intros [= <- <-]. auto.
  - intros [-> ->]. reflexivity.
Qed.

Lemma evolves_refl u : evolves u u.
Proof. split; auto. Qed.

Lemma heapStep_modify a f s u :
  heap s !! a = Some u -> evolves u (f u) ->
  heapStep (heap s) (heap (modify a f s)).
Proof.
  intros Hu Hev. rewrite heap_modify, Hu.
  eapply heapStep_mutate; eauto.
Qed.

(** The heap after [flagUser]: the flagged object, banned if due. *)
Lemma heap_flagUser userId violationType details now s a u :
  lookupUserId userId s = Some (a, u) ->
  let details' := match details with VUndefined => VObj [] | _ => details end in
  let u1 := flag violationType details' now u in
  heap (flagUser userId violationType details now s) =
  <[a := if autoBanDue u1 then ban autoBanReason now u1 else u1]> (heap s).
Proof.
  intros Hl. simpl. unfold flagUser. rewrite Hl.
  apply lookupUserId_inv in Hl as [Hid Hh].
  set (u1 := flag _ _ _ u).
  assert (Ha : (a < List.length (heap s))%nat) by (eapply lookup_lt_Some; eauto).
  destruct (autoBanDue u1).
  - unfold banUser.
    assert (Hl' : lookupUserId userId (modify a (fun _ => u1) s) = Some (a, u1)).
    { apply lookupUserId_inv. rewrite byId_modify, heap_modify, Hh.
      split; [exact Hid |]. apply list_lookup_insert_eq. exact Ha. }
    rewrite Hl'. rewrite heap_modify.
    apply lookupUserId_inv in Hl' as [_ ->].
    rewrite heap_modify, Hh. apply list_insert_insert_eq.
  - rewrite heap_modify, Hh. reflexivity.
Qed.

Lemma byId_flagUser userId violationType details now s :
  usersByUserId (flagUser userId violationType details now s) = usersByUserId s.
Proof.
  unfold flagUser. destruct (lookupUserId userId s) as [[a u]|]; [| reflexivity].
  destruct (autoBanDue _).
  - unfold banUser. destruct (lookupUserId _ _) as [[a' u']|];
      rewrite ?byId_modify; reflexivity.
  - apply byId_modify.
Qed.

Ltac same_heap := apply heapStep_same; reflexivity.

(** An operation that looks the session up by socket and mutates it
    without touching its flags. *)
Ltac by_socket sock s :=
  let E := fresh "E" in
  destruct (lookupSocket sock s) as [[? ?]|] eqn:E;
  [ rewrite ?heap_setSessionTimeout;
    eapply heapStep_modify; [eapply lookupSocket_heap; eauto | split; simpl; auto]
  | same_heap ].

Lemma step_heapStep op now s : heapStep (heap s) (heap (step op now s)).
Proof.
  destruct op as [sock prof uuid | sock | sock | sock upd | sock chatId | sock | sock upd
                   | uid vt details | uid rsn | th | t]; simpl.
  - (* createUser *)
    unfold createUser.
    destruct (sanitizeProfile _); [| same_heap].
    destruct (extractPreferences _); [| same_heap].
    cbn [snd]. rewrite heap_setSessionTimeout. cbn [heap addToConnectionHistory].
    eapply heapStep_alloc; reflexivity.
  - apply heapStep_same, heap_removeUser.
  - unfold updateActivity. by_socket sock s.
  - unfold updateProfile.
    destruct (lookupSocket sock s) as [[a u]|] eqn:E; [| same_heap].
    destruct (sanitizeProfile _); [| same_heap].
    destruct (extractPreferences _); simpl;
      (eapply heapStep_modify; [eapply lookupSocket_heap; eauto | split; simpl; auto]).
  - unfold setCurrentChat. by_socket sock s.
  - unfold clearCurrentChat. by_socket sock s.
  - unfold updateStats. by_socket sock s.
  - (* flagUser *)
    destruct (lookupUserId uid s) as [[a u]|] eqn:E.
    + rewrite (heap_flagUser _ _ _ _ _ _ _ E).
      apply lookupUserId_inv in E as [_ Hh].
      eapply heapStep_mutate; [exact Hh | reflexivity |].
      destruct (autoBanDue _); split; simpl; auto.
    + unfold flagUser. rewrite E. same_heap.
  - (* banUser *)
    unfold banUser.
    destruct (lookupUserId uid s) as [[a u]|] eqn:E; [| same_heap].
    apply lookupUserId_inv in E as [_ Hh].
    eapply heapStep_modify; [exact Hh |]. split; simpl; auto.
  - apply heapStep_same, heap_cleanupInactiveUsers.
  - apply heapStep_same, heap_sessionTimerFires.
Qed.

(** Every object of the heap stays where it is, and [evolves]. *)
Lemma heapStep_lookup h h' a u :
  heapStep h h' -> h !! a = Some u ->
  exists u', h' !! a = Some u' /\ evolves u u'.
Proof.
  intros [-> | b v v' Hb -> Hev | v -> _] Ha.
  - exists u. split; [exact Ha | apply evolves_refl].
  - destruct (decide (b = a)) as [-> | Hne].
    + exists v'. split.
      * apply list_lookup_insert_eq. eapply lookup_lt_Some; eauto.
      * congruence.
    + exists u. split; [| apply evolves_refl].
      rewrite list_lookup_insert_ne by exact Hne. exact Ha.
  - exists u. split; [| apply evolves_refl].
    apply lookup_app_l_Some. exact Ha.
Qed.

Lemma decrTrust_chain t : In t trustChain -> In (decrTrust t) trustChain.
Proof.
  unfold trustChain. simpl.
  intros H. repeat (destruct H as [<- | H]; [vm_compute; tauto |]). destruct H.
Qed.

Lemma decrTrust_le t : In t trustChain -> PrimFloat.leb (decrTrust t) t = true.
Proof.
  unfold trustChain. simpl.
  intros H. repeat (destruct H as [<- | H]; [vm_compute; reflexivity |]). destruct H.
Qed.

Lemma chain_le_refl t : In t trustChain -> PrimFloat.leb t t = true.
Proof.
  unfold trustChain. simpl.
  intros H. repeat (destruct H as [<- | H]; [vm_compute; reflexivity |]). destruct H.
Qed.

Lemma reachable_trustOk s : reachable s -> Forall trustOk (heap s).
Proof.
  induction 1 as [| s op now Hr IH]; [constructor |].
  destruct (step_heapStep op now s) as [-> | a u u' Ha -> [Hev _] | u -> Hu].
  - exact IH.
  - apply Forall_insert; [exact IH |].
    assert (Hu : trustOk u) by (rewrite List.Forall_forall in IH; eapply IH, list_elem_of_In, list_elem_of_lookup_2; eauto).
    unfold trustOk in *. destruct Hev as [-> | ->]; [exact Hu | apply decrTrust_chain, Hu].
  - apply Forall_app. split; [exact IH |]. repeat constructor.
    unfold trustOk. rewrite Hu. vm_compute. tauto.
Qed.

Lemma users_reachable_run ops s : reachable s -> reachable (run ops s).
Proof.
  revert s. induction ops as [|[op now] ops IH]; intros s H; simpl; [exact H |].
  apply IH. constructor. exact H.
Qed.

Lemma In_insert_eq (h : list User) a u u' :
  h !! a = Some u -> <[a := u']> h !! a = Some u'.
Proof. intros H. apply list_lookup_insert_eq. eapply lookup_lt_Some; eauto. Qed.

(** The object [userId] refers to after [flagUser]. *)
Lemma flagUser_result userId violationType details now s a u :
  lookupUserId userId s = Some (a, u) ->
  let details' := match details with VUndefined => VObj [] | _ => details end in
  let u1 := flag violationType details' now u in
  lookupUserId userId (flagUser userId violationType details now s)
  = Some (a, if autoBanDue u1 then ban autoBanReason now u1 else u1).
Proof.
  intros Hl. cbv zeta.
  apply lookupUserId_inv.
  rewrite byId_flagUser, (heap_flagUser _ violationType details now _ _ _ Hl).
  apply lookupUserId_inv in Hl as [Hid Hu].
  split; [exact Hid |]. eapply In_insert_eq; eauto.
Qed.

(** The trust scores a session passes through, in doubles. *)
Example trustChain_values :
  trustChain =
  [1%float; 0.9%float; 0.8%float; 0.7000000000000001%float;
   0.6000000000000001%float; 0.5000000000000001%float;
   0.40000000000000013%float; 0.30000000000000016%float;
   0.20000000000000015%float; 0.10000000000000014%float;
   1.3877787807814457e-16%float; 0%float].
Proof. vm_compute. reflexivity. Qed.

Example sanitizeProfile_example :
  sanitizeProfile
    (VObj [("gender", VStr "MALE"); ("location", VStr "  Paris, France ");
           ("age", VStr "17"); ("keywords", VStr "a, b ,c")])
  = Ok (mkProfile (Some "male") (Some "Paris, France") (Some "not-specified")
                  (Some ["a"; "b"; "c"])).
Proof. vm_compute. reflexivity. Qed.

(** C4: for a registered user, [flagUser] appends one violation record
    of the given kind, adds one to the violation count, replaces the
    trust score [t] by [Math.max(0, t - 0.1)] (so by [t - 0.1] while
    that is positive, by [0] otherwise, and never by a negative number),
    and calls [banUser] exactly when, after that, the violation count is
    at least 5 or the trust score is at most 0.3; otherwise the ban state
    is left as it was. *)
Theorem flagUser_spec userId violationType details now s a u :
  lookupUserId userId s = Some (a, u) ->
  exists u',
    lookupUserId userId (flagUser userId violationType details now s) = Some (a, u')
    /\ (exists r, u_violations u' = (u_violations u ++ [r])%list
                  /\ v_type r = violationType /\ v_timestamp r = now)
    /\ violations (stats u') = violations (stats u) + 1
    /\ trustScore (flags u') = Math_max 0%float (trustScore (flags u) - 0.1)%float
    /\ (PrimFloat.ltb 0%float (trustScore (flags u) - 0.1)%float = true ->
        trustScore (flags u') = (trustScore (flags u) - 0.1)%float)
    /\ (PrimFloat.leb (trustScore (flags u) - 0.1)%float 0%float = true ->
        trustScore (flags u') = 0%float)
    /\ PrimFloat.ltb (trustScore (flags u')) 0%float = false
    /\ let due := (5 <=? violations (stats u'))
                  || PrimFloat.leb (trustScore (flags u')) 0.3%float in
       isBanned (flags u') = isBanned (flags u) || due
       /\ banInfo u' = if due then Some (mkBanInfo autoBanReason now "system")
                       else banInfo u.
Proof.
  intros Hl.
  pose proof (flagUser_result _ violationType details now _ _ _ Hl) as Hr.
  cbv zeta in Hr.
  set (d := match details with VUndefined => VObj [] | _ => details end) in Hr.
  set (u1 := flag violationType d now u) in Hr.
  exists (if autoBanDue u1 then ban autoBanReason now u1 else u1).
  split; [exact Hr |].
  assert (Hb : autoBanDue u1 =
               (5 <=? violations (stats u) + 1)
               || PrimFloat.leb (decrTrust (trustScore (flags u))) 0.3%float)
    by reflexivity.
  unfold decrTrust in Hb.
  destruct (autoBanDue u1) eqn:Hdue; cbn -[Math_max PrimFloat.leb Z.leb Z.add];
    (split; [eexists; split; [reflexivity | split; reflexivity] |]);
    (split; [reflexivity |]); (split; [reflexivity |]);
    (split; [apply Math_max_0_pos |]); (split; [apply Math_max_0_nonpos |]);
    (split; [apply Math_max_0_not_neg |]);
    unfold decrTrust; rewrite <- Hb.
  - rewrite orb_true_r. split; reflexivity.
  - rewrite orb_false_r. split; reflexivity.
Qed.

Lemma flagUser_spec_witness :
  lookupUserId "user-1" oneUser = Some (0%nat, user1)
  /\ exists u',
       lookupUserId "user-1" (flagUser "user-1" "spam" VUndefined 2000 oneUser)
         = Some (0%nat, u')
       /\ violations (stats u') = 1
       /\ trustScore (flags u') = 0.9%float
       /\ isBanned (flags u') = false.
Proof.
  assert (H0 : lookupUserId "user-1" oneUser = Some (0%nat, user1))
    by (vm_compute; reflexivity).
  split; [exact H0 |].
  destruct (flagUser_spec "user-1" "spam" VUndefined 2000 oneUser 0%nat user1 H0)
    as (u' & Hl & _ & Hv & Ht & _ & _ & _ & Hb & _).
  exists u'. split; [exact Hl |]. split; [exact Hv |]. split; [exact Ht |].
  rewrite Hb, Hv, Ht. vm_compute. reflexivity.
Defined.

(** C5: [sanitizeProfile] is not total.  A client that registers with
    [{gender: 42}] makes [profile.gender.toLowerCase()] throw a
    [TypeError], which [createUser] lets through, and no session is
    created. *)
Theorem sanitizeProfile_throws :
  sanitizeProfile (VObj [("gender", VNum 42)]) = Throw TypeError
  /\ createUser "sock-2" (VObj [("gender", VNum 42)]) "user-2" 6000 oneUser
     = (Throw TypeError, oneUser).
Proof. split; vm_compute; reflexivity. Qed.

(** C9: in every state the manager can reach, [createUser] seeds the
    trust score of the new session object with [1.0], and no operation
    ([createUser], [removeUser], [updateActivity], [updateProfile],
    [setCurrentChat], [clearCurrentChat], [updateStats], [flagUser],
    [banUser], the inactivity sweep, a session timer) raises the trust
    score of a session object: the object is still there afterwards and
    its score is at most what it was. *)
Theorem trustScore_nonincreasing s :
  reachable s ->
  (forall sock prof uuid now user s',
      createUser sock prof uuid now s = (Ok user, s') ->
      trustScore (flags user) = 1%float
      /\ heap s' !! List.length (heap s) = Some user)
  /\ (forall op now a u,
        heap s !! a = Some u ->
        exists u',
          heap (step op now s) !! a = Some u'
          /\ PrimFloat.leb (trustScore (flags u')) (trustScore (flags u)) = true).
Proof.
  intros Hr. split.
  - intros sock prof uuid now user s'. unfold createUser.
    destruct (sanitizeProfile _); [| discriminate].
    destruct (extractPreferences _); [| discriminate].
    intros [= <- <-]. split; [reflexivity |].
    rewrite heap_setSessionTimeout. cbn [heap addToConnectionHistory].
    rewrite lookup_app_r by reflexivity. rewrite Nat.sub_diag. reflexivity.
  - intros op now a u Ha.
    destruct (heapStep_lookup _ _ _ _ (step_heapStep op now s) Ha) as (u' & Hu' & [Ht _]).
    exists u'. split; [exact Hu' |].
    assert (Hok : trustOk u).
    { pose proof (reachable_trustOk _ Hr) as HF. rewrite List.Forall_forall in HF.
      eapply HF, list_elem_of_In, list_elem_of_lookup_2; eauto. }
    destruct Ht as [-> | ->]; [apply chain_le_refl | apply decrTrust_le]; exact Hok.
Qed.

Lemma trustScore_nonincreasing_witness :
  reachable flaggedUser
  /\ exists u',
       heap (step (OpFlagUser "user-1" "spam" VUndefined) 5000 flaggedUser) !! 0%nat
         = Some u'
       /\ PrimFloat.leb (trustScore (flags u')) 0.7000000000000001%float = true.
Proof.
  assert (Hr : reachable flaggedUser).
  { apply users_reachable_run. apply (reachable_step init (OpCreateUser _ _ _) 1000).
    apply reachable_init. }
  split; [exact Hr |].
  destruct (trustScore_nonincreasing flaggedUser Hr) as [_ H].
  assert (H0 : heap flaggedUser !! 0%nat = Some user1Flagged)
    by (vm_compute; reflexivity).
  destruct (H (OpFlagUser "user-1" "spam" VUndefined) 5000 0%nat user1Flagged H0)
    as (u' & Hu' & Hle).
  exists u'. split; [exact Hu' |].
  replace 0.7000000000000001%float with (trustScore (flags user1Flagged))
    by (vm_compute; reflexivity).
  exact Hle.
Defined.

(** How the flag gets set: [banUser] on a registered user, directly or
    from [flagUser] when the auto-ban is due. *)
Lemma banUser_bans userId reason now s a u :
  usersByUserId s !! userId = Some a ->
  heap s !! a = Some u ->
  isUserBanned userId (banUser userId reason now s) = true.
Proof.
  intros Hid Hu. unfold banUser.
  rewrite (proj2 (lookupUserId_inv userId s a u) (conj Hid Hu)).
  unfold isUserBanned.
  rewrite (proj2 (lookupUserId_inv userId (modify a (ban reason now) s) a (ban reason now u))).
  - reflexivity.
  - rewrite byId_modify, heap_modify, Hu. split; [exact Hid |].
    eapply In_insert_eq; eauto.
Qed.

Lemma flagUser_autoBan_bans userId violationType details now s a u :
  usersByUserId s !! userId = Some a ->
  heap s !! a = Some u ->
  4 <= violations (stats u) ->
  isUserBanned userId (flagUser userId violationType details now s) = true.
Proof.
  intros Hid Hu Hv. unfold isUserBanned.
  rewrite (flagUser_result userId violationType details now s a u
             (proj2 (lookupUserId_inv userId s a u) (conj Hid Hu))).
  cbv zeta.
  set (u1 := flag _ _ _ u).
  assert (Hdue : autoBanDue u1 = true).
  { unfold autoBanDue. apply orb_true_iff. left. apply Z.leb_le.
    subst u1. cbn. lia. }
  rewrite Hdue. reflexivity.
Qed.

(** C10: a ban is permanent.  Once [isUserBanned(userId)] answers [true],
    the session object that [userId] refers to keeps [isBanned] through
    every sequence of operations, so [isUserBanned(userId)] goes on
    answering [true] for as long as [userId] refers to that session. *)
Theorem ban_permanent s userId a ops :
  usersByUserId s !! userId = Some a ->
  isUserBanned userId s = true ->
  (exists u', heap (run ops s) !! a = Some u' /\ isBanned (flags u') = true)
  /\ (usersByUserId (run ops s) !! userId = Some a ->
      isUserBanned userId (run ops s) = true).
Proof.
  intros Hid0 Hb0. unfold isUserBanned, lookupUserId in Hb0. rewrite Hid0 in Hb0.
  destruct (heap s !! a) as [u|] eqn:Ha; [| discriminate].
  assert (H : exists u', heap (run ops s) !! a = Some u' /\ isBanned (flags u') = true).
  { clear Hid0. revert s u Ha Hb0.
    induction ops as [|[op now] ops IH]; intros s u Ha Hb; simpl.
    - eauto.
    - destruct (heapStep_lookup _ _ _ _ (step_heapStep op now s) Ha)
        as (u1 & Hu1 & [_ Hk]).
      eapply IH; eauto. }
  split; [exact H |].
  destruct H as (u' & Hu' & Hb'). intros Hid.
  unfold isUserBanned.
  replace (lookupUserId userId (run ops s)) with (Some (a, u'))
    by (symmetry; apply lookupUserId_inv; auto).
  exact Hb'.
Qed.

Lemma ban_permanent_witness :
  usersByUserId bannedUser !! "user-1" = Some 0%nat
  /\ isUserBanned "user-1" bannedUser = true
  /\ usersByUserId (run afterBan bannedUser) !! "user-1" = Some 0%nat
  /\ isUserBanned "user-1" (run afterBan bannedUser) = true.
Proof.
  assert (H1 : usersByUserId bannedUser !! "user-1" = Some 0%nat)
    by (vm_compute; reflexivity).
  assert (H2 : isUserBanned "user-1" bannedUser = true)
    by (vm_compute; reflexivity).
  assert (H3 : usersByUserId (run afterBan bannedUser) !! "user-1" = Some 0%nat)
    by (vm_compute; reflexivity).
  split; [exact H1 |]. split; [exact H2 |]. split; [exact H3 |].
  exact (proj2 (ban_permanent bannedUser "user-1" 0%nat afterBan H1 H2) H3).
Defined.

End UserManagerSpec.
Module ChatManagerSpec.
Import Js JsFacts ChatManager.

Lemma om_set_set {V} k (v v' : V) m : om_set k v' (om_set k v m) = om_set k v' m.
Proof.
  induction m as [|[k0 v0] m IH]; simpl.
  - rewrite String.eqb_refl. reflexivity.
  - destruct (String.eqb k k0) eqn:E; simpl.
    + rewrite String.eqb_refl. reflexivity.
    + rewrite E, IH. reflexivity.
Qed.

(** ** The active map after each operation *)

Lemma chats_clearChatTimeout chatId s :
  chats (clearChatTimeout chatId s) =
  match om_get chatId (chats s) with
  | Some chat =>
      match timeoutId chat with
      | Some _ => om_set chatId (set_timeoutId None chat) (chats s)
      | None => chats s
      end
  | None => chats s
  end.
Proof.
  unfold clearChatTimeout. destruct (om_get chatId (chats s)) as [c|]; [| reflexivity].
  destruct (timeoutId c); reflexivity.
Qed.

Lemma clearChatTimeout_absent chatId s :
  om_get chatId (chats s) = None -> clearChatTimeout chatId s = s.
Proof. unfold clearChatTimeout. intros ->. reflexivity. Qed.

(** Arming the timer rewrites the room in place. *)
Lemma chats_setChatTimeout chatId s :
  chats (setChatTimeout chatId s) =
  match om_get chatId (chats s) with
  | Some chat => om_set chatId (set_timeoutId (Some (nextTimer s)) chat) (chats s)
  | None => chats s
  end.
Proof.
  unfold setChatTimeout. cbn [chats].
  rewrite chats_clearChatTimeout.
  assert (Hn : nextTimer (clearChatTimeout chatId s) = nextTimer s).
  { unfold clearChatTimeout. destruct (om_get chatId (chats s)) as [c|]; [| reflexivity].
    destruct (timeoutId c); reflexivity. }
  rewrite Hn.
  destruct (om_get chatId (chats s)) as [c|] eqn:E.
  - destruct (timeoutId c) eqn:Et.
    + rewrite om_get_set_eq, om_set_set. reflexivity.
    + rewrite E. destruct c; simpl in *. reflexivity.
  - rewrite E. reflexivity.
Qed.

(** Ending a room removes it from the active map. *)
Lemma endChat_found chatId reason endedBy now s chat :
  om_get chatId (chats s) = Some chat ->
  let chat' := calculateFinalAnalytics
                 (markEnded (default "user_action" reason) endedBy now chat) in
  endChat chatId reason endedBy now s =
  (true,
   mkState (om_delete chatId (chats s))
           (fold_left (fun m userId => delete userId m) (participants chat') (userChats s))
           (chatHistory
              (addToHistory chat'
                 (mkState (chats s) (userChats s) (chatHistory s) (totalChats s)
                          (totalMessages s) (timers s) (nextTimer s))))
           (totalChats s) (totalMessages s) (timers s) (nextTimer s)).
Proof.
  intros Hg. cbv zeta. unfold endChat. rewrite Hg. cbv zeta.
  rewrite clearChatTimeout_absent.
  - unfold set_chats, addToHistory. cbn [chats userChats chatHistory totalChats totalMessages timers nextTimer].
    rewrite om_delete_set. reflexivity.
  - unfold set_chats, addToHistory. cbn [chats]. apply om_get_delete_eq.
Qed.

Lemma endChat_absent chatId reason endedBy now s :
  om_get chatId (chats s) = None ->
  endChat chatId reason endedBy now s = (false, s).
Proof. intros Hg. unfold endChat. rewrite Hg. reflexivity. Qed.

Lemma chats_endChat chatId reason endedBy now s :
  chats (snd (endChat chatId reason endedBy now s)) = om_delete chatId (chats s)
  \/ chats (snd (endChat chatId reason endedBy now s)) = chats s.
Proof.
  destruct (om_get chatId (chats s)) as [c|] eqn:E.
  - left. rewrite (endChat_found _ _ _ _ _ _ E). reflexivity.
  - right. rewrite (endChat_absent _ _ _ _ _ E). reflexivity.
Qed.


(** ** Well-formedness of the active map *)

Lemma wf_sameButTimer k c c' :
  sameButTimer c c' -> wellFormed (k, c) -> wellFormed (k, c').
Proof.
  intros (Hi & _ & Hs & Hm & Hset) (W1 & W2 & W3 & W4). unfold wellFormed, sequences in *.
  simpl in *. rewrite Hi, Hs, Hm, Hset. auto.
Qed.

Lemma sameButTimer_refl c : sameButTimer c c.
Proof. repeat split. Qed.

Lemma wf_set_same k c c' m :
  Forall wellFormed m -> om_get k m = Some c -> sameButTimer c c' ->
  Forall wellFormed (om_set k c' m).
Proof.
  intros HF Hg Hs. apply Forall_om_set; [| exact HF].
  eapply wf_sameButTimer; [exact Hs |]. eapply Forall_om_get; eauto.
Qed.

Lemma wf_setChatTimeout chatId s :
  Forall wellFormed (chats s) -> Forall wellFormed (chats (setChatTimeout chatId s)).
Proof.
  intros HF. rewrite chats_setChatTimeout.
  destruct (om_get chatId (chats s)) as [c|] eqn:E; [| exact HF].
  eapply wf_set_same; eauto. repeat split.
Qed.

Lemma wf_endChat chatId reason endedBy now s :
  Forall wellFormed (chats s) ->
  Forall wellFormed (chats (snd (endChat chatId reason endedBy now s))).
Proof.
  intros HF. destruct (chats_endChat chatId reason endedBy now s) as [-> | ->];
    [apply Forall_om_delete |]; exact HF.
Qed.

Lemma wf_createChat u1 u2 ty uuid now s :
  Forall wellFormed (chats s) ->
  Forall wellFormed (chats (snd (createChat u1 u2 ty uuid now s))).
Proof.
  intros HF. unfold createChat. cbv zeta. cbn [snd].
  apply wf_setChatTimeout. cbn [chats].
  apply Forall_om_set; [| exact HF]. repeat split.
Qed.

Lemma seq_snoc n : (seq 1 n ++ [S n])%list = seq 1 (S n).
Proof. rewrite seq_S. reflexivity. Qed.

Lemma wf_addMessage chatId msg uuid now s :
  Forall wellFormed (chats s) ->
  Forall wellFormed (chats (snd (addMessage chatId msg uuid now s))).
Proof.
  intros HF. unfold addMessage.
  destruct (om_get chatId (chats s)) as [c|] eqn:E; [| exact HF].
  destruct (negb (Status_eqb (status c) active)); [exact HF |].
  destruct (Nat.leb _ _); cbn [snd]; [apply wf_endChat, HF |].
  apply wf_setChatTimeout. cbn [chats].
  apply Forall_om_set; [| exact HF].
  destruct (Forall_om_get _ _ _ _ HF E) as (W1 & W2 & W3 & W4).
  unfold wellFormed, sequences in *. simpl in *.
  repeat split; auto.
  rewrite map_app, length_app, W4. simpl. rewrite Nat.add_1_r. apply seq_snoc.
Qed.

Lemma applyActivity_same ty data now c c' :
  applyActivity ty data now c = Ok c' -> sameButTimer c c'.
Proof.
  unfold applyActivity.
  destruct (String.eqb ty "typing"); [intros [= <-]; repeat split |].
  destruct (String.eqb ty "webrtc_connected"); [intros [= <-]; repeat split |].
  destruct (String.eqb ty "webrtc_disconnected").
  { intros [= <-]. destruct (webrtcConnectedAt (metadata c)); repeat split. }
  destruct (String.eqb ty "quality_issue"); [| intros [= <-]; repeat split].
  destruct (getProp data "type"); [| discriminate].
  destruct (getProp data "details"); [| discriminate].
  intros [= <-]. repeat split.
Qed.

Lemma wf_updateActivity chatId ty data now s :
  Forall wellFormed (chats s) ->
  Forall wellFormed (chats (snd (updateActivity chatId ty data now s))).
Proof.
  intros HF. unfold updateActivity. cbv zeta.
  destruct (om_get chatId (chats s)) as [c|] eqn:E; [| exact HF].
  destruct (applyActivity _ _ _ _) as [c'|e] eqn:Ea; cbn [snd].
  - apply wf_setChatTimeout. cbn [chats set_chats].
    eapply wf_set_same; eauto.
    apply applyActivity_same in Ea. destruct Ea as (A1 & A2 & A3 & A4 & A5).
    repeat split; assumption.
  - cbn [chats set_chats]. eapply wf_set_same; eauto. repeat split.
Qed.

Lemma wf_reportIssue chatId rep ty desc uuid now s :
  Forall wellFormed (chats s) ->
  Forall wellFormed (chats (snd (reportIssue chatId rep ty desc uuid now s))).
Proof.
  intros HF. unfold reportIssue.
  destruct (om_get chatId (chats s)) as [c|] eqn:E; [| exact HF].
  cbv zeta. cbn [snd].
  assert (HF' : Forall wellFormed
                  (chats (set_chats (om_set chatId
                     (set_reports (Some (default [] (reports c) ++
                        [mkReport uuid rep ty desc now "pending"])%list) c)
                     (chats s)) s))).
  { cbn [chats set_chats]. eapply wf_set_same; eauto. repeat split. }
  destruct (arr_includes severeIssues ty); [apply wf_endChat |]; exact HF'.
Qed.

Lemma wf_fold_endChat reason now l s :
  Forall wellFormed (chats s) ->
  Forall wellFormed
    (chats (fold_left (fun s chatId => snd (endChat chatId reason None now s)) l s)).
Proof.
  revert s. induction l as [|x l IH]; intros s HF; simpl; [exact HF |].
  apply IH, wf_endChat, HF.
Qed.

Lemma wf_step op now s :
  Forall wellFormed (chats s) -> Forall wellFormed (chats (step op now s)).
Proof.
  intros HF. destruct op as [u1 u2 ty uuid | cid m uuid | cid r e | cid ty data | th
                            | cid rep ty desc uuid | t]; simpl.
  - apply wf_createChat, HF.
  - apply wf_addMessage, HF.
  - apply wf_endChat, HF.
  - apply wf_updateActivity, HF.
  - apply wf_fold_endChat, HF.
  - apply wf_reportIssue, HF.
  - unfold chatTimerFires. destruct (timers s !! t); [| exact HF].
    apply wf_endChat. exact HF.
Qed.

Lemma reachable_wf s : reachable s -> Forall wellFormed (chats s).
Proof.
  induction 1 as [| s op now _ IH]; [constructor | apply wf_step, IH].
Qed.

Lemma chats_reachable_run ops s : reachable s -> reachable (run ops s).
Proof.
  revert s. induction ops as [|[op now] ops IH]; intros s H; simpl; [exact H |].
  apply IH. constructor. exact H.
Qed.


Lemma last_addToHistory chat s :
  last (chatHistory (addToHistory chat s)) = Some (historyEntry chat).
Proof.
  assert (Hpos : (0 < maxHistorySize)%nat)
    by (apply Nat.ltb_lt; vm_compute; reflexivity).
  unfold addToHistory. cbn [chatHistory]. revert Hpos.
  generalize maxHistorySize. intros n Hpos.
  destruct (Nat.ltb _ _); [| apply last_snoc].
  unfold slice_last. rewrite length_app. cbn [List.length].
  rewrite skipn_app.
  replace (List.length (chatHistory s) + 1 - n - List.length (chatHistory s))%nat
    with 0%nat by lia.
  cbn [skipn]. apply last_snoc.
Qed.

Lemma metadata_calculateFinalAnalytics c :
  metadata (calculateFinalAnalytics c) = metadata c
  /\ id (calculateFinalAnalytics c) = id c.
Proof.
  unfold calculateFinalAnalytics. destruct (Nat.ltb _ _); split; reflexivity.
Qed.

Lemma addMessage_true_iff chatId msg uuid now s :
  fst (addMessage chatId msg uuid now s) = true <->
  exists chat,
    getChat chatId s = Some chat /\ status chat = active
    /\ (List.length (messages chat) < maxMessages (settings chat))%nat.
Proof.
  unfold addMessage, getChat.
  destruct (om_get chatId (chats s)) as [c|]; cbn [fst].
  - destruct (status c) eqn:Es; cbn [Status_eqb negb fst].
    + destruct (Nat.leb_spec (maxMessages (settings c)) (List.length (messages c)));
        cbn [fst]; split.
      * discriminate.
      * intros (c' & [= <-] & _ & Hlt). lia.
      * intros _. exists c. auto.
      * reflexivity.
    + split; [discriminate |]. intros (c' & [= <-] & Hs & _). congruence.
  - split; [discriminate |]. intros (c' & Hc & _). discriminate.
Qed.

(** C1 (as stated, refuted): in the state with one room, the first
    [endChat] answers [true] and a second one answers [false], not the
    same result. *)
Lemma endChat_twice_counterexample :
  fst (endChat "room-1" None None 2000 oneRoom) = true
  /\ fst (endChat "room-1" None None 3000
            (snd (endChat "room-1" None None 2000 oneRoom)))
     <> fst (endChat "room-1" None None 2000 oneRoom).
Proof. vm_compute. split; [reflexivity | discriminate]. Qed.

(** C1 (amended): after a call of [endChat] that ended a room (result
    [true]), a second call for the same room, with whatever reason, user
    and time, answers [false] and leaves the whole state of the manager
    (rooms, user-to-room mapping, history, counters, timers) as it was. *)
Theorem endChat_twice s chatId reason endedBy now reason' endedBy' now' :
  fst (endChat chatId reason endedBy now s) = true ->
  endChat chatId reason' endedBy' now' (snd (endChat chatId reason endedBy now s))
  = (false, snd (endChat chatId reason endedBy now s)).
Proof.
  intros Hfst.
  destruct (om_get chatId (chats s)) as [c|] eqn:E.
  - rewrite (endChat_found _ _ _ _ _ _ E). cbn [snd].
    apply endChat_absent. cbn [chats]. apply om_get_delete_eq.
  - rewrite (endChat_absent _ _ _ _ _ E) in Hfst. discriminate.
Qed.

Lemma endChat_twice_witness :
  fst (endChat "room-1" (Some "user_action") (Some "alice") 2000 oneRoom) = true
  /\ endChat "room-1" (Some "timeout") None 3000
       (snd (endChat "room-1" (Some "user_action") (Some "alice") 2000 oneRoom))
     = (false, snd (endChat "room-1" (Some "user_action") (Some "alice") 2000 oneRoom)).
Proof.
  assert (H : fst (endChat "room-1" (Some "user_action") (Some "alice") 2000 oneRoom)
              = true) by (vm_compute; reflexivity).
  split; [exact H |].
  exact (endChat_twice oneRoom "room-1" (Some "user_action") (Some "alice") 2000
           (Some "timeout") None 3000 H).
Defined.

(** C2: in every state the manager can reach, the messages stored in a
    room carry the sequence numbers [1, 2, ..., n] in the order in which
    they were added, and an append that succeeds stores the message at the
    end with sequence number one plus the number of messages stored
    before. *)
Theorem sequence_numbers s chatId chat :
  reachable s ->
  getChat chatId s = Some chat ->
  sequences chat = seq 1 (List.length (messages chat))
  /\ forall msg uuid now,
       fst (addMessage chatId msg uuid now s) = true ->
       exists chat' m,
         getChat chatId (snd (addMessage chatId msg uuid now s)) = Some chat'
         /\ messages chat' = (messages chat ++ [m])%list
         /\ sequence m = S (List.length (messages chat))
         /\ sequences chat' = seq 1 (S (List.length (messages chat))).
Proof.
  intros Hr Hg. unfold getChat in *.
  pose proof (reachable_wf _ Hr) as HF.
  destruct (Forall_om_get _ _ _ _ HF Hg) as (_ & _ & _ & W4). cbn [snd] in W4.
  split; [exact W4 |].
  intros msg uuid now. unfold addMessage. rewrite Hg.
  destruct (negb (Status_eqb (status chat) active)); [discriminate |].
  destruct (Nat.leb _ _); [discriminate |]. intros _. cbn [snd].
  rewrite chats_setChatTimeout. cbn [chats].
  rewrite om_get_set_eq, om_get_set_eq.
  eexists. eexists. split; [reflexivity |]. cbn.
  split; [reflexivity |]. split; [apply Nat.add_1_r |].
  unfold sequences. cbn. rewrite map_app. cbn. unfold sequences in W4.
  rewrite W4, Nat.add_1_r. apply seq_snoc.
Qed.

Lemma sequence_numbers_witness :
  reachable twoMessages
  /\ getChat "room-1" twoMessages = Some roomAfterTwo
  /\ sequences roomAfterTwo = [1%nat; 2%nat]
  /\ exists chat' m,
       getChat "room-1"
         (snd (addMessage "room-1" (msgFrom "alice" "bye") "m-3" 4000 twoMessages))
         = Some chat'
       /\ messages chat' = (messages roomAfterTwo ++ [m])%list
       /\ sequence m = 3%nat.
Proof.
  assert (Hr : reachable twoMessages).
  { apply chats_reachable_run. apply (reachable_step init (OpCreateChat _ _ _ _) 1000).
    apply reachable_init. }
  assert (Hg : getChat "room-1" twoMessages = Some roomAfterTwo)
    by (vm_compute; reflexivity).
  destruct (sequence_numbers twoMessages "room-1" roomAfterTwo Hr Hg) as [Hs Hadd].
  split; [exact Hr |]. split; [exact Hg |]. split.
  - rewrite Hs. vm_compute. reflexivity.
  - assert (Ht : fst (addMessage "room-1" (msgFrom "alice" "bye") "m-3" 4000 twoMessages)
                 = true) by (vm_compute; reflexivity).
    destruct (Hadd _ _ _ Ht) as (chat' & m & H1 & H2 & H3 & _).
    exists chat', m. split; [exact H1 |]. split; [exact H2 |].
    rewrite H3. vm_compute. reflexivity.
Defined.

(** C6 (as stated, refuted): alice already has room [room-1]; creating a
    second room for her succeeds, and she then takes part in two active
    rooms. *)
Lemma createChat_counterexample :
  userChats oneRoom !! "alice" = Some "room-1"
  /\ atMostOneRoom oneRoom
  /\ ~ atMostOneRoom
        (snd (createChat "alice" "carol" (VStr "text") "room-2" 2000 oneRoom)).
Proof.
  split; [vm_compute; reflexivity |]. split.
  - intros u. unfold roomsOf. rewrite length_map.
    etransitivity; [apply List.filter_length_le |]. vm_compute. lia.
  - intros H. specialize (H "alice"). vm_compute in H. lia.
Qed.

Lemma roomsOf_length u s :
  List.length (roomsOf u s) =
  List.length
    (List.filter
       (fun kc : string * Chat =>
          Status_eqb (status (snd kc)) active && arr_includes (participants (snd kc)) u)
       (chats s)).
Proof.
  unfold roomsOf. rewrite length_map. f_equal.
  apply List.filter_ext. intros [k c]. reflexivity.
Qed.

(** C6 (amended): [createChat] does not check anything.  When neither
    user takes part in an active room beforehand, it keeps every user in
    at most one active room, and both users are mapped to the new room. *)
Theorem createChat_atMostOneRoom s user1Id user2Id chatType uuid now :
  atMostOneRoom s ->
  roomsOf user1Id s = [] ->
  roomsOf user2Id s = [] ->
  atMostOneRoom (snd (createChat user1Id user2Id chatType uuid now s))
  /\ userChats (snd (createChat user1Id user2Id chatType uuid now s)) !! user1Id
     = Some uuid
  /\ userChats (snd (createChat user1Id user2Id chatType uuid now s)) !! user2Id
     = Some uuid.
Proof.
  intros Hone H1 H2. unfold createChat. cbv zeta. cbn [snd].
  set (chat := mkChat uuid _ _ _ _ _ _ _ _ _ _ _ _).
  set (s1 := mkState _ _ _ _ _ _ _).
  assert (Hc : chats (setChatTimeout uuid s1)
               = om_set uuid (set_timeoutId (Some (nextTimer s1)) chat) (chats s)).
  { rewrite chats_setChatTimeout. subst s1. cbn [chats].
    rewrite om_get_set_eq. apply om_set_set. }
  assert (Hu : userChats (setChatTimeout uuid s1)
               = <[user2Id := uuid]> (<[user1Id := uuid]> (userChats s))).
  { unfold setChatTimeout. cbn [userChats]. unfold clearChatTimeout.
    destruct (om_get uuid (chats s1)) as [c|]; [| reflexivity].
    destruct (timeoutId c); reflexivity. }
  split; [| split].
  - intros u. rewrite roomsOf_length, Hc.
    etransitivity; [apply filter_om_set_le |]. cbn [snd status participants set_timeoutId chat].
    rewrite <- roomsOf_length.
    unfold arr_includes. cbn [existsb Status_eqb andb].
    destruct (String.eqb u user1Id) eqn:E1.
    { apply String.eqb_eq in E1. subst u. rewrite H1. simpl. lia. }
    destruct (String.eqb u user2Id) eqn:E2.
    { apply String.eqb_eq in E2. subst u. rewrite H2. simpl. lia. }
    simpl. specialize (Hone u). lia.
  - rewrite Hu. destruct (decide (user2Id = user1Id)) as [-> | Hne].
    + apply lookup_insert_eq.
    + rewrite lookup_insert_ne by exact Hne. apply lookup_insert_eq.
  - rewrite Hu. apply lookup_insert_eq.
Qed.

Lemma createChat_atMostOneRoom_witness :
  atMostOneRoom init
  /\ roomsOf "alice" init = []
  /\ roomsOf "bob" init = []
  /\ atMostOneRoom oneRoom.
Proof.
  assert (H0 : atMostOneRoom init) by (intros u; simpl; lia).
  split; [exact H0 |]. split; [reflexivity |]. split; [reflexivity |].
  exact (proj1 (createChat_atMostOneRoom init "alice" "bob" (VStr "text") "room-1" 1000
                  H0 eq_refl eq_refl)).
Defined.

(** The thousand-and-first message: refused, and the room is ended. *)
Example message_cap_example :
  (sequences <$> getChat "room-1" (sendMany 1000 2000 oneRoom)) = Some (seq 1 1000)
  /\ fst (addMessage "room-1" (msgFrom "alice" "hi") "m" 2000000
            (sendMany 1000 2000 oneRoom)) = false
  /\ (h_endReason <$>
        chatHistory (snd (addMessage "room-1" (msgFrom "alice" "hi") "m" 2000000
                            (sendMany 1000 2000 oneRoom))))
     = [Some "message_limit_reached"].
Proof. vm_compute. repeat split. Qed.

(** C7 (as stated, refuted): a sender who is not a participant of the
    room has the message accepted. *)
Lemma addMessage_counterexample :
  fst (addMessage "room-1" (msgFrom "mallory" "hi") "m-1" 2000 oneRoom) = true
  /\ ~ (exists chat,
          getChat "room-1" oneRoom = Some chat
          /\ status chat = active
          /\ In "mallory" (participants chat)
          /\ (List.length (messages chat) < 1000)%nat).
Proof.
  split; [vm_compute; reflexivity |].
  intros (chat & Hg & _ & Hin & _).
  vm_compute in Hg. injection Hg as <-. simpl in Hin.
  destruct Hin as [H | [H | []]]; discriminate.
Qed.

(** C7 (amended): in every state the manager can reach, [addMessage]
    answers [true] exactly when the room is in the active map with status
    [active] and holds fewer than 1000 messages, whoever the sender is;
    otherwise it answers [false], with no error kind.  For an unknown room
    nothing changes.  For a room at the cap it does what
    [endChat(chatId, 'message_limit_reached')] does: the room leaves the
    active map and the history records that reason. *)
Theorem addMessage_outcome s chatId msg uuid now :
  reachable s ->
  (fst (addMessage chatId msg uuid now s) = true <->
   exists chat,
     getChat chatId s = Some chat /\ status chat = active
     /\ (List.length (messages chat) < 1000)%nat)
  /\ (getChat chatId s = None -> addMessage chatId msg uuid now s = (false, s))
  /\ (forall chat,
        getChat chatId s = Some chat ->
        (1000 <= List.length (messages chat))%nat ->
        addMessage chatId msg uuid now s
        = (false, snd (endChat chatId (Some "message_limit_reached") None now s))
        /\ getChat chatId (snd (addMessage chatId msg uuid now s)) = None
        /\ exists h,
             last (chatHistory (snd (addMessage chatId msg uuid now s))) = Some h
             /\ h_id h = chatId
             /\ h_endReason h = Some "message_limit_reached").
Proof.
  intros Hr. pose proof (reachable_wf _ Hr) as HF. split; [| split].
  - rewrite addMessage_true_iff. split.
    + intros (c & Hg & Hs & Hlt). exists c. split; [exact Hg |]. split; [exact Hs |].
      destruct (Forall_om_get _ _ _ _ HF Hg) as (_ & _ & W3 & _). cbn [snd] in W3.
      rewrite W3 in Hlt. exact Hlt.
    + intros (c & Hg & Hs & Hlt). exists c. split; [exact Hg |]. split; [exact Hs |].
      destruct (Forall_om_get _ _ _ _ HF Hg) as (_ & _ & W3 & _). cbn [snd] in W3.
      rewrite W3. exact Hlt.
  - unfold getChat, addMessage. intros ->. reflexivity.
  - intros c Hg Hcap. unfold getChat in Hg.
    destruct (Forall_om_get _ _ _ _ HF Hg) as (W1 & W2 & W3 & _). cbn [snd fst] in *.
    assert (Heq : addMessage chatId msg uuid now s
                  = (false, snd (endChat chatId (Some "message_limit_reached") None now s))).
    { unfold addMessage. rewrite Hg, W2. cbn [Status_eqb negb].
      rewrite W3. destruct (Nat.leb_spec maxMessagesPerChat (List.length (messages c)));
        [reflexivity | unfold maxMessagesPerChat in *; lia]. }
    split; [exact Heq |]. rewrite Heq. cbn [snd].
    rewrite (endChat_found _ _ _ _ _ _ Hg). cbn [snd].
    split; [unfold getChat; cbn [chats]; apply om_get_delete_eq |].
    eexists. cbn [chatHistory]. split; [apply last_addToHistory |].
    unfold historyEntry. cbn [h_id h_endReason].
    destruct (metadata_calculateFinalAnalytics
                (markEnded (default "user_action" (Some "message_limit_reached"))
                           None now c)) as [-> ->].
    split; [exact W1 | reflexivity].
Qed.

Lemma addMessage_outcome_witness :
  reachable oneRoom
  /\ fst (addMessage "room-1" (msgFrom "mallory" "hi") "m-1" 2000 oneRoom) = true
  /\ addMessage "room-9" (msgFrom "alice" "hi") "m-1" 2000 oneRoom = (false, oneRoom).
Proof.
  assert (Hr : reachable oneRoom).
  { apply (reachable_step init (OpCreateChat _ _ _ _) 1000). apply reachable_init. }
  split; [exact Hr |].
  destruct (addMessage_outcome oneRoom "room-1" (msgFrom "mallory" "hi") "m-1" 2000 Hr)
    as [Hiff _].
  destruct (addMessage_outcome oneRoom "room-9" (msgFrom "alice" "hi") "m-1" 2000 Hr)
    as (_ & Hnone & _).
  split.
  - apply Hiff. eexists. split; [vm_compute; reflexivity |].
    split; [reflexivity | simpl; lia].
  - apply Hnone. vm_compute. reflexivity.
Defined.

End ChatManagerSpec.

Module MatchingEngineSpec.
Import Js JsFacts MatchingEngine.

(** ** Re-enqueueing *)

Lemma addToQueue_present user preferences uuid now s entry :
  om_get (UserManager.id user) (matchingQueue s) = Some entry ->
  addToQueue user preferences uuid now s = (Ok entry, s).
Proof. intros H. unfold addToQueue. rewrite H. reflexivity. Qed.

Lemma om_set_absent {V} k (v : V) m :
  om_get k m = None -> om_set k v m = (m ++ [(k, v)])%list.
Proof.
  unfold om_get. induction m as [|[k' v'] m IH]; simpl; [reflexivity |].
  destruct (String.eqb k k'); [discriminate |]. intros H. rewrite (IH H). reflexivity.
Qed.

Lemma om_get_None_keys {V} k (m : omap V) :
  om_get k m = None -> Forall (fun kc => fst kc <> k) m.
Proof.
  unfold om_get. induction m as [|[k' v'] m IH]; simpl; [constructor |].
  destruct (String.eqb k k') eqn:E; [discriminate |]. intros H.
  constructor; [| exact (IH H)]. simpl. intros ->.
  rewrite String.eqb_refl in E. discriminate.
Qed.

Lemma entriesOf_absent uid s :
  keyed s -> om_get uid (matchingQueue s) = None -> entriesOf uid s = [].
Proof.
  unfold keyed, entriesOf, om_values. intros Hk Hn.
  apply om_get_None_keys in Hn.
  induction (matchingQueue s) as [|[k e] m IH]; [reflexivity |].
  inversion Hk as [|? ? Hke Hk']; subst. inversion Hn as [|? ? Hne Hn']; subst.
  simpl in *. destruct (String.eqb (userId e) uid) eqn:E.
  - apply String.eqb_eq in E. congruence.
  - apply IH; assumption.
Qed.

(** The queue stays keyed by user id. *)
Lemma keyed_init : keyed init.
Proof. constructor. Qed.

Lemma keyed_addToQueue user preferences uuid now s :
  keyed s -> keyed (snd (addToQueue user preferences uuid now s)).
Proof.
  unfold keyed, addToQueue. intros Hk.
  destruct (om_get _ _); [exact Hk |].
  destruct (Nat.leb _ _); [exact Hk |].
  destruct (sanitizePreferences preferences); [| exact Hk].
  destruct (extractRequirements preferences); [| exact Hk].
  destruct (calculateFlexibility preferences); [| exact Hk].
  cbn. apply Forall_om_set; [reflexivity | exact Hk].
Qed.

Lemma keyed_removeFromQueue userId now s :
  keyed s -> keyed (snd (removeFromQueue userId now s)).
Proof.
  unfold keyed, removeFromQueue. intros Hk.
  destruct (om_has _ _); [| exact Hk]. cbn. apply Forall_om_delete, Hk.
Qed.

Lemma keyed_cleanupQueue now s : keyed s -> keyed (snd (cleanupQueue now s)).
Proof.
  unfold cleanupQueue. cbn [snd]. generalize (staleEntries now s). intros l.
  revert s. induction l as [|x l IH]; intros s Hk; simpl; [exact Hk |].
  apply IH, keyed_removeFromQueue, Hk.
Qed.

(** C3: once a user is in the queue, every further [addToQueue] for that
    user, whatever the preferences, the time and the number of calls,
    returns the entry that is there and leaves the engine as it is.  That
    entry is the one the first call made: its [queuedAt] is the time of
    the first call, and it is the only entry of the queue for that user. *)
Theorem addToQueue_idempotent s uid entry (calls : list Call) :
  om_get uid (matchingQueue s) = Some entry ->
  Forall (fun c => UserManager.id (callUser c) = uid) calls ->
  addToQueueMany calls s = (List.map (fun _ => Ok entry) calls, s)
  /\ (forall s0 user preferences uuid now,
        UserManager.id user = uid ->
        keyed s0 ->
        om_get uid (matchingQueue s0) = None ->
        addToQueue user preferences uuid now s0 = (Ok entry, s) ->
        queuedAt entry = now /\ entriesOf uid s = [entry]).
Proof.
  intros Hin Hcalls. split.
  - induction Hcalls as [|[[[user prefs] uuid] now] calls Hu _ IH]; [reflexivity |].
    unfold callUser in Hu. simpl in Hu. cbn [addToQueueMany].
    rewrite (addToQueue_present _ _ _ _ _ entry) by (rewrite Hu; exact Hin).
    rewrite IH. reflexivity.
  - intros s0 user prefs uuid now Hu Hk Hn. unfold addToQueue. rewrite Hu, Hn.
    destruct (Nat.leb _ _); [discriminate |].
    destruct (sanitizePreferences prefs); [| discriminate].
    destruct (extractRequirements prefs); [| discriminate].
    destruct (calculateFlexibility prefs); [| discriminate].
    cbn [bind]. intros [= <- <-]. split; [reflexivity |].
    unfold entriesOf, om_values. cbn [matchingQueue].
    rewrite (om_set_absent _ _ _ Hn), map_app, List.filter_app.
    fold (om_values (matchingQueue s0)). fold (entriesOf uid s0).
    rewrite (entriesOf_absent _ _ Hk Hn). cbn. rewrite String.eqb_refl. reflexivity.
Qed.

Lemma addToQueue_idempotent_witness :
  om_get "user-1" (matchingQueue (snd queuedOnce)) = Some entry1
  /\ Forall (fun c => UserManager.id (callUser c) = "user-1") laterCalls
  /\ addToQueueMany laterCalls (snd queuedOnce)
     = ([Ok entry1; Ok entry1], snd queuedOnce)
  /\ queuedAt entry1 = 5000
  /\ entriesOf "user-1" (snd queuedOnce) = [entry1].
Proof.
  assert (H1 : om_get "user-1" (matchingQueue (snd queuedOnce)) = Some entry1)
    by (vm_compute; reflexivity).
  assert (H2 : Forall (fun c => UserManager.id (callUser c) = "user-1") laterCalls)
    by (repeat constructor).
  destruct (addToQueue_idempotent (snd queuedOnce) "user-1" entry1 laterCalls H1 H2)
    as [Hmany Hfirst].
  split; [exact H1 |]. split; [exact H2 |]. split; [exact Hmany |].
  apply (Hfirst init UserManager.user1 firstPreferences "entry-1" 5000).
  - reflexivity.
  - constructor.
  - reflexivity.
  - vm_compute. reflexivity.
Defined.

(** ** The compatibility score *)

Lemma calculateGenderCompatibility_sym e1 e2 :
  calculateGenderCompatibility e1 e2 = calculateGenderCompatibility e2 e1.
Proof.
  unfold calculateGenderCompatibility. cbv zeta.
  destruct (strict_eq_str (js_or (gender (preferences e1)) (VStr "any")) "any");
  destruct (strict_eq_str (js_or (gender (preferences e2)) (VStr "any")) "any");
  destruct (strict_eq_str (js_or (gender (preferences e1)) (VStr "any")) _);
  destruct (strict_eq_str (js_or (gender (preferences e2)) (VStr "any")) _);
  reflexivity.
Qed.

Lemma calculateAgeCompatibility_sym e1 e2 :
  calculateAgeCompatibility e1 e2 = calculateAgeCompatibility e2 e1.
Proof.
  unfold calculateAgeCompatibility. cbv zeta.
  destruct (UserManager.age (UserManager.profile (user e1))) as [a1|];
  destruct (UserManager.age (UserManager.profile (user e2))) as [a2|];
    try reflexivity.
  rewrite (String.eqb_sym a2 a1).
  destruct (String.eqb a1 ""), (String.eqb a2 ""),
           (String.eqb a1 "not-specified"), (String.eqb a2 "not-specified");
    try reflexivity.
  cbn [orb].
  destruct (String.eqb a1 a2); [reflexivity |].
  destruct (negb (truthy (age (preferences e1))) || _ || _);
  destruct (negb (truthy (age (preferences e2))) || _ || _); reflexivity.
Qed.

Lemma calculateLocationCompatibility_sym e1 e2 :
  calculateLocationCompatibility e1 e2 = calculateLocationCompatibility e2 e1.
Proof.
  unfold calculateLocationCompatibility. cbv zeta.
  destruct (UserManager.location (UserManager.profile (user e1))) as [l1|];
  destruct (UserManager.location (UserManager.profile (user e2))) as [l2|];
    try reflexivity.
  rewrite (String.eqb_sym (toLowerCase l2) (toLowerCase l1)).
  rewrite (String.eqb_sym (trim (split_comma_head (toLowerCase l2)))
                          (trim (split_comma_head (toLowerCase l1)))).
  rewrite (orb_comm (includes (toLowerCase l2) (toLowerCase l1))).
  rewrite (orb_comm (String.eqb l2 "")).
  reflexivity.
Qed.

Lemma filter_mem_comm (A B : gset string) :
  filter (fun x => x ∈ B) A = filter (fun x => x ∈ A) B.
Proof. apply set_eq. intros x. rewrite !elem_of_filter. tauto. Qed.

Lemma calculateInterestCompatibility_sym e1 e2 :
  calculateInterestCompatibility e1 e2 = calculateInterestCompatibility e2 e1.
Proof.
  unfold calculateInterestCompatibility. cbv zeta.
  set (i1 := default [] (UserManager.keywords (UserManager.profile (user e1)))).
  set (i2 := default [] (UserManager.keywords (UserManager.profile (user e2)))).
  rewrite (andb_comm (List.length i2 =? 0)%nat), (orb_comm (List.length i2 =? 0)%nat).
  rewrite (filter_mem_comm (list_to_set (List.map toLowerCase i2))).
  rewrite (union_comm_L (list_to_set (List.map toLowerCase i2) : gset string)).
  reflexivity.
Qed.

Lemma calculateTrustCompatibility_sym e1 e2 :
  calculateTrustCompatibility e1 e2 = calculateTrustCompatibility e2 e1.
Proof.
  unfold calculateTrustCompatibility. cbv zeta.
  rewrite (add_comm (orF (UserManager.trustScore (UserManager.flags (user e2))) 1)).
  rewrite (abs_sub_comm (orF (UserManager.trustScore (UserManager.flags (user e2))) 1)).
  reflexivity.
Qed.

Example calculateCompatibility_example :
  calculateCompatibility weights entryParis entryLyon = 0.7135%float
  /\ calculateLocationCompatibility entryParis entryLyon = 0.3%float
  /\ calculateInterestCompatibility entryParis entryLyon = 0.35%float
  /\ calculateTrustCompatibility entryParis entryLyon = 0.81%float.
Proof. vm_compute. repeat split. Qed.

(** C8: the compatibility score does not depend on the order of its two
    entries, whatever the weights. *)
Theorem calculateCompatibility_symmetric w e1 e2 :
  calculateCompatibility w e1 e2 = calculateCompatibility w e2 e1.
Proof.
  unfold calculateCompatibility. cbv zeta.
  rewrite (calculateGenderCompatibility_sym e1 e2),
          (calculateAgeCompatibility_sym e1 e2),
          (calculateLocationCompatibility_sym e1 e2),
          (calculateInterestCompatibility_sym e1 e2),
          (calculateTrustCompatibility_sym e1 e2).
  reflexivity.
Qed.

End MatchingEngineSpec.

(* --------------------------------------------------------------------- *)
(** ** The order of doubles, [Math.max] and [Math.min] *)
(* --------------------------------------------------------------------- *)

Module FloatOrder.
Import Js JsFacts.

Lemma SFcompare_antisym x y :
  SFcompare y x = option_map CompOpp (SFcompare x y).
Proof.
  destruct x as [sx|sx| |sx mx ex], y as [sy|sy| |sy my ey]; simpl;
    try reflexivity; try (destruct sx, sy; reflexivity); try (destruct sx; reflexivity);
    try (destruct sy; reflexivity).
  destruct sx, sy; simpl; try reflexivity;
    rewrite (Z.compare_antisym ex ey); destruct (ex ?= ey)%Z; simpl; try reflexivity;
    rewrite (ZC4 my mx);
    destruct (Pos.compare_cont Eq mx my); reflexivity.
Qed.

Lemma ltb_asym a b : PrimFloat.ltb a b = true -> PrimFloat.ltb b a = false.
Proof.
  rewrite !FloatAxioms.ltb_spec. unfold SFltb.
  rewrite (SFcompare_antisym (Prim2SF a) (Prim2SF b)).
  destruct (SFcompare (Prim2SF a) (Prim2SF b)) as [[]|]; simpl; congruence.
Qed.

Lemma ltb_irrefl a : PrimFloat.ltb a a = false.
Proof.
  destruct (PrimFloat.ltb a a) eqn:E; [| reflexivity].
  pose proof (ltb_asym _ _ E). congruence.
Qed.

Lemma ltb_nan_r a : PrimFloat.ltb a PrimFloat.nan = false.
Proof.
  rewrite FloatAxioms.ltb_spec. unfold SFltb.
  change (Prim2SF PrimFloat.nan) with S754_nan.
  destruct (Prim2SF a); reflexivity.
Qed.

Lemma ltb_nan_l a : PrimFloat.ltb PrimFloat.nan a = false.
Proof.
  rewrite FloatAxioms.ltb_spec. unfold SFltb.
  change (Prim2SF PrimFloat.nan) with S754_nan. reflexivity.
Qed.

(** The result of [Math.max] / [Math.min] is [NaN] or one of the two. *)
Lemma Math_max_cases a b :
  Math_max a b = PrimFloat.nan \/ Math_max a b = a \/ Math_max a b = b.
Proof.
  unfold Math_max.
  destruct (PrimFloat.is_nan a || PrimFloat.is_nan b); [auto |].
  destruct (PrimFloat.ltb a b); [auto |].
  destruct (PrimFloat.ltb b a); [auto |].
  destruct (PrimFloat.get_sign a); auto.
Qed.

(** [Math.max] is never below either argument, [Math.min] never above. *)
Lemma Math_max_not_below_l a b : PrimFloat.ltb (Math_max a b) a = false.
Proof.
  unfold Math_max.
  destruct (PrimFloat.is_nan a || PrimFloat.is_nan b); [apply ltb_nan_l |].
  destruct (PrimFloat.ltb a b) eqn:E1; [apply ltb_asym, E1 |].
  destruct (PrimFloat.ltb b a) eqn:E2; [apply ltb_irrefl |].
  destruct (PrimFloat.get_sign a); [exact E2 | apply ltb_irrefl].
Qed.

Lemma Math_max_not_below_r a b : PrimFloat.ltb (Math_max a b) b = false.
Proof.
  unfold Math_max.
  destruct (PrimFloat.is_nan a || PrimFloat.is_nan b); [apply ltb_nan_l |].
  destruct (PrimFloat.ltb a b) eqn:E1; [apply ltb_irrefl |].
  destruct (PrimFloat.ltb b a) eqn:E2; [exact E1 |].
  destruct (PrimFloat.get_sign a); [apply ltb_irrefl | exact E1].
Qed.

Lemma Math_min_not_above_l a b : PrimFloat.ltb a (Math_min a b) = false.
Proof.
  unfold Math_min.
  destruct (PrimFloat.is_nan a || PrimFloat.is_nan b); [apply ltb_nan_r |].
  destruct (PrimFloat.ltb a b) eqn:E1; [apply ltb_irrefl |].
  destruct (PrimFloat.ltb b a) eqn:E2; [apply ltb_asym, E2 |].
  destruct (PrimFloat.get_sign a); [apply ltb_irrefl | exact E1].
Qed.

(** [Math.max(lo, Math.min(hi, x))] stays between [lo] and [hi]. *)
Lemma clamp_bounds lo hi x :
  PrimFloat.ltb hi lo = false ->
  PrimFloat.ltb (Math_max lo (Math_min hi x)) lo = false
  /\ PrimFloat.ltb hi (Math_max lo (Math_min hi x)) = false.
Proof.
  intros H. split; [apply Math_max_not_below_l |].
  destruct (Math_max_cases lo (Math_min hi x)) as [-> | [-> | ->]].
  - apply ltb_nan_r.
  - exact H.
  - apply Math_min_not_above_l.
Qed.

End FloatOrder.

(* --------------------------------------------------------------------- *)
(** ** Maps and arrays *)
(* --------------------------------------------------------------------- *)

Module CollectionFacts.
Import Js JsArray JsFacts.

Lemma om_delete_absent {V} k (m : omap V) : om_get k m = None -> om_delete k m = m.
Proof.
  unfold om_get. induction m as [|[k' v'] m IH]; simpl; [reflexivity |].
  destruct (String.eqb k k'); [discriminate |]. intros H. rewrite (IH H). reflexivity.
Qed.

Lemma om_delete_filter {V} k (m : omap V) :
  om_delete k m = List.filter (fun kc => negb (String.eqb k (fst kc))) m.
Proof.
  induction m as [|[k' v'] m IH]; simpl; [reflexivity |].
  destruct (String.eqb k k'); simpl; rewrite IH; reflexivity.
Qed.

Lemma fold_om_delete_filter {V} (ids : list string) (m : omap V) :
  fold_left (fun m k => om_delete k m) ids m
  = List.filter (fun kc => negb (arr_includes ids (fst kc))) m.
Proof.
  revert m. induction ids as [|k ids IH]; intros m; simpl.
  - induction m as [|x m IHm]; simpl; [reflexivity | rewrite <- IHm; reflexivity].
  - rewrite IH, om_delete_filter.
    induction m as [|[k' v'] m IHm]; simpl; [reflexivity |].
    unfold arr_includes in *. simpl.
    rewrite (String.eqb_sym k' k).
    destruct (String.eqb k k'); simpl; [exact IHm |].
    destruct (existsb (String.eqb k') ids); simpl; rewrite IHm; reflexivity.
Qed.

Lemma om_get_filter_keys {V} (p : string -> bool) k (m : omap V) :
  om_get k (List.filter (fun kc => p (fst kc)) m)
  = if p k then om_get k m else None.
Proof.
  unfold om_get. induction m as [|[k' v'] m IH]; simpl.
  - destruct (p k); reflexivity.
  - destruct (p k') eqn:Ep; simpl.
    + destruct (String.eqb k k') eqn:E.
      * apply String.eqb_eq in E. subst k'. rewrite Ep. reflexivity.
      * exact IH.
    + destruct (String.eqb k k') eqn:E.
      * apply String.eqb_eq in E. subst k'. rewrite Ep in IH. rewrite Ep. exact IH.
      * exact IH.
Qed.

Lemma lookup_fold_delete (l : list string) (m : gmap string string) u :
  fold_left (fun m userId => delete userId m) l m !! u
  = if arr_includes l u then None else m !! u.
Proof.
  revert m. induction l as [|x l IH]; intros m; simpl; [reflexivity |].
  rewrite IH. unfold arr_includes. simpl.
  destruct (String.eqb u x) eqn:E.
  - apply String.eqb_eq in E. subst x. rewrite lookup_delete_eq.
    destruct (existsb _ l); reflexivity.
  - rewrite lookup_delete_ne; [reflexivity |].
    intros ->. rewrite String.eqb_refl in E. discriminate.
Qed.

Lemma arr_includes_In l u : arr_includes l u = true <-> In u l.
Proof.
  unfold arr_includes. rewrite existsb_exists. split.
  - intros (x & Hx & E). apply String.eqb_eq in E. subst. exact Hx.
  - intros H. exists u. split; [exact H | apply String.eqb_refl].
Qed.

Lemma In_om_delete {V} k k' (v : V) m : In (k', v) (om_delete k m) -> In (k', v) m.
Proof.
  induction m as [|[k0 v0] m IH]; simpl; [tauto |].
  destruct (String.eqb k k0); simpl; intuition.
Qed.

Lemma In_om_set {V} k k' (v v' : V) m :
  In (k', v') (om_set k v m) -> (k', v') = (k, v) \/ In (k', v') m.
Proof.
  induction m as [|[k0 v0] m IH]; simpl.
  - intros [H | []]. left. symmetry. exact H.
  - destruct (String.eqb k k0); simpl; intros [H | H]; auto.
    destruct (IH H); auto.
Qed.

Lemma List_filter_sublist {A} (f : A -> bool) l : sublist (List.filter f l) l.
Proof.
  induction l as [|x l IH]; simpl; [constructor |].
  destruct (f x); [apply sublist_skip | apply sublist_cons]; exact IH.
Qed.

Lemma sublist_Forall {A} (Q : A -> Prop) (l1 l2 : list A) :
  sublist l1 l2 -> Forall Q l2 -> Forall Q l1.
Proof.
  induction 1 as [| x l1 l2 _ IH | x l1 l2 _ IH]; intros H.
  - constructor.
  - inversion H; subst. constructor; auto.
  - inversion H; subst. auto.
Qed.

(** Keys stay unique. *)
Lemma keys_om_set {V} k (v : V) m x :
  In x (List.map fst (om_set k v m)) -> x = k \/ In x (List.map fst m).
Proof.
  induction m as [|[k0 v0] m IH]; simpl.
  - intros [H | []]. auto.
  - destruct (String.eqb k k0) eqn:E; simpl.
    + apply String.eqb_eq in E. subst k0. tauto.
    + intros [H | H]; [tauto |]. destruct (IH H); auto.
Qed.

Lemma NoDup_om_set {V} k (v : V) m :
  List.NoDup (List.map fst m) -> List.NoDup (List.map fst (om_set k v m)).
Proof.
  induction m as [|[k0 v0] m IH]; simpl; intros H.
  - constructor; [intros [] | constructor].
  - apply List.NoDup_cons_iff in H as [Hn Hd].
    destruct (String.eqb k k0) eqn:E; simpl.
    + apply String.eqb_eq in E. subst k0. constructor; assumption.
    + constructor; [| apply IH, Hd].
      intros Hin. apply keys_om_set in Hin as [-> | Hin]; [| contradiction].
      rewrite String.eqb_refl in E. discriminate.
Qed.

Lemma keys_om_delete {V} k (m : omap V) x :
  In x (List.map fst (om_delete k m)) -> In x (List.map fst m).
Proof.
  induction m as [|[k0 v0] m IH]; simpl; [tauto |].
  destruct (String.eqb k k0); simpl; intuition.
Qed.

Lemma NoDup_om_delete {V} k (m : omap V) :
  List.NoDup (List.map fst m) -> List.NoDup (List.map fst (om_delete k m)).
Proof.
  induction m as [|[k0 v0] m IH]; simpl; intros H; [constructor |].
  apply List.NoDup_cons_iff in H as [Hn Hd].
  destruct (String.eqb k k0); simpl; [apply IH, Hd |].
  constructor; [| apply IH, Hd].
  intros Hin. apply Hn. eapply keys_om_delete, Hin.
Qed.

Lemma In_om_get {V} k (v : V) m :
  List.NoDup (List.map fst m) -> In (k, v) m -> om_get k m = Some v.
Proof.
  unfold om_get. induction m as [|[k0 v0] m IH]; simpl; [tauto |].
  intros H. apply List.NoDup_cons_iff in H as [Hn Hd].
  intros [Heq | Hin].
  - injection Heq as -> ->. rewrite String.eqb_refl. reflexivity.
  - destruct (String.eqb k k0) eqn:E; [| apply IH; assumption].
    apply String.eqb_eq in E. subst k0. exfalso. apply Hn.
    apply List.in_map_iff. exists (k, v). auto.
Qed.

(** [sort] only rearranges. *)
Lemma insertBy_perm {A} (comparefn : A -> A -> float) x l :
  insertBy comparefn x l ≡ₚ x :: l.
Proof.
  induction l as [|y l IH]; simpl; [reflexivity |].
  destruct (PrimFloat.ltb _ _); [reflexivity |].
  rewrite IH. apply Permutation_swap.
Qed.

Lemma sortBy_perm {A} (comparefn : A -> A -> float) l : sortBy comparefn l ≡ₚ l.
Proof.
  unfold sortBy.
  assert (H : forall acc,
            fold_left (fun acc x => insertBy comparefn x acc) l acc ≡ₚ (acc ++ l)%list).
  { induction l as [|x l IH]; intros acc; simpl.
    - rewrite app_nil_r. reflexivity.
    - rewrite IH, insertBy_perm. apply Permutation_middle. }
  apply (H []).
Qed.

Lemma sortBy_In {A} (comparefn : A -> A -> float) l x :
  In x (sortBy comparefn l) <-> In x l.
Proof.
  split; apply Permutation_in; [| symmetry]; apply sortBy_perm.
Qed.

End CollectionFacts.

(* --------------------------------------------------------------------- *)
(** ** ChatManager: rooms, history, analytics *)
(* --------------------------------------------------------------------- *)

Module ChatManagerMore.
Import Js JsArray JsFacts FloatOrder CollectionFacts ChatManager ChatQueries ChatManagerSpec.

(** *** The room after each operation *)

Lemma chats_endChat_delete chatId reason endedBy now s :
  chats (snd (endChat chatId reason endedBy now s)) = om_delete chatId (chats s).
Proof.
  destruct (om_get chatId (chats s)) as [c|] eqn:E.
  - rewrite (endChat_found _ _ _ _ _ _ E). reflexivity.
  - rewrite (endChat_absent _ _ _ _ _ E), (om_delete_absent _ _ E). reflexivity.
Qed.

Lemma participants_final reason endedBy now chat :
  participants (calculateFinalAnalytics (markEnded reason endedBy now chat))
  = participants chat.
Proof. unfold calculateFinalAnalytics. destruct (Nat.ltb _ _); reflexivity. Qed.

(** X1: a room that was just created can be looked up: by its id, and
    through either participant; it is active, holds no message, and the
    count of rooms has gone up by one. *)
Theorem createChat_lookup user1Id user2Id chatType uuid now s :
  uuid <> "" ->
  getChat uuid (snd (createChat user1Id user2Id chatType uuid now s))
  = Some (fst (createChat user1Id user2Id chatType uuid now s))
  /\ getUserCurrentChat user1Id (snd (createChat user1Id user2Id chatType uuid now s))
     = Some (fst (createChat user1Id user2Id chatType uuid now s))
  /\ getUserCurrentChat user2Id (snd (createChat user1Id user2Id chatType uuid now s))
     = Some (fst (createChat user1Id user2Id chatType uuid now s))
  /\ id (fst (createChat user1Id user2Id chatType uuid now s)) = uuid
  /\ participants (fst (createChat user1Id user2Id chatType uuid now s))
     = [user1Id; user2Id]
  /\ status (fst (createChat user1Id user2Id chatType uuid now s)) = active
  /\ messages (fst (createChat user1Id user2Id chatType uuid now s)) = []
  /\ totalChats (snd (createChat user1Id user2Id chatType uuid now s))
     = totalChats s + 1.
Proof.
  intros Hne.
  assert (Hneb : String.eqb uuid "" = false).
  { destruct (String.eqb uuid "") eqn:E; [| reflexivity].
    apply String.eqb_eq in E. contradiction. }
  unfold createChat. cbv zeta. cbn [fst snd].
  set (chat := mkChat uuid _ _ _ _ _ _ _ _ _ _ _ _).
  set (s1 := mkState _ _ _ _ _ _ _).
  assert (Hc : chats (setChatTimeout uuid s1)
               = om_set uuid (set_timeoutId (Some (nextTimer s1)) chat) (chats s)).
  { rewrite chats_setChatTimeout. subst s1. cbn [chats].
    rewrite om_get_set_eq. apply om_set_set. }
  assert (Hu : userChats (setChatTimeout uuid s1)
               = <[user2Id := uuid]> (<[user1Id := uuid]> (userChats s))).
  { unfold setChatTimeout. cbn [userChats]. unfold clearChatTimeout.
    destruct (om_get uuid (chats s1)) as [c|]; [| reflexivity].
    destruct (timeoutId c); reflexivity. }
  assert (Ht : totalChats (setChatTimeout uuid s1) = totalChats s + 1).
  { unfold setChatTimeout. cbn [totalChats]. unfold clearChatTimeout.
    destruct (om_get uuid (chats s1)) as [c|]; [| reflexivity].
    destruct (timeoutId c); reflexivity. }
  assert (Hg : om_get uuid (chats (setChatTimeout uuid s1))
               = Some (set_timeoutId (Some (nextTimer s1)) chat)).
  { rewrite Hc. apply om_get_set_eq. }
  unfold getChat, getUserCurrentChat. rewrite Hg, Hu. cbn [default].
  assert (H1 : <[user2Id := uuid]> (<[user1Id := uuid]> (userChats s)) !! user1Id
               = Some uuid).
  { destruct (decide (user2Id = user1Id)) as [-> | Hd].
    - apply lookup_insert_eq.
    - rewrite lookup_insert_ne by exact Hd. apply lookup_insert_eq. }
  rewrite H1, lookup_insert_eq, Hneb, Hg.
  repeat split; try reflexivity. exact Ht.
Qed.

Lemma createChat_lookup_witness :
  "room-1" <> ""
  /\ getUserCurrentChat "bob" oneRoom
     = Some (fst (createChat "alice" "bob" (VStr "text") "room-1" 1000 init)).
Proof.
  assert (H : "room-1" <> "") by discriminate.
  split; [exact H |].
  exact (proj1 (proj2 (proj2
           (createChat_lookup "alice" "bob" (VStr "text") "room-1" 1000 init H)))).
Defined.

Lemma userChats_endChat chatId reason endedBy now s chat u :
  om_get chatId (chats s) = Some chat ->
  userChats (snd (endChat chatId reason endedBy now s)) !! u
  = if arr_includes (participants chat) u then None else userChats s !! u.
Proof.
  intros Hg. rewrite (endChat_found _ _ _ _ _ _ Hg). cbn [snd userChats].
  rewrite lookup_fold_delete, participants_final. reflexivity.
Qed.



(** *** The history is a bounded ring *)

Lemma length_slice_last {A} n (l : list A) :
  (List.length (slice_last n l) <= n)%nat.
Proof. unfold slice_last. rewrite length_skipn. lia. Qed.

Lemma length_addToHistory chat s :
  (List.length (chatHistory (addToHistory chat s)) <= maxHistorySize)%nat.
Proof.
  unfold addToHistory. cbn [chatHistory].
  destruct (Nat.ltb_spec maxHistorySize
              (List.length (chatHistory s ++ [historyEntry chat])%list)).
  - apply length_slice_last.
  - assumption.
Qed.

Lemma history_setChatTimeout chatId s :
  chatHistory (setChatTimeout chatId s) = chatHistory s.
Proof.
  unfold setChatTimeout. cbn [chatHistory]. unfold clearChatTimeout.
  destruct (om_get chatId (chats s)) as [c|]; [| reflexivity].
  destruct (timeoutId c); reflexivity.
Qed.

Lemma history_endChat chatId reason endedBy now s :
  (List.length (chatHistory s) <= maxHistorySize)%nat ->
  (List.length (chatHistory (snd (endChat chatId reason endedBy now s)))
   <= maxHistorySize)%nat.
Proof.
  intros H. destruct (om_get chatId (chats s)) as [c|] eqn:E.
  - rewrite (endChat_found _ _ _ _ _ _ E). cbn [snd chatHistory].
    apply length_addToHistory.
  - rewrite (endChat_absent _ _ _ _ _ E). exact H.
Qed.

Lemma history_fold_endChat reason now l s :
  (List.length (chatHistory s) <= maxHistorySize)%nat ->
  (List.length
     (chatHistory
        (fold_left (fun s chatId => snd (endChat chatId reason None now s)) l s))
   <= maxHistorySize)%nat.
Proof.
  revert s. induction l as [|x l IH]; intros s H; simpl; [exact H |].
  apply IH, history_endChat, H.
Qed.

Lemma history_step op now s :
  (List.length (chatHistory s) <= maxHistorySize)%nat ->
  (List.length (chatHistory (step op now s)) <= maxHistorySize)%nat.
Proof.
  intros H. destruct op as [u1 u2 ty uuid | cid m uuid | cid r e | cid ty data | th
                           | cid rep ty desc uuid | t]; cbn [step].
  - unfold createChat. cbv zeta. cbn [snd]. rewrite history_setChatTimeout. exact H.
  - unfold addMessage. destruct (om_get cid (chats s)) as [c|]; [| exact H].
    destruct (negb _); [exact H |].
    destruct (Nat.leb _ _); cbn [snd]; [apply history_endChat, H |].
    rewrite history_setChatTimeout. exact H.
  - apply history_endChat, H.
  - unfold updateActivity. cbv zeta. destruct (om_get cid (chats s)) as [c|]; [| exact H].
    destruct (applyActivity _ _ _ _); cbn [snd];
      rewrite ?history_setChatTimeout; exact H.
  - apply history_fold_endChat, H.
  - unfold reportIssue. destruct (om_get cid (chats s)) as [c|]; [| exact H].
    cbv zeta. cbn [snd]. destruct (arr_includes _ _); [apply history_endChat |]; exact H.
  - unfold chatTimerFires. destruct (timers s !! t); [| exact H].
    apply history_endChat. exact H.
Qed.

(** X3: the history of ended rooms never holds more than
    [maxHistorySize] (10000) entries. *)
Theorem chatHistory_bounded s :
  reachable s -> (List.length (chatHistory s) <= maxHistorySize)%nat.
Proof.
  induction 1 as [| s op now _ IH].
  - apply Nat.leb_le. vm_compute. reflexivity.
  - apply history_step, IH.
Qed.

Lemma chatHistory_bounded_witness :
  reachable threeEnded
  /\ (List.length (chatHistory threeEnded) <= maxHistorySize)%nat.
Proof.
  assert (Hr : reachable threeEnded).
  { apply chats_reachable_run. apply (reachable_step init (OpCreateChat _ _ _ _) 1000).
    apply reachable_init. }
  split; [exact Hr | exact (chatHistory_bounded threeEnded Hr)].
Defined.

(** *** Counters and the response-time window *)

Lemma counted_set_same k c c' m :
  Forall counted m -> om_get k m = Some c ->
  messages c' = messages c ->
  messageCount (metadata c') = messageCount (metadata c) ->
  responseTime (analytics c') = responseTime (analytics c) ->
  Forall counted (om_set k c' m).
Proof.
  intros HF Hg H1 H2 H3. apply Forall_om_set; [| exact HF].
  destruct (Forall_om_get _ _ _ _ HF Hg) as [C1 C2].
  unfold counted in *. cbn [snd] in *. rewrite H1, H2, H3. auto.
Qed.

Lemma counted_setChatTimeout chatId s :
  Forall counted (chats s) -> Forall counted (chats (setChatTimeout chatId s)).
Proof.
  intros HF. rewrite chats_setChatTimeout.
  destruct (om_get chatId (chats s)) as [c|] eqn:E; [| exact HF].
  eapply counted_set_same; eauto.
Qed.

Lemma counted_endChat chatId reason endedBy now s :
  Forall counted (chats s) ->
  Forall counted (chats (snd (endChat chatId reason endedBy now s))).
Proof. intros HF. rewrite chats_endChat_delete. apply Forall_om_delete, HF. Qed.

Lemma counted_fold_endChat reason now l s :
  Forall counted (chats s) ->
  Forall counted
    (chats (fold_left (fun s chatId => snd (endChat chatId reason None now s)) l s)).
Proof.
  revert s. induction l as [|x l IH]; intros s HF; simpl; [exact HF |].
  apply IH, counted_endChat, HF.
Qed.

Lemma applyActivity_counts ty data now c c' :
  applyActivity ty data now c = Ok c' ->
  messages c' = messages c
  /\ messageCount (metadata c') = messageCount (metadata c)
  /\ responseTime (analytics c') = responseTime (analytics c).
Proof.
  unfold applyActivity.
  destruct (String.eqb ty "typing"); [intros [= <-]; repeat split |].
  destruct (String.eqb ty "webrtc_connected"); [intros [= <-]; repeat split |].
  destruct (String.eqb ty "webrtc_disconnected").
  { intros [= <-]. destruct (webrtcConnectedAt (metadata c)); repeat split. }
  destruct (String.eqb ty "quality_issue"); [| intros [= <-]; repeat split].
  destruct (getProp data "type"); [| discriminate].
  destruct (getProp data "details"); [| discriminate].
  intros [= <-]. repeat split.
Qed.

Lemma counted_addMessage chatId msg uuid now s :
  Forall counted (chats s) ->
  Forall counted (chats (snd (addMessage chatId msg uuid now s))).
Proof.
  intros HF. unfold addMessage.
  destruct (om_get chatId (chats s)) as [c|] eqn:E; [| exact HF].
  destruct (negb (Status_eqb (status c) active)); [exact HF |].
  destruct (Nat.leb _ _); cbn [snd]; [apply counted_endChat, HF |].
  apply counted_setChatTimeout. cbn [chats].
  apply Forall_om_set; [| exact HF].
  destruct (Forall_om_get _ _ _ _ HF E) as [C1 C2].
  unfold counted in *. cbn [snd] in *.
  unfold updateChatAnalytics.
  cbn [messages metadata analytics set_analytics set_lastActivity set_metadata
       set_messages responseTime messageCount incr_messageCount].
  rewrite length_app. cbn [List.length]. split; [lia |].
  destruct (Nat.ltb_spec 1 (List.length (messages c) + 1)).
  - destruct (Nat.ltb_spec 50
                (List.length (responseTime (analytics c) ++
                                [now - lastMessageTime (analytics c)])%list)) as [Hl | Hl];
      rewrite length_app in Hl; cbn [List.length] in Hl.
    + unfold slice_last. rewrite length_skipn, length_app. cbn [List.length]. lia.
    + rewrite length_app. cbn [List.length]. lia.
  - lia.
Qed.

Lemma counted_step op now s :
  Forall counted (chats s) -> Forall counted (chats (step op now s)).
Proof.
  intros HF. destruct op as [u1 u2 ty uuid | cid m uuid | cid r e | cid ty data | th
                            | cid rep ty desc uuid | t]; cbn [step].
  - unfold createChat. cbv zeta. cbn [snd]. apply counted_setChatTimeout. cbn [chats].
    apply Forall_om_set; [| exact HF]. split; reflexivity.
  - apply counted_addMessage, HF.
  - apply counted_endChat, HF.
  - unfold updateActivity. cbv zeta.
    destruct (om_get cid (chats s)) as [c|] eqn:E; [| exact HF].
    destruct (applyActivity _ _ _ _) as [c'|e] eqn:Ea; cbn [snd].
    + apply counted_setChatTimeout. cbn [chats set_chats].
      apply applyActivity_counts in Ea. destruct Ea as (A1 & A2 & A3).
      eapply counted_set_same; eauto.
    + cbn [chats set_chats]. eapply counted_set_same; eauto.
  - apply counted_fold_endChat, HF.
  - unfold reportIssue. destruct (om_get cid (chats s)) as [c|] eqn:E; [| exact HF].
    cbv zeta. cbn [snd].
    destruct (arr_includes severeIssues ty).
    + apply counted_endChat. cbn [chats set_chats]. eapply counted_set_same; eauto.
    + cbn [chats set_chats]. eapply counted_set_same; eauto.
  - unfold chatTimerFires. destruct (timers s !! t); [| exact HF].
    apply counted_endChat. exact HF.
Qed.

(** X4: in every reachable state, a room's [messageCount] is the number
    of messages it stores, and its response-time window holds one sample
    per message after the first, the last fifty at most. *)
Theorem room_counters s chatId chat :
  reachable s ->
  getChat chatId s = Some chat ->
  messageCount (metadata chat) = Z.of_nat (List.length (messages chat))
  /\ List.length (responseTime (analytics chat))
     = Nat.min 50 (List.length (messages chat) - 1).
Proof.
  intros Hr Hg.
  assert (HF : Forall counted (chats s)).
  { clear Hg. induction Hr as [| s op now _ IH]; [constructor | apply counted_step, IH]. }
  exact (Forall_om_get _ _ _ _ HF Hg).
Qed.

Lemma room_counters_witness :
  reachable (sendMany 60 2000 oneRoom)
  /\ (List.length <$>
        (responseTime <$> (analytics <$> getChat "room-1" (sendMany 60 2000 oneRoom))))
     = Some 50%nat.
Proof.
  assert (Hr : forall n t s, reachable s -> reachable (sendMany n t s)).
  { induction n as [|n IH]; intros t s H; simpl; [exact H |].
    apply IH. apply (reachable_step s (OpAddMessage _ _ _) t). exact H. }
  assert (H1 : reachable oneRoom).
  { apply (reachable_step init (OpCreateChat _ _ _ _) 1000). apply reachable_init. }
  split; [apply Hr, H1 |].
  destruct (getChat "room-1" (sendMany 60 2000 oneRoom)) as [c|] eqn:E;
    [| vm_compute in E; discriminate].
  destruct (room_counters _ _ _ (Hr 60%nat 2000 _ H1) E) as [_ Hw].
  cbn. rewrite Hw. f_equal.
  assert (Hn : List.length (messages c) = 60%nat).
  { assert (Hc : (List.length <$> (messages <$>
                   getChat "room-1" (sendMany 60 2000 oneRoom))) = Some 60%nat)
      by (vm_compute; reflexivity).
    rewrite E in Hc. cbn in Hc. congruence. }
  rewrite Hn. reflexivity.
Defined.

(** X5: the engagement score is never negative and never above 100, and
    a room without messages scores 0. *)
Theorem engagementScore_bounds chat :
  PrimFloat.ltb (calculateEngagementScore chat) 0%float = false
  /\ PrimFloat.ltb 100%float (calculateEngagementScore chat) = false
  /\ (messages chat = [] -> calculateEngagementScore chat = 0%float).
Proof.
  unfold calculateEngagementScore.
  destruct (List.length (messages chat) =? 0)%nat eqn:E.
  - split; [reflexivity |]. split; reflexivity.
  - cbv zeta.
    match goal with |- context [Math_max 0%float (Math_min 100%float ?x)] =>
      destruct (clamp_bounds 0%float 100%float x eq_refl) as [H0 H100] end.
    split; [exact H0 |]. split; [exact H100 |].
    intros Hm. rewrite Hm in E. discriminate.
Qed.

(** X6: the inactivity sweep returns the number of stale rooms; after it
    no room of the active map is stale, every stale room is gone, and
    every other room is as it was. *)
Theorem cleanupInactiveChats_sweeps threshold now s :
  fst (cleanupInactiveChats threshold now s)
  = List.length (List.filter (fun kc => stale threshold now (snd kc)) (chats s))
  /\ Forall (fun kc => stale threshold now (snd kc) = false)
            (chats (snd (cleanupInactiveChats threshold now s)))
  /\ (forall k, In k (inactiveChats threshold now s) ->
        getChat k (snd (cleanupInactiveChats threshold now s)) = None)
  /\ (forall k, ~ In k (inactiveChats threshold now s) ->
        getChat k (snd (cleanupInactiveChats threshold now s)) = getChat k s).
Proof.
  assert (Hc : chats (snd (cleanupInactiveChats threshold now s))
               = List.filter
                   (fun kc => negb (arr_includes (inactiveChats threshold now s) (fst kc)))
                   (chats s)).
  { unfold cleanupInactiveChats. cbn [snd].
    rewrite <- fold_om_delete_filter.
    generalize (inactiveChats threshold now s). intros l. revert s.
    induction l as [|x l IH]; intros s; simpl; [reflexivity |].
    rewrite IH, chats_endChat_delete. reflexivity. }
  assert (Hf : inactiveChats threshold now s
               = List.map fst
                   (List.filter (fun kc => stale threshold now (snd kc)) (chats s))).
  { unfold inactiveChats. f_equal. apply List.filter_ext. intros [k c]. reflexivity. }
  split; [| split; [| split]].
  - unfold cleanupInactiveChats. cbn [fst]. rewrite Hf, length_map. reflexivity.
  - rewrite Hc. apply List.Forall_forall. intros [k c] Hin.
    apply List.filter_In in Hin as [Hin Hk]. cbn [fst snd] in *.
    destruct (stale threshold now c) eqn:Es; [| reflexivity].
    assert (Hi : In k (inactiveChats threshold now s)).
    { rewrite Hf. apply List.in_map_iff. exists (k, c). split; [reflexivity |].
      apply List.filter_In. auto. }
    apply arr_includes_In in Hi. rewrite Hi in Hk. discriminate.
  - intros k Hin. unfold getChat. rewrite Hc.
    rewrite (om_get_filter_keys
               (fun k => negb (arr_includes (inactiveChats threshold now s) k))).
    apply arr_includes_In in Hin. rewrite Hin. reflexivity.
  - intros k Hin. unfold getChat. rewrite Hc.
    rewrite (om_get_filter_keys
               (fun k => negb (arr_includes (inactiveChats threshold now s) k))).
    destruct (arr_includes (inactiveChats threshold now s) k) eqn:E; [| reflexivity].
    apply arr_includes_In in E. contradiction.
Qed.

(** X7: a report on a room of the active map is accepted; for a severe
    issue ([harassment], [inappropriate_content], [spam]) the room is
    ended with reason [reported_<issue>], for any other issue the room
    stays, with the pending report appended; a report on an unknown room
    is refused and changes nothing. *)
Theorem reportIssue_outcome chatId reporterId issueType description uuid now s :
  (getChat chatId s = None ->
     reportIssue chatId reporterId issueType description uuid now s = (false, s))
  /\ (forall chat,
        getChat chatId s = Some chat ->
        fst (reportIssue chatId reporterId issueType description uuid now s) = true
        /\ (arr_includes severeIssues issueType = true ->
              getChat chatId
                (snd (reportIssue chatId reporterId issueType description uuid now s))
              = None
              /\ exists h,
                   last (chatHistory
                           (snd (reportIssue chatId reporterId issueType description
                                   uuid now s))) = Some h
                   /\ h_endReason h = Some (String.append "reported_" issueType))
        /\ (arr_includes severeIssues issueType = false ->
              getChat chatId
                (snd (reportIssue chatId reporterId issueType description uuid now s))
              = Some (set_reports
                        (Some (default [] (reports chat) ++
                                 [mkReport uuid reporterId issueType description now
                                           "pending"])%list) chat)
              /\ chatHistory
                   (snd (reportIssue chatId reporterId issueType description uuid now s))
                 = chatHistory s)).
Proof.
  unfold getChat. split.
  - intros Hg. unfold reportIssue. rewrite Hg. reflexivity.
  - intros chat Hg. unfold reportIssue. rewrite Hg. cbv zeta. cbn [fst snd].
    split; [reflexivity |]. split.
    + intros ->.
      set (chat' := set_reports _ chat).
      set (s1 := set_chats (om_set chatId chat' (chats s)) s).
      assert (Hg1 : om_get chatId (chats s1) = Some chat')
        by (subst s1; cbn [chats set_chats]; apply om_get_set_eq).
      rewrite (endChat_found _ _ _ _ _ _ Hg1). cbn [snd chats chatHistory].
      split; [apply om_get_delete_eq |].
      eexists. split; [apply last_addToHistory |].
      unfold historyEntry. cbn [h_endReason].
      unfold calculateFinalAnalytics. destruct (Nat.ltb _ _); reflexivity.
    + intros ->. cbn [chats set_chats chatHistory]. split; [apply om_get_set_eq | reflexivity].
Qed.

(** X8: [endChat] does not disarm the timer of the room it ends: the
    armed timers are the same before and after.  When such a timer fires
    later, for a room that is no longer in the active map, only the timer
    itself goes away. *)
Theorem endChat_leaves_timer chatId reason endedBy now s :
  timers (snd (endChat chatId reason endedBy now s)) = timers s
  /\ (forall t now' s',
        getChat chatId s' = None ->
        timers s' !! t = Some chatId ->
        chatTimerFires t now' s'
        = mkState (chats s') (userChats s') (chatHistory s') (totalChats s')
                  (totalMessages s') (delete t (timers s')) (nextTimer s')).
Proof.
  split.
  - destruct (om_get chatId (chats s)) as [c|] eqn:E.
    + rewrite (endChat_found _ _ _ _ _ _ E). reflexivity.
    + rewrite (endChat_absent _ _ _ _ _ E). reflexivity.
  - intros t now' s' Hg Ht. unfold chatTimerFires. rewrite Ht.
    rewrite endChat_absent; [reflexivity | exact Hg].
Qed.

Lemma webrtc_step chatId ty now s chat chat' :
  getChat chatId s = Some chat ->
  applyActivity ty VUndefined now (set_lastActivity now chat) = Ok chat' ->
  getChat chatId (snd (updateActivity chatId ty VUndefined now s))
  = Some (set_timeoutId (Some (nextTimer s)) chat').
Proof.
  unfold getChat. intros Hg Ha. unfold updateActivity. cbv zeta. rewrite Hg.
  assert (Ha' : applyActivity ty (VObj []) now (set_lastActivity now chat) = Ok chat').
  { revert Ha. unfold applyActivity.
    destruct (String.eqb ty "typing"); [auto |].
    destruct (String.eqb ty "webrtc_connected"); [auto |].
    destruct (String.eqb ty "webrtc_disconnected"); [auto |].
    destruct (String.eqb ty "quality_issue"); [discriminate | auto]. }
  rewrite Ha'. cbn [snd]. rewrite chats_setChatTimeout. cbn [chats set_chats].
  rewrite om_get_set_eq, om_get_set_eq.
  assert (Hn : nextTimer (set_chats (om_set chatId chat' (chats s)) s) = nextTimer s)
    by reflexivity.
  rewrite Hn. reflexivity.
Qed.

(** X9: a WebRTC connection that is reported up at [t1] and down at [t2]
    adds [t2 - t1] to the room's WebRTC duration, and the room's last
    activity is [t2]. *)
Theorem webrtc_duration_accumulates chatId t1 t2 s chat :
  getChat chatId s = Some chat ->
  exists chat2,
    getChat chatId
      (snd (updateActivity chatId "webrtc_disconnected" VUndefined t2
              (snd (updateActivity chatId "webrtc_connected" VUndefined t1 s))))
    = Some chat2
    /\ webrtcDuration (analytics chat2)
       = Some (default 0 (webrtcDuration (analytics chat)) + (t2 - t1))
    /\ webrtcConnected (metadata chat2) = Some false
    /\ lastActivity chat2 = t2
    /\ messages chat2 = messages chat.
Proof.
  intros Hg.
  pose proof (webrtc_step chatId "webrtc_connected" t1 s chat _ Hg eq_refl) as H1.
  pose proof (webrtc_step chatId "webrtc_disconnected" t2 _ _ _ H1 eq_refl) as H2.
  eexists. split; [exact H2 |]. repeat split.
Qed.

Lemma webrtc_duration_accumulates_witness :
  getChat "room-v" videoRoom
  = Some (fst (createChat "alice" "bob" (VStr "video") "room-v" 1000 init))
  /\ (webrtcDuration <$>
       (analytics <$>
          getChat "room-v"
            (snd (updateActivity "room-v" "webrtc_disconnected" VUndefined 9000
                    (snd (updateActivity "room-v" "webrtc_connected" VUndefined 4000
                            videoRoom))))))
     = Some (Some 5000).
Proof.
  assert (Hg : getChat "room-v" videoRoom
               = Some (fst (createChat "alice" "bob" (VStr "video") "room-v" 1000 init)))
    by (vm_compute; reflexivity).
  split; [exact Hg |].
  destruct (webrtc_duration_accumulates "room-v" 4000 9000 videoRoom _ Hg)
    as (c2 & -> & Hd & _).
  cbn. rewrite Hd. vm_compute. reflexivity.
Defined.

(** *** Reading the history *)

Lemma keepIf_sublist {A} (o : option A) p l : sublist (keepIf o p l) l.
Proof. destruct o; simpl; [apply List_filter_sublist | reflexivity]. Qed.

Lemma keepIf_given {A} (a : A) p l : Forall (fun h => p a h = true) (keepIf (Some a) p l).
Proof.
  simpl. apply List.Forall_forall. intros h Hin. apply List.filter_In in Hin. tauto.
Qed.

Lemma slice0_sublist {A} n (l : list A) : sublist (slice0 n l) l.
Proof. unfold slice0. destruct (n <? 0); apply sublist_take. Qed.

(** X10: [getChatHistory] with a [minDuration] or a [maxDuration]
    throws a TypeError as soon as one entry of the history passes the
    type filter, whatever the bound is.  Without these two filters it
    returns entries of the history in their order; each one passes the
    type and date filters that are given (a filter that is missing, [0]
    or [""] is not applied); a positive [limit] caps the number of
    entries, and without filters the whole history comes back. *)
Theorem getChatHistory_filters filters s :
  (forall h,
     givenZ (f_minDuration filters) <> None \/ givenZ (f_maxDuration filters) <> None ->
     In h (chatHistory s) ->
     (forall t, givenStr (f_type filters) = Some t -> h_type h = VStr t) ->
     getChatHistory filters s = Throw TypeError)
  /\ (givenZ (f_minDuration filters) = None ->
      givenZ (f_maxDuration filters) = None ->
      exists l,
        getChatHistory filters s = Ok l
        /\ sublist l (chatHistory s)
        /\ (forall t, givenStr (f_type filters) = Some t ->
              Forall (fun h => h_type h = VStr t) l)
        /\ (forall d, givenZ (f_startDate filters) = Some d ->
              Forall (fun h => d <= h_createdAt h) l)
        /\ (forall d, givenZ (f_endDate filters) = Some d ->
              Forall (fun h => h_createdAt h <= d) l)
        /\ (forall n, f_limit filters = Some n -> 0 < n ->
              Z.of_nat (List.length l) <= n))
  /\ getChatHistory noFilters s = Ok (chatHistory s).
Proof.
  unfold getChatHistory. cbv zeta.
  set (h1 := keepIf (givenStr (f_type filters)) _ (chatHistory s)).
  split; [| split; [| reflexivity]].
  - intros h Hd Hin Ht.
    assert (H1 : In h h1).
    { subst h1. destruct (givenStr (f_type filters)) as [t|]; [| exact Hin].
      apply List.filter_In. split; [exact Hin |].
      rewrite (Ht t eq_refl). apply String.eqb_refl. }
    destruct h1 as [|x h1]; [destruct H1 |].
    unfold durationFilter.
    destruct (givenZ (f_minDuration filters)); [reflexivity |].
    cbn [bind]. destruct (givenZ (f_maxDuration filters)); [reflexivity |].
    destruct Hd as [Hd | Hd]; contradiction.
  - intros Hmin Hmax. unfold durationFilter. rewrite Hmin, Hmax. cbn [bind].
    set (h4 := keepIf (givenZ (f_startDate filters)) _ h1).
    set (h5 := keepIf (givenZ (f_endDate filters)) _ h4).
    set (r := match givenZ (f_limit filters) with Some n => slice0 n h5 | None => h5 end).
    exists r. split; [reflexivity |].
    assert (Hr : sublist r h5).
    { subst r. destruct (givenZ (f_limit filters)); [apply slice0_sublist | reflexivity]. }
    assert (S5 : sublist h5 h4) by apply keepIf_sublist.
    assert (S4 : sublist h4 h1) by apply keepIf_sublist.
    assert (S1 : sublist h1 (chatHistory s)) by apply keepIf_sublist.
    assert (T4 : sublist r h4) by (etransitivity; eassumption).
    assert (T1 : sublist r h1) by (etransitivity; eassumption).
    split; [etransitivity; eassumption |].
    split.
    { intros t Ht. eapply sublist_Forall with (l2 := h1); [exact T1 |].
      subst h1. rewrite Ht.
      eapply Forall_impl; [apply keepIf_given |].
      intros h Hh. simpl in Hh. unfold strict_eq_str in Hh.
      destruct (h_type h); try discriminate. apply String.eqb_eq in Hh. congruence. }
    split.
    { intros d Hd. eapply sublist_Forall with (l2 := h4); [exact T4 |].
      subst h4. rewrite Hd. eapply Forall_impl; [apply keepIf_given |].
      intros h Hh. simpl in Hh. lia. }
    split.
    { intros d Hd. eapply sublist_Forall with (l2 := h5); [exact Hr |].
      subst h5. rewrite Hd. eapply Forall_impl; [apply keepIf_given |].
      intros h Hh. simpl in Hh. lia. }
    intros n Hn Hpos. subst r. unfold givenZ. rewrite Hn.
    destruct (Z.eqb_spec n 0); [lia |].
    unfold slice0. destruct (Z.ltb_spec n 0); [lia |].
    rewrite length_take. lia.
Qed.

End ChatManagerMore.

(* --------------------------------------------------------------------- *)
(** ** UserManager: registration, lookup, sweeping *)
(* --------------------------------------------------------------------- *)

Module UserManagerMore.
Import Js JsArray JsFacts FloatOrder CollectionFacts UserManager UserQueries UserManagerSpec.

(** *** What an operation does to the two indexes *)

Lemma users_clearSessionTimeout userId s :
  users (clearSessionTimeout userId s) = users s.
Proof. unfold clearSessionTimeout. destruct (sessionTimeouts s !! userId); reflexivity. Qed.

Lemma users_setSessionTimeout userId s :
  users (setSessionTimeout userId s) = users s.
Proof. unfold setSessionTimeout. simpl. apply users_clearSessionTimeout. Qed.

Lemma byId_setSessionTimeout userId s :
  usersByUserId (setSessionTimeout userId s) = usersByUserId s.
Proof. unfold setSessionTimeout. simpl. apply byId_clearSessionTimeout. Qed.

Lemma history_clearSessionTimeout userId s :
  connectionHistory (clearSessionTimeout userId s) = connectionHistory s.
Proof. unfold clearSessionTimeout. destruct (sessionTimeouts s !! userId); reflexivity. Qed.

Lemma history_setSessionTimeout userId s :
  connectionHistory (setSessionTimeout userId s) = connectionHistory s.
Proof. unfold setSessionTimeout. simpl. apply history_clearSessionTimeout. Qed.

Lemma total_clearSessionTimeout userId s :
  totalConnections (clearSessionTimeout userId s) = totalConnections s.
Proof. unfold clearSessionTimeout. destruct (sessionTimeouts s !! userId); reflexivity. Qed.

Lemma users_modify a f s : users (modify a f s) = users s.
Proof. unfold modify. destruct (heap s !! a); reflexivity. Qed.

Lemma history_modify a f s : connectionHistory (modify a f s) = connectionHistory s.
Proof. unfold modify. destruct (heap s !! a); reflexivity. Qed.

Lemma removeUser_found socketId now s a u :
  lookupSocket socketId s = Some (a, u) ->
  fst (removeUser socketId now s) = true
  /\ heap (snd (removeUser socketId now s)) = heap s
  /\ users (snd (removeUser socketId now s)) = om_delete socketId (users s)
  /\ usersByUserId (snd (removeUser socketId now s)) = delete (id u) (usersByUserId s).
Proof.
  intros Hl. unfold removeUser. rewrite Hl. cbn.
  rewrite heap_clearSessionTimeout, users_clearSessionTimeout, byId_clearSessionTimeout.
  auto.
Qed.

Lemma removeUser_absent socketId now s :
  lookupSocket socketId s = None -> removeUser socketId now s = (false, s).
Proof. intros Hl. unfold removeUser. rewrite Hl. reflexivity. Qed.

(** *** The indexes stay consistent *)

Lemma indexed_sub s s' :
  heap s' = heap s ->
  (forall k a, In (k, a) (users s') -> In (k, a) (users s)) ->
  (forall uid a, usersByUserId s' !! uid = Some a -> usersByUserId s !! uid = Some a) ->
  indexed s -> indexed s'.
Proof.
  intros Hh Hu Hb [I1 I2]. split.
  - intros k a Hin. rewrite Hh. apply I1, Hu, Hin.
  - intros uid a Hin. rewrite Hh. apply I2, Hb, Hin.
Qed.

Lemma indexed_modify a f s :
  (forall u, heap s !! a = Some u -> id (f u) = id u /\ socketId (f u) = socketId u) ->
  indexed s -> indexed (modify a f s).
Proof.
  intros Hf [I1 I2]. unfold modify.
  destruct (heap s !! a) as [u|] eqn:Ha; [| split; assumption].
  destruct (Hf u eq_refl) as [Hid Hsock].
  assert (Hlt : (a < List.length (heap s))%nat) by (eapply lookup_lt_Some; eauto).
  split; cbn [heap users usersByUserId set_heap].
  - intros k b Hin. destruct (I1 k b Hin) as (v & Hv & Hk).
    destruct (decide (a = b)) as [<- | Hne].
    + exists (f u). rewrite list_lookup_insert_eq by exact Hlt.
      split; [reflexivity |]. congruence.
    + exists v. rewrite list_lookup_insert_ne by exact Hne. auto.
  - intros uid b Hin. destruct (I2 uid b Hin) as (v & Hv & Hk).
    destruct (decide (a = b)) as [<- | Hne].
    + exists (f u). rewrite list_lookup_insert_eq by exact Hlt.
      split; [reflexivity |]. congruence.
    + exists v. rewrite list_lookup_insert_ne by exact Hne. auto.
Qed.

Lemma indexed_removeUser socketId now s :
  indexed s -> indexed (snd (removeUser socketId now s)).
Proof.
  intros HI. destruct (lookupSocket socketId s) as [[a u]|] eqn:E.
  - destruct (removeUser_found socketId now s a u E) as (_ & Hh & Hu & Hb).
    apply (indexed_sub s); [exact Hh | | | exact HI].
    + intros k b. rewrite Hu. apply In_om_delete.
    + intros uid b. rewrite Hb. intros H. apply lookup_delete_Some in H. tauto.
  - rewrite (removeUser_absent _ _ _ E). exact HI.
Qed.

Lemma indexed_timeout userId s : indexed s -> indexed (setSessionTimeout userId s).
Proof.
  apply indexed_sub.
  - apply heap_setSessionTimeout.
  - intros k a. rewrite users_setSessionTimeout. auto.
  - intros uid a. rewrite byId_setSessionTimeout. auto.
Qed.

Lemma indexed_createUser socketId profile uuid now s :
  indexed s -> indexed (snd (createUser socketId profile uuid now s)).
Proof.
  intros [I1 I2]. unfold createUser.
  destruct (sanitizeProfile _) as [p|]; [| split; assumption].
  destruct (extractPreferences _) as [prefs|]; [| split; assumption].
  cbn [snd]. apply indexed_timeout. split; cbn [heap users usersByUserId addToConnectionHistory].
  - intros k a Hin. apply In_om_set in Hin as [Heq | Hin].
    + injection Heq as -> ->. eexists. split; [apply list_lookup_middle; reflexivity |].
      reflexivity.
    + destruct (I1 k a Hin) as (u & Hu & Hk). exists u.
      split; [apply lookup_app_l_Some; exact Hu | exact Hk].
  - intros uid a Hin. apply lookup_insert_Some in Hin as [[<- <-] | [Hne Hin]].
    + eexists. split; [apply list_lookup_middle; reflexivity |]. reflexivity.
    + destruct (I2 uid a Hin) as (u & Hu & Hk). exists u.
      split; [apply lookup_app_l_Some; exact Hu | exact Hk].
Qed.

Ltac keeps_ids := intros ? _; split; reflexivity.

Lemma indexed_step op now s : indexed s -> indexed (step op now s).
Proof.
  intros HI.
  destruct op as [sock prof uuid | sock | sock | sock upd | sock chatId | sock | sock upd
                   | uid vt details | uid rsn | th | t]; cbn [step].
  - apply indexed_createUser, HI.
  - apply indexed_removeUser, HI.
  - unfold updateActivity. destruct (lookupSocket sock s) as [[a u]|]; [| exact HI].
    apply indexed_timeout, indexed_modify; [keeps_ids | exact HI].
  - unfold updateProfile. destruct (lookupSocket sock s) as [[a u]|]; [| exact HI].
    destruct (sanitizeProfile upd); [| exact HI].
    destruct (extractPreferences _); cbn [snd];
      (apply indexed_modify; [keeps_ids | exact HI]).
  - unfold setCurrentChat. destruct (lookupSocket sock s) as [[a u]|]; [| exact HI].
    apply indexed_modify; [keeps_ids | exact HI].
  - unfold clearCurrentChat. destruct (lookupSocket sock s) as [[a u]|]; [| exact HI].
    apply indexed_modify; [keeps_ids | exact HI].
  - unfold updateStats. destruct (lookupSocket sock s) as [[a u]|]; [| exact HI].
    apply indexed_modify; [keeps_ids | exact HI].
  - unfold flagUser. destruct (lookupUserId uid s) as [[a u]|] eqn:E; [| exact HI].
    apply lookupUserId_inv in E as [_ Hh].
    assert (H1 : indexed (modify a (fun _ => flag vt
                   match details with VUndefined => VObj [] | _ => details end now u) s)).
    { apply indexed_modify; [| exact HI].
      intros u' Hu'. rewrite Hh in Hu'. injection Hu' as <-. split; reflexivity. }
    destruct (autoBanDue _); [| exact H1].
    unfold banUser. destruct (lookupUserId uid _) as [[a' u']|]; [| exact H1].
    apply indexed_modify; [keeps_ids | exact H1].
  - unfold banUser. destruct (lookupUserId uid s) as [[a u]|]; [| exact HI].
    apply indexed_modify; [keeps_ids | exact HI].
  - unfold cleanupInactiveUsers. cbn [snd].
    generalize (inactiveSockets th now s). intros l. revert s HI.
    induction l as [|x l IH]; intros s HI; simpl; [exact HI |].
    apply IH, indexed_removeUser, HI.
  - unfold sessionTimerFires. destruct (timers s !! t) as [uid|]; [| exact HI].
    set (s1 := mkState _ _ _ _ _ _ _ _).
    assert (H1 : indexed s1) by exact HI.
    destruct (lookupUserId uid s1) as [[a u]|]; [| exact H1].
    apply indexed_removeUser, H1.
Qed.

Lemma reachable_indexed s : reachable s -> indexed s.
Proof.
  induction 1 as [| s op now _ IH].
  - split; [intros k a [] |].
    intros uid a H. change ((∅ : gmap string nat) !! uid = Some a) in H.
    rewrite lookup_empty in H. discriminate.
  - apply indexed_step, IH.
Qed.


(** *** Sanitizing a profile *)

Lemma length_substring0 n s : (String.length (substring0 n s) <= n)%nat.
Proof.
  unfold substring0. revert s. induction n as [|n IH]; intros s.
  - destruct s; simpl; lia.
  - destruct s as [|c s]; simpl; [lia |]. specialize (IH s). lia.
Qed.

Lemma length_rev_string s acc :
  String.length (rev_string s acc) = (String.length s + String.length acc)%nat.
Proof.
  revert acc. induction s as [|c s IH]; intros acc; simpl; [reflexivity |].
  rewrite IH. simpl. lia.
Qed.

Lemma length_trimStart s : (String.length (trimStart s) <= String.length s)%nat.
Proof.
  induction s as [|c s IH]; simpl; [lia |].
  destruct (is_space c); simpl; lia.
Qed.

Lemma length_trim s : (String.length (trim s) <= String.length s)%nat.
Proof.
  unfold trim. rewrite length_rev_string. simpl.
  pose proof (length_trimStart (rev_string (trimStart s) "")) as H1.
  rewrite length_rev_string in H1. simpl in H1.
  pose proof (length_trimStart s). lia.
Qed.

Lemma mapM_Forall {A B} (f : A -> result B) (Q : B -> Prop) l ks :
  (forall x y, f x = Ok y -> Q y) -> mapM f l = Ok ks -> Forall Q ks.
Proof.
  intros Hf. revert ks. induction l as [|x l IH]; intros ks; simpl.
  - intros [= <-]. constructor.
  - destruct (f x) as [y|] eqn:Ex; simpl; [| discriminate].
    destruct (mapM f l) as [ys|]; simpl; [| discriminate].
    intros [= <-]. constructor; [eapply Hf; eauto | apply IH; reflexivity].
Qed.

Lemma mapM_ok {A B} (f : A -> result B) l :
  Forall (fun x => exists y, f x = Ok y) l -> exists ks, mapM f l = Ok ks.
Proof.
  induction 1 as [|x l [y Hy] _ [ks IH]]; simpl.
  - eexists. reflexivity.
  - rewrite Hy, IH. simpl. eexists. reflexivity.
Qed.

Lemma sanitizeGender_valid g x : sanitizeGender g = Ok (Some x) -> In x validGenders.
Proof.
  unfold sanitizeGender. destruct (truthy g); [| discriminate].
  destruct (toLowerCase_method g) as [l|]; cbn [bind]; [| discriminate].
  destruct (arr_includes validGenders l) eqn:E; intros [= <-].
  - apply arr_includes_In. exact E.
  - simpl. tauto.
Qed.

Lemma sanitizeAge_valid a x : sanitizeAge a = Some x -> In x validAges.
Proof.
  unfold sanitizeAge. destruct (truthy a); [| discriminate].
  assert (D : In "not-specified" validAges) by (simpl; tauto).
  destruct a as [| | b | n | s | l | fs]; try (intros [= <-]; exact D).
  destruct (arr_includes validAges s) eqn:E; intros [= <-];
    [apply arr_includes_In; exact E | exact D].
Qed.

Lemma sanitizeLocation_short l x :
  sanitizeLocation l = Ok (Some x) -> (String.length x <= 100)%nat.
Proof.
  unfold sanitizeLocation. destruct (truthy l); [| discriminate].
  destruct (toString l) as [s|]; simpl; [| discriminate].
  intros [= <-]. pose proof (length_trim (substring0 100 s)).
  pose proof (length_substring0 100 s). lia.
Qed.

Lemma sanitizeKeywords_short k ks :
  sanitizeKeywords k = Ok (Some ks) ->
  (List.length ks <= 10)%nat /\ Forall (fun w => (String.length w <= 50)%nat) ks.
Proof.
  unfold sanitizeKeywords. destruct (truthy k); [| discriminate].
  set (f := fun k0 : value => bind (toString k0) (fun s => Ok (substring0 50 (trim s)))).
  assert (Hf : forall x y, f x = Ok y -> (String.length y <= 50)%nat).
  { intros x y. unfold f. destruct (toString x); simpl; [| discriminate].
    intros [= <-]. apply length_substring0. }
  assert (Hm : forall l ws, bind (mapM f l) (fun ks0 => Ok (Some (firstn 10 ks0))) = Ok (Some ws) ->
               (List.length ws <= 10)%nat /\ Forall (fun w => (String.length w <= 50)%nat) ws).
  { intros l ws. destruct (mapM f l) as [ys|] eqn:Ey; simpl; [| discriminate].
    intros [= <-]. split; [rewrite length_firstn; lia |].
    apply Forall_take. eapply mapM_Forall; eauto. }
  destruct k as [| | b | n | s | l | fs]; try (intros [= <-]; simpl; split; [lia | constructor]).
  - apply Hm.
  - apply Hm.
Qed.

(** X11: whatever the client sends, a profile that [sanitizeProfile]
    returns is in canonical form: the gender and the age are among the
    listed values, the location has at most 100 characters, and there
    are at most 10 keywords of at most 50 characters each. *)
Theorem sanitizeProfile_canonical profile p :
  sanitizeProfile profile = Ok p ->
  (forall g, gender p = Some g -> In g validGenders)
  /\ (forall a, age p = Some a -> In a validAges)
  /\ (forall l, location p = Some l -> (String.length l <= 100)%nat)
  /\ (forall ks, keywords p = Some ks ->
        (List.length ks <= 10)%nat
        /\ Forall (fun w => (String.length w <= 50)%nat) ks).
Proof.
  unfold sanitizeProfile.
  destruct (getProp profile "gender") as [g|]; simpl; [| discriminate].
  destruct (sanitizeGender g) as [sg|] eqn:Eg; simpl; [| discriminate].
  destruct (getProp profile "location") as [l|]; simpl; [| discriminate].
  destruct (sanitizeLocation l) as [sl|] eqn:El; simpl; [| discriminate].
  destruct (getProp profile "age") as [a|]; simpl; [| discriminate].
  destruct (getProp profile "keywords") as [k|]; simpl; [| discriminate].
  destruct (sanitizeKeywords k) as [sk|] eqn:Ek; simpl; [| discriminate].
  intros [= <-]. cbn [gender age location keywords].
  split; [| split; [| split]].
  - intros x ->. eapply sanitizeGender_valid; eauto.
  - intros x Hx. eapply sanitizeAge_valid; eauto.
  - intros x ->. eapply sanitizeLocation_short; eauto.
  - intros x ->. eapply sanitizeKeywords_short; eauto.
Qed.

Lemma sanitizeProfile_canonical_witness :
  sanitizeProfile
    (VObj [("gender", VStr "Robot"); ("age", VNum 17);
           ("location", VNum 75011); ("keywords", VStr "chess, go ,  tea")])
  = Ok (mkProfile (Some "not-specified") (Some "75011") (Some "not-specified")
                  (Some ["chess"; "go"; "tea"]))
  /\ In "not-specified" validGenders.
Proof.
  assert (H : sanitizeProfile
                (VObj [("gender", VStr "Robot"); ("age", VNum 17);
                       ("location", VNum 75011); ("keywords", VStr "chess, go ,  tea")])
              = Ok (mkProfile (Some "not-specified") (Some "75011") (Some "not-specified")
                              (Some ["chess"; "go"; "tea"])))
    by (vm_compute; reflexivity).
  split; [exact H |].
  exact (proj1 (sanitizeProfile_canonical _ _ H) "not-specified" eq_refl).
Defined.

Lemma toString_strs l :
  forallb isStr l = true ->
  Forall (fun x => exists y,
            bind (toString x) (fun s => Ok (substring0 50 (trim s))) = Ok y) l.
Proof.
  induction l as [|x l IH]; simpl; [constructor |].
  intros H. apply andb_true_iff in H as [Hx Hl].
  constructor; [| apply IH, Hl].
  destruct x; try discriminate. simpl. eexists. reflexivity.
Qed.

Lemma forallb_isStr_map l : forallb isStr (List.map VStr l) = true.
Proof. induction l; simpl; auto. Qed.

(** X12: a profile whose [gender] and [location] are strings (or
    missing) and whose [keywords] are a string or an array of strings (or
    missing) is never refused, whatever its [age] and its other fields
    are. *)
Theorem sanitizeProfile_accepts profile :
  wellTyped profile = true -> exists p, sanitizeProfile profile = Ok p.
Proof.
  destruct profile as [| | b | n | s | l | fields]; try discriminate.
  unfold wellTyped, sanitizeProfile, getProp.
  set (g := default VUndefined (assoc "gender" fields)).
  set (l := default VUndefined (assoc "location" fields)).
  set (a := default VUndefined (assoc "age" fields)).
  set (k := default VUndefined (assoc "keywords" fields)).
  intros H. apply andb_true_iff in H as [H Hk]. apply andb_true_iff in H as [Hg Hl].
  assert (Eg : exists sg, sanitizeGender g = Ok sg).
  { unfold sanitizeGender. destruct g; try discriminate; simpl; try (eexists; reflexivity).
    destruct (negb _); eexists; reflexivity. }
  assert (El : exists sl, sanitizeLocation l = Ok sl).
  { unfold sanitizeLocation. destruct l; try discriminate; simpl; try (eexists; reflexivity).
    destruct (negb _); eexists; reflexivity. }
  assert (Ek : exists sk, sanitizeKeywords k = Ok sk).
  { unfold sanitizeKeywords. destruct k as [| | ? | ? | w | ws | ?]; try discriminate;
      simpl; try (eexists; reflexivity).
    - destruct (negb _); [| eexists; reflexivity].
      destruct (mapM_ok _ _ (toString_strs _ (forallb_isStr_map (split_comma w)))) as [ks ->].
      simpl. eexists. reflexivity.
    - simpl in Hk. destruct (mapM_ok _ _ (toString_strs _ Hk)) as [ks ->].
      simpl. eexists. reflexivity. }
  destruct Eg as [sg Eg], El as [sl El], Ek as [sk Ek].
  cbn [bind]. rewrite Eg. cbn [bind]. rewrite El. cbn [bind]. rewrite Ek. cbn [bind].
  eexists. reflexivity.
Qed.

Lemma sanitizeProfile_accepts_witness :
  exists p,
    sanitizeProfile
      (VObj [("gender", VStr "female"); ("age", VObj []);
             ("keywords", VArr [VStr "music"; VStr "films"]); ("extra", VNull)])
    = Ok p.
Proof.
  apply sanitizeProfile_accepts. vm_compute. reflexivity.
Defined.


(** *** Registration and lookup *)

(** X13: a registration that succeeds files the new session under its
    socket and under its user id; the session is online, in no chat, not
    banned, with the seed statistics and trust score 1.0; the count of
    connections grows by one, and every other socket and every other
    user id resolves as before. *)
Theorem createUser_registers sock profile uuid now s user s' :
  reachable s ->
  createUser sock profile uuid now s = (Ok user, s') ->
  getUser sock s' = Some user
  /\ getUserById uuid s' = Some user
  /\ id user = uuid /\ socketId user = sock
  /\ status user = "online" /\ currentChatId user = None
  /\ flags user = seedFlags /\ stats user = seedStats
  /\ isUserBanned uuid s' = false
  /\ totalConnections s' = totalConnections s + 1
  /\ (forall k, k <> sock -> getUser k s' = getUser k s)
  /\ (forall uid, uid <> uuid -> getUserById uid s' = getUserById uid s).
Proof.
  intros Hr. pose proof (reachable_indexed s Hr) as HI.
  unfold createUser.
  destruct (sanitizeProfile _) as [p|]; [| discriminate].
  destruct (extractPreferences _) as [prefs|]; [| discriminate].
  intros [= <- <-].
  unfold getUser, getUserById, isUserBanned, lookupSocket, lookupUserId.
  rewrite users_setSessionTimeout, byId_setSessionTimeout, heap_setSessionTimeout.
  cbn [heap users usersByUserId addToConnectionHistory].
  rewrite om_get_set_eq, lookup_insert_eq.
  rewrite list_lookup_middle by reflexivity.
  repeat (split; [reflexivity |]).
  split.
  { unfold setSessionTimeout. cbn [totalConnections].
    rewrite total_clearSessionTimeout. reflexivity. }
  split.
  - intros k Hk. rewrite om_get_set_ne by (intros E; apply Hk; symmetry; exact E).
    destruct (om_get k (users s)) as [b|] eqn:E; [| reflexivity].
    destruct HI as [I1 _]. apply om_get_In in E.
    destruct (I1 _ _ E) as (w & Hw & _).
    rewrite (lookup_app_l_Some _ _ _ _ Hw), Hw. reflexivity.
  - intros uid Hu. rewrite lookup_insert_ne by (intros E; apply Hu; symmetry; exact E).
    destruct (usersByUserId s !! uid) as [b|] eqn:E; [| reflexivity].
    destruct HI as [_ I2].
    destruct (I2 _ _ E) as (w & Hw & _).
    rewrite (lookup_app_l_Some _ _ _ _ Hw), Hw. reflexivity.
Qed.

Lemma createUser_registers_witness :
  getUser "sock-4" (snd (createUser "sock-4" (VObj [("age", VStr "18-25")]) "user-4"
                           70000 threeUsers))
  = Some (mkUser "user-4" "sock-4" (mkProfile None None (Some "18-25") None)
                 70000 70000 "online" None
                 (mkPreferences (VStr "any") (VStr "any") (VStr "any") (VArr []))
                 seedStats seedFlags [] None)
  /\ getUser "sock-2" (snd (createUser "sock-4" (VObj [("age", VStr "18-25")]) "user-4"
                              70000 threeUsers))
     = getUser "sock-2" threeUsers.
Proof.
  assert (Hr : reachable threeUsers).
  { apply users_reachable_run.
    apply (reachable_step init (OpCreateUser _ _ _) 1000), reachable_init. }
  assert (Hc : createUser "sock-4" (VObj [("age", VStr "18-25")]) "user-4" 70000 threeUsers
               = (Ok (mkUser "user-4" "sock-4" (mkProfile None None (Some "18-25") None)
                             70000 70000 "online" None
                             (mkPreferences (VStr "any") (VStr "any") (VStr "any") (VArr []))
                             seedStats seedFlags [] None),
                  snd (createUser "sock-4" (VObj [("age", VStr "18-25")]) "user-4"
                         70000 threeUsers)))
    by (vm_compute; reflexivity).
  destruct (createUser_registers _ _ _ _ _ _ _ Hr Hc)
    as (H1 & _ & _ & _ & _ & _ & _ & _ & _ & _ & H2 & _).
  split; [exact H1 | apply H2; discriminate].
Defined.


Lemma getUser_Some sock s u :
  getUser sock s = Some u <-> exists a, lookupSocket sock s = Some (a, u).
Proof.
  unfold getUser. destruct (lookupSocket sock s) as [[a v]|]; simpl; split.
  - intros [= <-]. eauto.
  - intros [b [= _ <-]]. reflexivity.
  - discriminate.
  - intros [b Hb]. discriminate.
Qed.

Lemma getUser_None sock s : getUser sock s = None <-> lookupSocket sock s = None.
Proof.
  unfold getUser. destruct (lookupSocket sock s) as [[a v]|]; simpl; split;
    try discriminate; reflexivity.
Qed.

Lemma lookupSocket_modify sock a f s u :
  lookupSocket sock s = Some (a, u) ->
  lookupSocket sock (modify a f s) = Some (a, f u).
Proof.
  unfold lookupSocket. rewrite users_modify.
  destruct (om_get sock (users s)) as [b|]; [| discriminate].
  destruct (heap s !! b) as [v|] eqn:E; [| discriminate].
  intros [= -> ->]. rewrite heap_modify, E.
  rewrite (In_insert_eq _ _ _ _ E). reflexivity.
Qed.

Lemma extractPreferences_sanitized p :
  extractPreferences (profile_value p)
  = Ok (mkPreferences (VStr "any") (VStr "any") (VStr "any")
          (VArr (List.map VStr (default [] (keywords p))))).
Proof. destruct p as [[g|] [l|] [a|] [k|]]; reflexivity. Qed.

(** X14: [updateProfile] on an unknown socket returns false; on a known
    one it throws exactly when [sanitizeProfile] does, and in both cases
    nothing changes.  Otherwise it returns true and the session keeps
    its identity, statistics and flags, takes the sanitized fields over
    its old profile, and has its preferences rebuilt from the merged
    profile: the preferred gender, age range and location are ['any']
    again, whatever they were. *)
Theorem updateProfile_outcome sock upd now s :
  (getUser sock s = None -> updateProfile sock upd now s = (Ok false, s))
  /\ (forall user, getUser sock s = Some user ->
        (forall e, sanitizeProfile upd = Throw e ->
           updateProfile sock upd now s = (Throw e, s))
        /\ (forall p, sanitizeProfile upd = Ok p ->
              fst (updateProfile sock upd now s) = Ok true
              /\ getUser sock (snd (updateProfile sock upd now s))
                 = Some (set_lastActivity now
                           (set_profile (mergeProfile (profile user) p)
                              (mkPreferences (VStr "any") (VStr "any") (VStr "any")
                                 (VArr (List.map VStr
                                    (default [] (keywords (mergeProfile (profile user) p))))))
                              user)))).
Proof.
  split.
  - intros H. apply getUser_None in H. unfold updateProfile. rewrite H. reflexivity.
  - intros user H. apply getUser_Some in H as [a Hl].
    unfold updateProfile. rewrite Hl. split.
    + intros e ->. reflexivity.
    + intros p ->. rewrite extractPreferences_sanitized. cbn [fst snd].
      split; [reflexivity |].
      apply getUser_Some. exists a.
      apply (lookupSocket_modify sock a
               (fun u => set_lastActivity now (set_profile _ _ u)) s user Hl).
Qed.

(** X15: a registration throws exactly when the profile is [null] or
    [sanitizeProfile] throws on it, and a registration that throws
    leaves the manager as it was: no session, no history entry, no
    timer. *)
Theorem createUser_failure sock profile uuid now s :
  let profile' := match profile with VUndefined => VObj [] | _ => profile end in
  is_ok (fst (createUser sock profile uuid now s)) = is_ok (sanitizeProfile profile')
  /\ (forall e, fst (createUser sock profile uuid now s) = Throw e ->
        sanitizeProfile profile' = Throw e
        /\ createUser sock profile uuid now s = (Throw e, s)).
Proof.
  cbv zeta. unfold createUser.
  set (profile' := match profile with VUndefined => VObj [] | _ => profile end).
  destruct (sanitizeProfile profile') as [p|e0] eqn:Es.
  - assert (Hx : exists prefs, extractPreferences profile' = Ok prefs).
    { unfold sanitizeProfile in Es. unfold extractPreferences.
      destruct profile' as [| | ? | ? | ? | ? | ?]; try discriminate;
        cbn [getProp bind]; eexists; reflexivity. }
    destruct Hx as [prefs ->]. cbn [fst]. split; [reflexivity | discriminate].
  - cbn [fst]. split; [reflexivity |]. intros e [= <-]. auto.
Qed.

(** *** Leaving *)

Lemma last_snoc_slice {A} n (l : list A) e :
  (0 < n)%nat ->
  last (if (n <? List.length (l ++ [e]))%nat
        then UserManager.slice_last n (l ++ [e])%list else (l ++ [e])%list) = Some e.
Proof.
  intros Hn. destruct (n <? List.length (l ++ [e]))%nat eqn:E.
  - unfold UserManager.slice_last. apply Nat.ltb_lt in E.
    rewrite length_app in *. simpl in *.
    rewrite drop_app_le by lia. apply last_snoc.
  - apply last_snoc.
Qed.

(** X16: removing a registered session returns true; the socket and
    the user id of the session resolve to nothing afterwards, its
    session timer is dropped, every other socket and user id resolves as
    before, and the history ends with the disconnection, whose duration
    is the time since the connection.  Removing an unknown socket
    returns false and changes nothing. *)
Theorem removeUser_effects sock now s :
  (getUser sock s = None -> removeUser sock now s = (false, s))
  /\ (forall user, getUser sock s = Some user ->
        fst (removeUser sock now s) = true
        /\ getUser sock (snd (removeUser sock now s)) = None
        /\ getUserById (id user) (snd (removeUser sock now s)) = None
        /\ sessionTimeouts (snd (removeUser sock now s)) !! id user = None
        /\ (forall k, k <> sock ->
              getUser k (snd (removeUser sock now s)) = getUser k s)
        /\ (forall uid, uid <> id user ->
              getUserById uid (snd (removeUser sock now s)) = getUserById uid s)
        /\ last (connectionHistory (snd (removeUser sock now s)))
           = Some (Disconnected (id user) sock now (now - connectionTime user)
                     (totalChats (stats user)) (totalMessages (stats user)))).
Proof.
  split.
  - intros H. apply getUser_None in H. apply removeUser_absent, H.
  - intros user H. apply getUser_Some in H as [a Hl].
    destruct (removeUser_found sock now s a user Hl) as (Hf & Hh & Hu & Hb).
    split; [exact Hf |].
    unfold getUser, getUserById, lookupSocket, lookupUserId.
    rewrite Hh, Hu, Hb.
    split; [rewrite om_get_delete_eq; reflexivity |].
    split; [rewrite lookup_delete_eq; reflexivity |].
    split.
    { unfold removeUser. rewrite Hl. cbn [snd sessionTimeouts addToConnectionHistory].
      unfold clearSessionTimeout.
      destruct (sessionTimeouts s !! id user) as [t|] eqn:Et; cbn [sessionTimeouts].
      - apply lookup_delete_eq.
      - exact Et. }
    split.
    { intros k Hk. rewrite om_get_delete_ne by (intros E; apply Hk; symmetry; exact E).
      reflexivity. }
    split.
    { intros uid Hk. rewrite lookup_delete_ne by (intros E; apply Hk; symmetry; exact E).
      reflexivity. }
    unfold removeUser. rewrite Hl. cbn [snd connectionHistory addToConnectionHistory].
    apply last_snoc_slice. vm_compute. lia.
Qed.


(** *** The connection history *)

Lemma length_addToConnectionHistory e s :
  (List.length (connectionHistory (addToConnectionHistory e s)) <= maxHistorySize)%nat.
Proof.
  unfold addToConnectionHistory. cbn [connectionHistory].
  destruct (maxHistorySize <? _)%nat eqn:E.
  - unfold UserManager.slice_last. rewrite length_skipn.
    apply Nat.ltb_lt in E. lia.
  - apply Nat.ltb_ge in E. exact E.
Qed.

Lemma history_removeUser sock now s :
  (List.length (connectionHistory s) <= maxHistorySize)%nat ->
  (List.length (connectionHistory (snd (removeUser sock now s))) <= maxHistorySize)%nat.
Proof.
  intros H. unfold removeUser. destruct (lookupSocket sock s) as [[a u]|]; [| exact H].
  cbn [snd]. apply length_addToConnectionHistory.
Qed.

Lemma connectionHistory_step op now s :
  (List.length (connectionHistory s) <= maxHistorySize)%nat ->
  (List.length (connectionHistory (step op now s)) <= maxHistorySize)%nat.
Proof.
  intros H.
  destruct op as [sock prof uuid | sock | sock | sock upd | sock chatId | sock | sock upd
                   | uid vt details | uid rsn | th | t]; cbn [step].
  - unfold createUser.
    destruct (sanitizeProfile _); [| exact H].
    destruct (extractPreferences _); [| exact H].
    cbn [snd]. rewrite history_setSessionTimeout. apply length_addToConnectionHistory.
  - apply history_removeUser, H.
  - unfold updateActivity. destruct (lookupSocket sock s) as [[a u]|]; [| exact H].
    rewrite history_setSessionTimeout, history_modify. exact H.
  - unfold updateProfile. destruct (lookupSocket sock s) as [[a u]|]; [| exact H].
    destruct (sanitizeProfile upd); [| exact H].
    destruct (extractPreferences _); cbn [snd]; rewrite history_modify; exact H.
  - unfold setCurrentChat. destruct (lookupSocket sock s) as [[a u]|]; [| exact H].
    rewrite history_modify. exact H.
  - unfold clearCurrentChat. destruct (lookupSocket sock s) as [[a u]|]; [| exact H].
    rewrite history_modify. exact H.
  - unfold updateStats. destruct (lookupSocket sock s) as [[a u]|]; [| exact H].
    rewrite history_modify. exact H.
  - unfold flagUser. destruct (lookupUserId uid s) as [[a u]|]; [| exact H].
    destruct (autoBanDue _).
    + unfold banUser. destruct (lookupUserId uid _) as [[a' u']|];
        rewrite ?history_modify; exact H.
    + rewrite history_modify. exact H.
  - unfold banUser. destruct (lookupUserId uid s) as [[a u]|]; [| exact H].
    rewrite history_modify. exact H.
  - unfold cleanupInactiveUsers. cbn [snd].
    generalize (inactiveSockets th now s). intros l. revert s H.
    induction l as [|x l IH]; intros s H; simpl; [exact H |].
    apply IH, history_removeUser, H.
  - unfold sessionTimerFires. destruct (timers s !! t) as [uid|]; [| exact H].
    match goal with |- context [lookupUserId uid ?s1] =>
      destruct (lookupUserId uid s1) as [[a u]|] end; [| exact H].
    apply history_removeUser. exact H.
Qed.

(** X17: in every state the manager reaches, the connection history
    holds at most [maxHistorySize] (1000) entries. *)
Theorem connectionHistory_bounded s :
  reachable s -> (List.length (connectionHistory s) <= maxHistorySize)%nat.
Proof.
  induction 1 as [| s op now _ IH]; [apply Nat.leb_le; vm_compute; reflexivity |].
  apply connectionHistory_step, IH.
Qed.

Lemma connectionHistory_bounded_witness :
  (List.length (connectionHistory threeUsers) <= maxHistorySize)%nat.
Proof.
  apply connectionHistory_bounded.
  apply users_reachable_run.
  apply (reachable_step init (OpCreateUser _ _ _) 1000), reachable_init.
Defined.

(** *** One session per socket *)

Lemma users_removeUser_nodup sock now s :
  List.NoDup (List.map fst (users s)) ->
  List.NoDup (List.map fst (users (snd (removeUser sock now s)))).
Proof.
  intros H. destruct (lookupSocket sock s) as [[a u]|] eqn:E.
  - destruct (removeUser_found sock now s a u E) as (_ & _ & -> & _).
    apply NoDup_om_delete, H.
  - rewrite (removeUser_absent _ _ _ E). exact H.
Qed.

Lemma nodup_step op now s :
  List.NoDup (List.map fst (users s)) ->
  List.NoDup (List.map fst (users (step op now s))).
Proof.
  intros H.
  destruct op as [sock prof uuid | sock | sock | sock upd | sock chatId | sock | sock upd
                   | uid vt details | uid rsn | th | t]; cbn [step].
  - unfold createUser.
    destruct (sanitizeProfile _); [| exact H].
    destruct (extractPreferences _); [| exact H].
    cbn [snd]. rewrite users_setSessionTimeout. cbn [users addToConnectionHistory].
    apply NoDup_om_set, H.
  - apply users_removeUser_nodup, H.
  - unfold updateActivity. destruct (lookupSocket sock s) as [[a u]|]; [| exact H].
    rewrite users_setSessionTimeout, users_modify. exact H.
  - unfold updateProfile. destruct (lookupSocket sock s) as [[a u]|]; [| exact H].
    destruct (sanitizeProfile upd); [| exact H].
    destruct (extractPreferences _); cbn [snd]; rewrite users_modify; exact H.
  - unfold setCurrentChat. destruct (lookupSocket sock s) as [[a u]|]; [| exact H].
    rewrite users_modify. exact H.
  - unfold clearCurrentChat. destruct (lookupSocket sock s) as [[a u]|]; [| exact H].
    rewrite users_modify. exact H.
  - unfold updateStats. destruct (lookupSocket sock s) as [[a u]|]; [| exact H].
    rewrite users_modify. exact H.
  - unfold flagUser. destruct (lookupUserId uid s) as [[a u]|]; [| exact H].
    destruct (autoBanDue _).
    + unfold banUser. destruct (lookupUserId uid _) as [[a' u']|];
        rewrite ?users_modify; exact H.
    + rewrite users_modify. exact H.
  - unfold banUser. destruct (lookupUserId uid s) as [[a u]|]; [| exact H].
    rewrite users_modify. exact H.
  - unfold cleanupInactiveUsers. cbn [snd].
    generalize (inactiveSockets th now s). intros l. revert s H.
    induction l as [|x l IH]; intros s H; simpl; [exact H |].
    apply IH, users_removeUser_nodup, H.
  - unfold sessionTimerFires. destruct (timers s !! t) as [uid|]; [| exact H].
    match goal with |- context [lookupUserId uid ?s1] =>
      destruct (lookupUserId uid s1) as [[a u]|] end; [| exact H].
    apply users_removeUser_nodup. exact H.
Qed.

Lemma reachable_nodup s : reachable s -> List.NoDup (List.map fst (users s)).
Proof.
  induction 1 as [| s op now _ IH]; [constructor | apply nodup_step, IH].
Qed.

(** A session is listed exactly when some socket resolves to it. *)
Lemma userValues_getUser s u :
  reachable s ->
  In u (userValues s) <-> exists k, getUser k s = Some u.
Proof.
  intros Hr. pose proof (reachable_nodup s Hr) as Hn.
  unfold userValues. rewrite List.in_flat_map. split.
  - intros ([k a] & Hin & Hu). cbn [snd] in Hu.
    destruct (heap s !! a) as [v|] eqn:Ea; [| destruct Hu].
    destruct Hu as [<- | []]. exists k. unfold getUser, lookupSocket.
    rewrite (In_om_get _ _ _ Hn Hin), Ea. reflexivity.
  - intros [k Hk]. apply getUser_Some in Hk as [a Hl].
    unfold lookupSocket in Hl.
    destruct (om_get k (users s)) as [b|] eqn:Eg; [| discriminate].
    destruct (heap s !! b) as [v|] eqn:Eb; [| discriminate].
    injection Hl as -> ->. exists (k, a). split; [apply om_get_In, Eg |].
    cbn [snd]. rewrite Eb. left. reflexivity.
Qed.

Lemma length_deref (h : list User) (m : list (string * nat)) :
  Forall (fun ka : string * nat => exists u, h !! snd ka = Some u) m ->
  List.length
    (List.flat_map
       (fun ka : string * nat => match h !! snd ka with Some u => [u] | None => [] end) m)
  = List.length m.
Proof.
  induction 1 as [|[k a] m [v Hv] _ IH]; [reflexivity |].
  cbn [flat_map snd] in *. rewrite Hv. simpl. rewrite IH. reflexivity.
Qed.

(** X18: in every state the manager reaches, the session found under a
    socket id carries that socket id, the session found under a user id
    carries that user id, and the number of online users is the number
    of sessions listed. *)
Theorem lookup_consistent s :
  reachable s ->
  (forall k u, getUser k s = Some u -> socketId u = k)
  /\ (forall uid u, getUserById uid s = Some u -> id u = uid)
  /\ getOnlineCount s = List.length (userValues s).
Proof.
  intros Hr. destruct (reachable_indexed s Hr) as [I1 I2]. split; [| split].
  - intros k u H. apply getUser_Some in H as [a Hl].
    unfold lookupSocket in Hl.
    destruct (om_get k (users s)) as [b|] eqn:Eg; [| discriminate].
    destruct (I1 _ _ (om_get_In _ _ _ Eg)) as (v & Hv & Hk).
    rewrite Hv in Hl. injection Hl as _ <-. exact Hk.
  - intros uid u H. unfold getUserById in H.
    destruct (lookupUserId uid s) as [[a v]|] eqn:El; [| discriminate].
    injection H as ->. apply lookupUserId_inv in El as [Hb Hh].
    destruct (I2 _ _ Hb) as (w & Hw & Hk). congruence.
  - unfold getOnlineCount, om_size, userValues.
    assert (HF : Forall (fun ka : string * nat => exists u, heap s !! snd ka = Some u)
                        (users s)).
    { apply List.Forall_forall. intros [k a] Hin.
      destruct (I1 _ _ Hin) as (v & Hv & _). eauto. }
    symmetry. apply length_deref, HF.
Qed.

Lemma lookup_consistent_witness :
  List.map socketId (userValues threeUsers) = ["sock-1"; "sock-2"; "sock-3"]
  /\ getOnlineCount threeUsers = List.length (userValues threeUsers).
Proof.
  split; [vm_compute; reflexivity |].
  apply lookup_consistent.
  apply users_reachable_run.
  apply (reachable_step init (OpCreateUser _ _ _) 1000), reachable_init.
Defined.


(** *** Sweeping idle sessions *)

Lemma users_removeUser sock now s :
  indexed s -> users (snd (removeUser sock now s)) = om_delete sock (users s).
Proof.
  intros [I1 _]. destruct (lookupSocket sock s) as [[a u]|] eqn:E.
  - destruct (removeUser_found sock now s a u E) as (_ & _ & Hu & _). exact Hu.
  - rewrite (removeUser_absent _ _ _ E). cbn [snd]. symmetry. apply om_delete_absent.
    unfold lookupSocket in E.
    destruct (om_get sock (users s)) as [b|] eqn:Eg; [| reflexivity].
    destruct (I1 _ _ (om_get_In _ _ _ Eg)) as (v & Hv & _).
    rewrite Hv in E. discriminate.
Qed.

Lemma fold_removeUser now l s :
  indexed s ->
  users (fold_left (fun s k => snd (removeUser k now s)) l s)
  = fold_left (fun m k => om_delete k m) l (users s)
  /\ heap (fold_left (fun s k => snd (removeUser k now s)) l s) = heap s.
Proof.
  revert s. induction l as [|x l IH]; intros s HI; simpl; [auto |].
  destruct (IH _ (indexed_removeUser x now s HI)) as [-> ->].
  rewrite users_removeUser by exact HI. rewrite heap_removeUser. auto.
Qed.

Lemma count_idle (h : list User) threshold now (m : list (string * nat)) :
  Forall (fun ka : string * nat => exists u, h !! snd ka = Some u) m ->
  List.length (List.filter (isIdle h threshold now) m)
  = List.length
      (List.filter (idle threshold now)
         (List.flat_map
            (fun ka : string * nat =>
               match h !! snd ka with Some u => [u] | None => [] end) m)).
Proof.
  induction 1 as [|[k a] m [v Hv] _ IH]; [reflexivity |].
  cbn [flat_map snd List.filter isIdle] in *. rewrite Hv. cbn [app List.filter].
  unfold idle at 1. destruct (threshold <? now - lastActivity v); simpl; rewrite IH;
    reflexivity.
Qed.

(** X19: on a state the manager reaches, [cleanupInactiveUsers]
    returns the number of sessions idle for more than the threshold;
    afterwards no listed session is idle that long, the socket of every
    such session resolves to nothing, and every other socket resolves to
    the session it had. *)
Theorem cleanupInactiveUsers_sweeps threshold now s :
  reachable s ->
  fst (cleanupInactiveUsers threshold now s)
  = List.length (List.filter (idle threshold now) (userValues s))
  /\ Forall (fun u => idle threshold now u = false)
            (userValues (snd (cleanupInactiveUsers threshold now s)))
  /\ (forall k u, getUser k s = Some u ->
        getUser k (snd (cleanupInactiveUsers threshold now s))
        = if idle threshold now u then None else Some u).
Proof.
  intros Hr.
  pose proof (reachable_indexed s Hr) as HI.
  pose proof (reachable_nodup s Hr) as Hn.
  assert (Hin : inactiveSockets threshold now s
                = List.map fst (List.filter (isIdle (heap s) threshold now) (users s))).
  { unfold inactiveSockets. f_equal. }
  destruct (fold_removeUser now (inactiveSockets threshold now s) s HI) as [Hu Hh].
  rewrite fold_om_delete_filter in Hu.
  assert (Hmem : forall k a u, In (k, a) (users s) -> heap s !! a = Some u ->
                   idle threshold now u = true ->
                   arr_includes (inactiveSockets threshold now s) k = true).
  { intros k a u Hka Ha Hi. apply arr_includes_In. rewrite Hin.
    apply List.in_map_iff. exists (k, a). split; [reflexivity |].
    apply List.filter_In. split; [exact Hka |].
    unfold isIdle. rewrite Ha. exact Hi. }
  split; [| split].
  - unfold cleanupInactiveUsers. cbn [fst]. rewrite Hin, length_map.
    unfold userValues. apply count_idle.
    apply List.Forall_forall. intros [k a] Hka.
    destruct HI as [I1 _]. destruct (I1 _ _ Hka) as (v & Hv & _). eauto.
  - unfold cleanupInactiveUsers. cbn [snd].
    apply List.Forall_forall. intros u Hu'.
    unfold userValues in Hu'. rewrite Hu, Hh in Hu'.
    apply List.in_flat_map in Hu' as ([k a] & Hka & Hd). cbn [snd] in Hd.
    apply List.filter_In in Hka as [Hka Hk]. cbn [fst] in Hk.
    destruct (heap s !! a) as [v|] eqn:Ea; [| destruct Hd].
    destruct Hd as [<- | []].
    destruct (idle threshold now v) eqn:Ei; [| reflexivity].
    rewrite (Hmem k a v Hka Ea Ei) in Hk. discriminate.
  - intros k u Hg. unfold cleanupInactiveUsers. cbn [snd].
    apply getUser_Some in Hg as [a Hl]. unfold lookupSocket in Hl.
    destruct (om_get k (users s)) as [b|] eqn:Eg; [| discriminate].
    destruct (heap s !! b) as [v|] eqn:Eb; [| discriminate].
    injection Hl as -> ->.
    unfold getUser, lookupSocket. rewrite Hu, Hh.
    rewrite (om_get_filter_keys
               (fun k => negb (arr_includes (inactiveSockets threshold now s) k))).
    destruct (idle threshold now u) eqn:Ei.
    + rewrite (Hmem k a u (om_get_In _ _ _ Eg) Eb Ei). reflexivity.
    + destruct (arr_includes (inactiveSockets threshold now s) k) eqn:Ea.
      * exfalso. apply arr_includes_In in Ea. rewrite Hin in Ea.
        apply List.in_map_iff in Ea as ([k' a'] & Hk' & Hf). cbn [fst] in Hk'. subst k'.
        apply List.filter_In in Hf as [Hka' Hc].
        pose proof (In_om_get _ _ _ Hn Hka') as Eg'. rewrite Eg in Eg'.
        injection Eg' as <-. unfold isIdle in Hc. rewrite Eb in Hc.
        unfold idle in Ei. congruence.
      * cbn [negb]. rewrite Eg, Eb. reflexivity.
Qed.

Lemma cleanupInactiveUsers_sweeps_witness :
  fst (cleanupInactiveUsers (30 * 60 * 1000) 1810000 threeUsers) = 2%nat
  /\ List.map id (userValues (snd (cleanupInactiveUsers (30 * 60 * 1000) 1810000
                                     threeUsers)))
     = ["user-2"].
Proof.
  assert (Hr : reachable threeUsers).
  { apply users_reachable_run.
    apply (reachable_step init (OpCreateUser _ _ _) 1000), reachable_init. }
  destruct (cleanupInactiveUsers_sweeps (30 * 60 * 1000) 1810000 threeUsers Hr)
    as (H1 & _ & _).
  split; [rewrite H1; vm_compute; reflexivity | vm_compute; reflexivity].
Defined.


(** *** Who is offered for matching *)

Lemma meets_true criteria u :
  meets criteria u = true ->
  isBanned (flags u) = false
  /\ (falsy (c_status criteria) = false ->
      status u = default "" (c_status criteria)).
Proof.
  unfold meets.
  destruct (negb (falsy (c_status criteria)) && _) eqn:E1; [discriminate |].
  destruct (negb (falsy (c_gender criteria)) && _); [discriminate |].
  destruct (negb (falsy (c_ageRange criteria)) && _); [discriminate |].
  destruct (negb (falsy (c_location criteria)) && _); [discriminate |].
  destruct (match c_keywords criteria with Some _ => _ | None => _ end); [discriminate |].
  destruct (isBanned (flags u)); [discriminate |].
  intros _. split; [reflexivity |].
  intros Hf. rewrite Hf in E1. cbn [negb andb] in E1.
  apply negb_false_iff, String.eqb_eq in E1. exact E1.
Qed.

Lemma online_listed s : reachable s -> getOnlineCount s = List.length (userValues s).
Proof.
  intros Hr. destruct (reachable_indexed s Hr) as [I1 _].
  unfold getOnlineCount, om_size, userValues. symmetry. apply length_deref.
  apply List.Forall_forall. intros [k a] Hin.
  destruct (I1 _ _ Hin) as (v & Hv & _). eauto.
Qed.

(** X20: on a state the manager reaches, every user that
    [getAvailableUsers] returns is a registered session that is not
    banned, is online and is in no chat, whatever the criteria; with no
    criteria every such session is returned; and the result never has
    more entries than there are users online. *)
Theorem getAvailableUsers_safe criteria s :
  reachable s ->
  (forall u, In u (getAvailableUsers criteria s) ->
     (exists k, getUser k s = Some u)
     /\ isBanned (flags u) = false
     /\ status u = "online"
     /\ falsy (currentChatId u) = true)
  /\ (forall k u, getUser k s = Some u ->
        isBanned (flags u) = false -> status u = "online" ->
        currentChatId u = None ->
        In u (getAvailableUsers noCriteria s))
  /\ (List.length (getAvailableUsers criteria s) <= getOnlineCount s)%nat.
Proof.
  intros Hr. split; [| split].
  - intros u Hin. unfold getAvailableUsers, getUsersByCriteria in Hin.
    apply sortBy_In in Hin.
    apply List.filter_In in Hin as [Hin Hc].
    apply List.filter_In in Hin as [Hin Hm].
    apply meets_true in Hm as [Hb Hs].
    split; [apply userValues_getUser; assumption |].
    split; [exact Hb |]. split; [| exact Hc].
    apply Hs. reflexivity.
  - intros k u Hg Hb Hs Hc. unfold getAvailableUsers, getUsersByCriteria.
    apply sortBy_In. apply List.filter_In. split.
    + apply List.filter_In. split; [apply userValues_getUser; eauto |].
      unfold meets. cbn. rewrite Hs, Hb. reflexivity.
    + rewrite Hc. reflexivity.
  - unfold getAvailableUsers, getUsersByCriteria.
    rewrite (Permutation_length (sortBy_perm _ _)).
    etransitivity; [apply List.filter_length_le |].
    etransitivity; [apply List.filter_length_le |].
    rewrite (online_listed s Hr). lia.
Qed.

Lemma getAvailableUsers_safe_witness :
  List.map id (getAvailableUsers noCriteria threeUsers) = ["user-1"; "user-2"]
  /\ (List.length (getAvailableUsers noCriteria threeUsers)
      <= getOnlineCount threeUsers)%nat.
Proof.
  split; [vm_compute; reflexivity |].
  apply getAvailableUsers_safe.
  apply users_reachable_run.
  apply (reachable_step init (OpCreateUser _ _ _) 1000), reachable_init.
Defined.

End UserManagerMore.

(* --------------------------------------------------------------------- *)
(** ** MatchingEngine: the queue and the matching loop *)
(* --------------------------------------------------------------------- *)

Module MatchingEngineMore.
Import Js JsArray JsFacts FloatOrder CollectionFacts MatchingEngine MatchingLoop
       MatchingEngineSpec.

(** *** The queue as a map *)

Lemma om_has_get {V} k (m : omap V) : om_has k m = true <-> exists v, om_get k m = Some v.
Proof.
  unfold om_has. destruct (om_get k m); split; eauto; try discriminate.
  intros [v Hv]. discriminate.
Qed.

Lemma om_has_false {V} k (m : omap V) : om_has k m = false <-> om_get k m = None.
Proof. unfold om_has. destruct (om_get k m); split; congruence. Qed.

Lemma length_om_set_present {V} k (v v0 : V) m :
  om_get k m = Some v0 -> List.length (om_set k v m) = List.length m.
Proof.
  unfold om_get. induction m as [|[k' v'] m IH]; simpl; [discriminate |].
  destruct (String.eqb k k'); simpl; [reflexivity |]. intros H. rewrite (IH H). reflexivity.
Qed.

Lemma length_om_set_absent {V} k (v : V) m :
  om_get k m = None -> List.length (om_set k v m) = S (List.length m).
Proof.
  intros H. rewrite (om_set_absent _ _ _ H), length_app. simpl. lia.
Qed.

Lemma length_om_delete_le {V} k (m : omap V) :
  (List.length (om_delete k m) <= List.length m)%nat.
Proof.
  induction m as [|[k' v'] m IH]; simpl; [lia |].
  destruct (String.eqb k k'); simpl; lia.
Qed.

Lemma length_om_delete_present {V} k (v : V) m :
  List.NoDup (List.map fst m) -> om_get k m = Some v ->
  S (List.length (om_delete k m)) = List.length m.
Proof.
  unfold om_get. induction m as [|[k' v'] m IH]; simpl; [discriminate |].
  intros Hn. apply List.NoDup_cons_iff in Hn as [Hk Hn].
  destruct (String.eqb k k') eqn:E; simpl.
  - apply String.eqb_eq in E. subst k'. intros _.
    rewrite om_delete_absent; [reflexivity |].
    destruct (om_get k m) as [w|] eqn:Eg; [| reflexivity].
    exfalso. apply Hk. apply om_get_In in Eg.
    apply List.in_map_iff. exists (k, w). auto.
  - intros H. rewrite (IH Hn H). reflexivity.
Qed.

Lemma queue_removeFromQueue uid now s :
  matchingQueue (snd (removeFromQueue uid now s)) = om_delete uid (matchingQueue s).
Proof.
  unfold removeFromQueue. destruct (om_has uid (matchingQueue s)) eqn:E; [reflexivity |].
  cbn [snd]. symmetry. apply om_delete_absent, om_has_false, E.
Qed.

Lemma queue_fold_removeFromQueue now l s :
  matchingQueue (fold_left (fun s uid => snd (removeFromQueue uid now s)) l s)
  = fold_left (fun m k => om_delete k m) l (matchingQueue s).
Proof.
  revert s. induction l as [|x l IH]; intros s; simpl; [reflexivity |].
  rewrite IH, queue_removeFromQueue. reflexivity.
Qed.





(** *** Sweeping stale entries *)

(** X22: [cleanupQueue] returns the number of entries that have waited
    for more than [maxWaitTime] (five minutes); afterwards no entry of
    the queue is that old, every such entry is gone, and the entry of
    every other user is as it was. *)
Theorem cleanupQueue_sweeps now s :
  fst (cleanupQueue now s)
  = List.length (List.filter (fun kc => isStale now (snd kc)) (matchingQueue s))
  /\ Forall (fun kc => isStale now (snd kc) = false)
            (matchingQueue (snd (cleanupQueue now s)))
  /\ (forall k, In k (staleEntries now s) ->
        om_get k (matchingQueue (snd (cleanupQueue now s))) = None)
  /\ (forall k, ~ In k (staleEntries now s) ->
        om_get k (matchingQueue (snd (cleanupQueue now s)))
        = om_get k (matchingQueue s)).
Proof.
  assert (Hc : matchingQueue (snd (cleanupQueue now s))
               = List.filter
                   (fun kc => negb (arr_includes (staleEntries now s) (fst kc)))
                   (matchingQueue s)).
  { unfold cleanupQueue. cbn [snd].
    rewrite queue_fold_removeFromQueue. apply fold_om_delete_filter. }
  assert (Hf : staleEntries now s
               = List.map fst
                   (List.filter (fun kc => isStale now (snd kc)) (matchingQueue s))).
  { unfold staleEntries. f_equal. apply List.filter_ext. intros [k c]. reflexivity. }
  split; [| split; [| split]].
  - unfold cleanupQueue. cbn [fst]. rewrite Hf, length_map. reflexivity.
  - rewrite Hc. apply List.Forall_forall. intros [k c] Hin.
    apply List.filter_In in Hin as [Hin Hk]. cbn [fst snd] in *.
    destruct (isStale now c) eqn:Es; [| reflexivity].
    assert (Hi : In k (staleEntries now s)).
    { rewrite Hf. apply List.in_map_iff. exists (k, c). split; [reflexivity |].
      apply List.filter_In. auto. }
    apply arr_includes_In in Hi. rewrite Hi in Hk. discriminate.
  - intros k Hin. rewrite Hc.
    rewrite (om_get_filter_keys (fun k => negb (arr_includes (staleEntries now s) k))).
    apply arr_includes_In in Hin. rewrite Hin. reflexivity.
  - intros k Hin. rewrite Hc.
    rewrite (om_get_filter_keys (fun k => negb (arr_includes (staleEntries now s) k))).
    destruct (arr_includes (staleEntries now s) k) eqn:E; [| reflexivity].
    apply arr_includes_In in E. contradiction.
Qed.

(** *** Scores that stay in range *)

(** X23: the priority of an entry is never below 0.1 and never above
    2.0, and the compatibility threshold is never below 0.1, whatever
    the trust score, the violation count and the clock are. *)
Theorem priority_and_threshold_bounds u entry now :
  PrimFloat.ltb (calculatePriority u now) 0.1%float = false
  /\ PrimFloat.ltb 2%float (calculatePriority u now) = false
  /\ PrimFloat.ltb (getMinimumCompatibility entry now) 0.1%float = false.
Proof.
  unfold calculatePriority, getMinimumCompatibility. cbv zeta.
  match goal with |- context [Math_max 0.1%float (Math_min 2%float ?x)] =>
    destruct (clamp_bounds 0.1%float 2%float x eq_refl) as [Hlo Hhi] end.
  split; [exact Hlo |]. split; [exact Hhi |].
  apply Math_max_not_below_r.
Qed.


(** *** Entries stay filed under their user *)

Lemma filed_set k v h s :
  userId v = k -> UserManager.id (user v) = k -> filed s ->
  filed (mkState (om_set k v (matchingQueue s)) h).
Proof.
  intros H1 H2 [Hn Hf]. split; cbn [matchingQueue].
  - apply NoDup_om_set, Hn.
  - apply Forall_om_set; [split; assumption | exact Hf].
Qed.

Lemma filed_delete k h s : filed s -> filed (mkState (om_delete k (matchingQueue s)) h).
Proof.
  intros [Hn Hf]. split; cbn [matchingQueue].
  - apply NoDup_om_delete, Hn.
  - apply Forall_om_delete, Hf.
Qed.

Lemma filed_get k x s :
  filed s -> om_get k (matchingQueue s) = Some x ->
  userId x = k /\ UserManager.id (user x) = k.
Proof.
  intros [_ Hf] Hg.
  exact (Forall_om_get (fun kc => userId (snd kc) = fst kc
                                  /\ UserManager.id (user (snd kc)) = fst kc) _ _ _ Hf Hg).
Qed.

Lemma filed_addToQueue u preferences uuid now s :
  filed s -> filed (snd (addToQueue u preferences uuid now s)).
Proof.
  intros HF. unfold addToQueue.
  destruct (om_get _ _); [exact HF |].
  destruct (Nat.leb _ _); [exact HF |].
  destruct (sanitizePreferences preferences); [| exact HF].
  destruct (extractRequirements preferences); [| exact HF].
  destruct (calculateFlexibility preferences); [| exact HF].
  cbn [bind snd]. apply filed_set; [reflexivity | reflexivity | exact HF].
Qed.

Lemma filed_removeFromQueue uid now s :
  filed s -> filed (snd (removeFromQueue uid now s)).
Proof.
  intros HF. unfold removeFromQueue. destruct (om_has _ _); [| exact HF].
  cbn [snd]. apply filed_delete, HF.
Qed.

Lemma filed_cleanupQueue now s : filed s -> filed (snd (cleanupQueue now s)).
Proof.
  unfold cleanupQueue. cbn [snd]. generalize (staleEntries now s). intros l.
  revert s. induction l as [|x l IH]; intros s HF; simpl; [exact HF |].
  apply IH, filed_removeFromQueue, HF.
Qed.

Lemma filed_removePair a b now s : filed s -> filed (removePair a b now s).
Proof. intros HF. unfold removePair. apply filed_removeFromQueue, filed_removeFromQueue, HF. Qed.

Lemma filed_sessionChanged u s : filed s -> filed (sessionChanged u s).
Proof.
  intros HF. unfold sessionChanged.
  destruct (om_get _ _) as [entry|] eqn:Eg; [| exact HF].
  destruct (String.eqb _ _); [| exact HF].
  apply filed_set; [| reflexivity | exact HF].
  cbn [userId set_user]. apply (filed_get _ _ _ HF Eg).
Qed.

Lemma queue_removePair a b now s :
  matchingQueue (removePair a b now s) = om_delete b (om_delete a (matchingQueue s)).
Proof. unfold removePair. rewrite !queue_removeFromQueue. reflexivity. Qed.

(** *** Choosing the best candidate *)

Lemma findBestMatch_Some queueEntry candidates now s m :
  findBestMatch queueEntry candidates now s = Some m ->
  In (candidate m)
     (match candidates with
      | Some l => l
      | None =>
          List.filter
            (fun entry => negb (String.eqb (userId entry) (userId queueEntry)))
            (om_values (matchingQueue s))
      end)
  /\ compatibilityScore m = calculateCompatibility weights queueEntry (candidate m)
  /\ PrimFloat.leb (getMinimumCompatibility queueEntry now) (compatibilityScore m) = true.
Proof.
  unfold findBestMatch.
  set (pool := match candidates with Some l => l | None => _ end).
  destruct (List.length pool =? 0)%nat; [discriminate |].
  destruct (List.length _ =? 0)%nat; [discriminate |].
  intros H.
  assert (Hin : In m (sortBy (fun a b => (compatibilityScore b - compatibilityScore a)%float)
                        (List.filter
                           (fun c => PrimFloat.leb (getMinimumCompatibility queueEntry now)
                                                   (compatibilityScore c))
                           (List.map
                              (fun c => mkScored c (calculateCompatibility weights queueEntry c))
                              pool)))).
  { destruct (sortBy _ _) as [|x l]; [discriminate |].
    injection H as ->. left. reflexivity. }
  apply sortBy_In in Hin. apply List.filter_In in Hin as [Hin Hle].
  apply List.in_map_iff in Hin as (c & <- & Hc). cbn [candidate compatibilityScore] in *.
  auto.
Qed.

Lemma In_om_values {V} (v : V) (m : omap V) :
  In v (om_values m) -> exists k, In (k, v) m.
Proof.
  unfold om_values. intros H. apply List.in_map_iff in H as ([k w] & <- & Hin). eauto.
Qed.

Lemma om_get_delete2 {V} a b k (m : omap V) :
  om_get k (om_delete b (om_delete a m))
  = if String.eqb k a || String.eqb k b then None else om_get k m.
Proof.
  destruct (String.eqb k b) eqn:Eb.
  - apply String.eqb_eq in Eb. subst k. rewrite om_get_delete_eq, orb_true_r. reflexivity.
  - rewrite om_get_delete_ne
      by (intros E; subst; rewrite String.eqb_refl in Eb; discriminate).
    destruct (String.eqb k a) eqn:Ea.
    + apply String.eqb_eq in Ea. subst k. apply om_get_delete_eq.
    + apply om_get_delete_ne. intros E. subst. rewrite String.eqb_refl in Ea. discriminate.
Qed.

Lemma addToQueue_others u preferences uuid now s k :
  k <> UserManager.id u ->
  om_get k (matchingQueue (snd (addToQueue u preferences uuid now s)))
  = om_get k (matchingQueue s).
Proof.
  intros Hk. unfold addToQueue.
  destruct (om_get (UserManager.id u) (matchingQueue s)); [reflexivity |].
  destruct (Nat.leb _ _); [reflexivity |].
  destruct (sanitizePreferences preferences); [| reflexivity].
  destruct (extractRequirements preferences); [| reflexivity].
  destruct (calculateFlexibility preferences); [| reflexivity].
  cbn [bind snd matchingQueue]. apply om_get_set_ne. intros E. apply Hk. symmetry. exact E.
Qed.

Lemma addToQueue_mine u preferences uuid now s entry :
  fst (addToQueue u preferences uuid now s) = Ok entry ->
  om_get (UserManager.id u) (matchingQueue (snd (addToQueue u preferences uuid now s)))
  = Some entry.
Proof.
  unfold addToQueue.
  destruct (om_get (UserManager.id u) (matchingQueue s)) as [x|] eqn:Eg;
    [cbn [fst snd]; congruence |].
  destruct (Nat.leb _ _); [discriminate |].
  destruct (sanitizePreferences preferences); [| discriminate].
  destruct (extractRequirements preferences); [| discriminate].
  destruct (calculateFlexibility preferences); [| discriminate].
  cbn [bind fst snd matchingQueue]. intros [= <-]. apply om_get_set_eq.
Qed.

(** The candidate chosen for the entry of [uid] is the entry of another
    user of the queue, and reaches the threshold. *)
Lemma partner_found uid entry now s m :
  filed s -> om_get uid (matchingQueue s) = Some entry ->
  findBestMatch entry None now s = Some m ->
  userId (candidate m) <> uid
  /\ om_get (userId (candidate m)) (matchingQueue s) = Some (candidate m)
  /\ UserManager.id (user (candidate m)) = userId (candidate m)
  /\ PrimFloat.leb (getMinimumCompatibility entry now)
                   (calculateCompatibility weights entry (candidate m)) = true.
Proof.
  intros HF Hmine Hb.
  destruct (filed_get _ _ _ HF Hmine) as [Hme _].
  apply findBestMatch_Some in Hb as (Hin & Hscore & Hle).
  apply List.filter_In in Hin as [Hin Hne].
  apply In_om_values in Hin as [k Hk].
  pose proof (In_om_get _ _ _ (proj1 HF) Hk) as Hg.
  destruct (filed_get _ _ _ HF Hg) as [Hck Hcu].
  apply negb_true_iff in Hne. rewrite Hck.
  split; [| split; [exact Hg | split; [exact Hcu | rewrite <- Hscore; exact Hle]]].
  intros ->. rewrite Hck, Hme, String.eqb_refl in Hne. discriminate.
Qed.

(** *** A round of the matching loop *)

Lemma om_has_keys {V} k (m : omap V) : om_has k m = existsb (String.eqb k) (List.map fst m).
Proof.
  unfold om_has, om_get. induction m as [|[k' v'] m IH]; simpl; [reflexivity |].
  destruct (String.eqb k k'); [reflexivity | exact IH].
Qed.

Lemma keys_om_set_present {V} k (v v0 : V) m :
  om_get k m = Some v0 -> List.map fst (om_set k v m) = List.map fst m.
Proof.
  unfold om_get. induction m as [|[k' v'] m IH]; simpl; [discriminate |].
  destruct (String.eqb k k') eqn:E; simpl.
  - apply String.eqb_eq in E. subst k'. reflexivity.
  - intros H. rewrite (IH H). reflexivity.
Qed.

Lemma sameButAttempts_refl x : sameButAttempts x x.
Proof. repeat split. Qed.

Lemma sameButAttempts_trans x y z :
  sameButAttempts x y -> sameButAttempts y z -> sameButAttempts x z.
Proof.
  unfold sameButAttempts. intros (a1 & a2 & a3 & a4 & a5 & a6 & a7) (b1 & b2 & b3 & b4 & b5 & b6 & b7).
  repeat split; congruence.
Qed.

Lemma attemptsOnly_refl e : attemptsOnly e e.
Proof.
  split; [reflexivity |]. split; [| split; reflexivity].
  intros k x' H. exists x'. split; [exact H | apply sameButAttempts_refl].
Qed.

Lemma attemptsOnly_trans e1 e2 e3 :
  attemptsOnly e1 e2 -> attemptsOnly e2 e3 -> attemptsOnly e1 e3.
Proof.
  intros (K1 & E1 & H1 & S1) (K2 & E2 & H2 & S2).
  split; [congruence |]. split; [| split; congruence].
  intros k x3 Hx3. destruct (E2 k x3 Hx3) as (x2 & Hx2 & R2).
  destruct (E1 k x2 Hx2) as (x1 & Hx1 & R1).
  exists x1. split; [exact Hx1 | eapply sameButAttempts_trans; eauto].
Qed.

Lemma attemptsOnly_touch k entry0 now e :
  om_get k (matchingQueue (queue e)) = Some entry0 ->
  attemptsOnly e
    (mkEngine (mkState (om_set k (touch now entry0) (matchingQueue (queue e)))
                       (queueHistory (queue e)))
              (matchingStats e)).
Proof.
  intros Hg. split; cbn [queue matchingQueue queueHistory matchingStats].
  - eapply keys_om_set_present, Hg.
  - split; [| split; reflexivity].
    intros k' x' Hx'. destruct (String.eqb k k') eqn:E.
    + apply String.eqb_eq in E. subst k'. rewrite om_get_set_eq in Hx'.
      injection Hx' as <-. exists entry0. split; [exact Hg |]. repeat split.
    + rewrite om_get_set_ne in Hx'
        by (intros ->; rewrite String.eqb_refl in E; discriminate).
      exists x'. split; [exact Hx' | apply sameButAttempts_refl].
Qed.

Lemma processFrom_cases arr : forall n now e,
  (forall k x, In (k, x) arr -> om_get k (matchingQueue (queue e)) = Some x) ->
  List.NoDup (List.map fst arr) ->
  filed (queue e) ->
  match processFrom arr n now e with
  | (None, e') => attemptsOnly e e' /\ filed (queue e')
  | (Some (entry, m), e') =>
      exists e1,
        attemptsOnly e e1 /\ filed (queue e1)
        /\ om_get (userId entry) (matchingQueue (queue e1)) = Some entry
        /\ om_get (userId (candidate m)) (matchingQueue (queue e1)) = Some (candidate m)
        /\ userId entry <> userId (candidate m)
        /\ compatibilityScore m = calculateCompatibility weights entry (candidate m)
        /\ PrimFloat.leb (getMinimumCompatibility entry now) (compatibilityScore m) = true
        /\ e' = mkEngine (removePair (userId entry) (userId (candidate m)) now (queue e1))
                         (recordMatch entry (candidate m) true now (matchingStats e1))
  end.
Proof.
  induction arr as [|[k entry0] rest IH]; intros n now e Hcur Hnd HF.
  - destruct n; simpl; split; [apply attemptsOnly_refl | exact HF | apply attemptsOnly_refl | exact HF].
  - destruct n as [|n]; [simpl; split; [apply attemptsOnly_refl | exact HF] |].
    cbn [processFrom].
    assert (Hk : om_get k (matchingQueue (queue e)) = Some entry0)
      by (apply Hcur; left; reflexivity).
    destruct (filed_get _ _ _ HF Hk) as [Hu1 Hu2].
    set (e1 := mkEngine (mkState (om_set k (touch now entry0) (matchingQueue (queue e)))
                                 (queueHistory (queue e))) (matchingStats e)).
    assert (HA : attemptsOnly e e1) by (apply attemptsOnly_touch, Hk).
    assert (HF1 : filed (queue e1)).
    { apply filed_set; [exact Hu1 | exact Hu2 | exact HF]. }
    cbn [map fst] in Hnd. apply List.NoDup_cons_iff in Hnd as [Hkr Hnd].
    assert (Hcur1 : forall k' x, In (k', x) rest ->
                      om_get k' (matchingQueue (queue e1)) = Some x).
    { intros k' x Hin. cbn [e1 queue matchingQueue].
      rewrite om_get_set_ne.
      - apply Hcur. right. exact Hin.
      - intros ->. apply Hkr. apply List.in_map_iff. exists (k', x). auto. }
    change (mkState (om_set k (touch now entry0) (matchingQueue (queue e)))
                    (queueHistory (queue e))) with (queue e1).
    destruct (findBestMatch (touch now entry0) (Some (List.map snd rest)) now (queue e1))
      as [m|] eqn:Eb.
    + apply findBestMatch_Some in Eb as (Hin & Hscore & Hle).
      apply List.in_map_iff in Hin as ([k' c] & Hc & Hin). cbn [snd] in Hc. subst c.
      pose proof (Hcur1 _ _ Hin) as Hg'.
      destruct (filed_get _ _ _ HF1 Hg') as [Hc1 _].
      exists e1. split; [exact HA |]. split; [exact HF1 |].
      cbn [userId touch]. rewrite Hu1, Hc1.
      split; [cbn [e1 queue matchingQueue]; apply om_get_set_eq |].
      split; [exact Hg' |].
      split.
      { intros ->. apply Hkr. apply List.in_map_iff. exists (k', candidate m). auto. }
      split; [exact Hscore |]. split; [exact Hle |].
      change (matchingStats e) with (matchingStats e1). reflexivity.
    + change (mkEngine (queue e1) (matchingStats e)) with e1.
      specialize (IH n now e1 Hcur1 Hnd HF1).
      destruct (processFrom rest n now e1) as [[[entry m]|] e'].
      * destruct IH as (e2 & HA2 & rest').
        exists e2. split; [eapply attemptsOnly_trans; eauto | exact rest'].
      * destruct IH as [HA2 HF2]. split; [eapply attemptsOnly_trans; eauto | exact HF2].
Qed.

Lemma processMatchingQueue_cases now e :
  filed (queue e) ->
  match processMatchingQueue now e with
  | (None, e') => attemptsOnly e e' /\ filed (queue e')
  | (Some (entry, m), e') =>
      exists e1,
        attemptsOnly e e1 /\ filed (queue e1)
        /\ om_get (userId entry) (matchingQueue (queue e1)) = Some entry
        /\ om_get (userId (candidate m)) (matchingQueue (queue e1)) = Some (candidate m)
        /\ userId entry <> userId (candidate m)
        /\ compatibilityScore m = calculateCompatibility weights entry (candidate m)
        /\ PrimFloat.leb (getMinimumCompatibility entry now) (compatibilityScore m) = true
        /\ e' = mkEngine (removePair (userId entry) (userId (candidate m)) now (queue e1))
                         (recordMatch entry (candidate m) true now (matchingStats e1))
  end.
Proof.
  intros HF. unfold processMatchingQueue.
  destruct (om_size _ <? 2)%nat; [split; [apply attemptsOnly_refl | exact HF] |].
  pose proof (sortBy_perm (byUrgency now) (matchingQueue (queue e))) as Hp.
  apply processFrom_cases; [| | exact HF].
  - intros k x Hin. apply (In_om_get _ _ _ (proj1 HF)).
    eapply Permutation_in; [exact Hp | exact Hin].
  - eapply Permutation_NoDup; [| exact (proj1 HF)].
    symmetry. apply Permutation_map, Hp.
Qed.

(** *** What the engine keeps true *)

Lemma size_keys {V} (m m' : omap V) :
  List.map fst m' = List.map fst m -> om_size m' = om_size m.
Proof.
  unfold om_size. intros H.
  rewrite <- (length_map fst m'), <- (length_map fst m), H. reflexivity.
Qed.

Lemma size_removePair a b now s :
  (om_size (matchingQueue (removePair a b now s)) <= om_size (matchingQueue s))%nat.
Proof.
  rewrite queue_removePair. unfold om_size.
  pose proof (length_om_delete_le b (om_delete a (matchingQueue s))).
  pose proof (length_om_delete_le a (matchingQueue s)). lia.
Qed.

Lemma size_addToQueue u preferences uuid now s :
  (om_size (matchingQueue s) <= maxQueueSize)%nat ->
  (om_size (matchingQueue (snd (addToQueue u preferences uuid now s))) <= maxQueueSize)%nat.
Proof.
  intros H. unfold addToQueue.
  destruct (om_get (UserManager.id u) (matchingQueue s)) eqn:Eg; [exact H |].
  destruct (Nat.leb _ _) eqn:El; [exact H |].
  destruct (sanitizePreferences preferences); [| exact H].
  destruct (extractRequirements preferences); [| exact H].
  destruct (calculateFlexibility preferences); [| exact H].
  cbn [bind snd matchingQueue]. unfold om_size in *.
  rewrite (length_om_set_absent _ _ _ Eg). apply Nat.leb_gt in El. exact El.
Qed.

Lemma size_removeFromQueue uid now s :
  (om_size (matchingQueue (snd (removeFromQueue uid now s))) <= om_size (matchingQueue s))%nat.
Proof. rewrite queue_removeFromQueue. apply length_om_delete_le. Qed.

Lemma size_cleanupQueue now s :
  (om_size (matchingQueue (snd (cleanupQueue now s))) <= om_size (matchingQueue s))%nat.
Proof.
  unfold cleanupQueue. cbn [snd]. generalize (staleEntries now s). intros l.
  revert s. induction l as [|x l IH]; intros s; simpl; [lia |].
  etransitivity; [apply IH | apply size_removeFromQueue].
Qed.

Lemma size_sessionChanged u s :
  om_size (matchingQueue (sessionChanged u s)) = om_size (matchingQueue s).
Proof.
  unfold sessionChanged.
  destruct (om_get _ _) as [entry|] eqn:Eg; [| reflexivity].
  destruct (String.eqb _ _); [| reflexivity].
  cbn [matchingQueue]. eapply length_om_set_present, Eg.
Qed.

Lemma engine_step op now e :
  filed (queue e)
  /\ (om_size (matchingQueue (queue e)) <= maxQueueSize)%nat
  /\ successfulMatches (matchingStats e) = totalMatches (matchingStats e) ->
  filed (queue (step op now e))
  /\ (om_size (matchingQueue (queue (step op now e))) <= maxQueueSize)%nat
  /\ successfulMatches (matchingStats (step op now e))
     = totalMatches (matchingStats (step op now e)).
Proof.
  intros (HF & Hs & Hm).
  destruct op as [u prefs uuid | uid | u prefs uuid | | | u]; cbn [step onQueue queue matchingStats].
  - split; [apply filed_addToQueue, HF |]. split; [apply size_addToQueue, Hs | exact Hm].
  - split; [apply filed_removeFromQueue, HF |]. split; [| exact Hm].
    etransitivity; [apply size_removeFromQueue | exact Hs].
  - unfold findMatch.
    pose proof (filed_addToQueue u prefs uuid now (queue e) HF) as HF1.
    pose proof (size_addToQueue u prefs uuid now (queue e) Hs) as Hs1.
    destruct (addToQueue u prefs uuid now (queue e)) as [[entry|err] q]; cbn [snd] in *;
      [| auto].
    destruct (findBestMatch entry None now q) as [m|]; cbn [snd queue matchingStats].
    + split; [apply filed_removePair, HF1 |]. split.
      * etransitivity; [apply size_removePair | exact Hs1].
      * cbn [recordMatch successfulMatches totalMatches]. lia.
    + auto.
  - split; [apply filed_cleanupQueue, HF |]. split; [| exact Hm].
    etransitivity; [apply size_cleanupQueue | exact Hs].
  - pose proof (processMatchingQueue_cases now e HF) as H.
    destruct (processMatchingQueue now e) as [[[entry m]|] e']; cbn [snd].
    + destruct H as (e1 & (K & _ & _ & S1) & HF1 & _ & _ & _ & _ & _ & ->).
      cbn [queue matchingStats].
      split; [apply filed_removePair, HF1 |]. split.
      * etransitivity; [apply size_removePair |]. rewrite (size_keys _ _ K). exact Hs.
      * cbn [recordMatch successfulMatches totalMatches]. rewrite S1. lia.
    + destruct H as [(K & _ & _ & S1) HF1].
      split; [exact HF1 |]. split; [rewrite (size_keys _ _ K); exact Hs | congruence].
  - split; [apply filed_sessionChanged, HF |]. split; [| exact Hm].
    rewrite size_sessionChanged. exact Hs.
Qed.

Lemma reachable_engine e :
  reachable e ->
  filed (queue e)
  /\ (om_size (matchingQueue (queue e)) <= maxQueueSize)%nat
  /\ successfulMatches (matchingStats e) = totalMatches (matchingStats e).
Proof.
  induction 1 as [| e op now _ IH].
  - split; [split; constructor |]. split; [apply Nat.leb_le; vm_compute | ]; reflexivity.
  - apply engine_step, IH.
Qed.

Lemma engine_reachable_run ops e : reachable e -> reachable (run ops e).
Proof.
  revert e. induction ops as [|[op now] ops IH]; intros e H; simpl; [exact H |].
  apply IH. constructor. exact H.
Qed.


(** X24: on an engine reached by its operations, [findMatch] either
    throws what [addToQueue] throws and changes nothing; or finds
    nobody, and then the user waits in the queue, the other entries and
    the statistics being as before; or returns a partner.  The partner
    is never the user: it is the session of another entry that was
    waiting, whose compatibility with the user's entry reaches the
    threshold; both leave the queue, every other entry stays as it was,
    and one more match is counted. *)
Theorem findMatch_outcome u preferences uuid now e :
  reachable e ->
  match findMatch u preferences uuid now e with
  | (Throw err, e') =>
      e' = e /\ fst (addToQueue u preferences uuid now (queue e)) = Throw err
  | (Ok None, e') =>
      queued (UserManager.id u) (queue e') = true
      /\ matchingStats e' = matchingStats e
      /\ (forall k, k <> UserManager.id u ->
            om_get k (matchingQueue (queue e')) = om_get k (matchingQueue (queue e)))
  | (Ok (Some partner), e') =>
      UserManager.id partner <> UserManager.id u
      /\ (exists entry c,
            fst (addToQueue u preferences uuid now (queue e)) = Ok entry
            /\ om_get (UserManager.id partner) (matchingQueue (queue e)) = Some c
            /\ user c = partner
            /\ PrimFloat.leb (getMinimumCompatibility entry now)
                             (calculateCompatibility weights entry c) = true)
      /\ queued (UserManager.id u) (queue e') = false
      /\ queued (UserManager.id partner) (queue e') = false
      /\ (forall k, k <> UserManager.id u -> k <> UserManager.id partner ->
            om_get k (matchingQueue (queue e')) = om_get k (matchingQueue (queue e)))
      /\ totalMatches (matchingStats e') = totalMatches (matchingStats e) + 1
      /\ successfulMatches (matchingStats e') = successfulMatches (matchingStats e) + 1
  end.
Proof.
  intros Hr. destruct (reachable_engine e Hr) as (HF & _ & _).
  pose proof (filed_addToQueue u preferences uuid now (queue e) HF) as HF1.
  pose proof (addToQueue_mine u preferences uuid now (queue e)) as Hmine.
  pose proof (addToQueue_others u preferences uuid now (queue e)) as Hothers.
  unfold findMatch.
  destruct (addToQueue u preferences uuid now (queue e)) as [[entry|err] q] eqn:Ea;
    cbn [fst snd] in *; [| auto].
  specialize (Hmine entry eq_refl).
  destruct (findBestMatch entry None now q) as [m|] eqn:Eb.
  - destruct (partner_found _ _ _ _ _ HF1 Hmine Eb) as (Hdiff & Hg & Hcu & Hle).
    rewrite Hcu. split; [exact Hdiff |].
    split.
    { exists entry, (candidate m). split; [reflexivity |].
      rewrite <- (Hothers _ Hdiff). auto. }
    unfold queued. cbn [queue matchingStats]. rewrite queue_removePair.
    split.
    { apply om_has_false. rewrite om_get_delete2, String.eqb_refl. reflexivity. }
    split.
    { apply om_has_false. rewrite om_get_delete2, String.eqb_refl, orb_true_r. reflexivity. }
    split; [| split; reflexivity].
    intros k' H1 H2. rewrite om_get_delete2.
    destruct (String.eqb k' (UserManager.id u)) eqn:E1;
      [apply String.eqb_eq in E1; contradiction |].
    destruct (String.eqb k' (userId (candidate m))) eqn:E2;
      [apply String.eqb_eq in E2; contradiction |].
    cbn [orb]. apply Hothers, H1.
  - cbn [queue matchingStats]. split; [| split; [reflexivity | exact Hothers]].
    apply om_has_get. eauto.
Qed.

Lemma findMatch_outcome_witness :
  fst (findMatch (userOf "cyd" 0) (VObj []) "entry-c" 3000 twoWaiting)
  = Ok (Some (userOf "ann" 0))
  /\ queued "ann" (queue (snd (findMatch (userOf "cyd" 0) (VObj []) "entry-c" 3000
                                 twoWaiting))) = false
  /\ queued "bob" (queue (snd (findMatch (userOf "cyd" 0) (VObj []) "entry-c" 3000
                                 twoWaiting))) = true.
Proof.
  assert (Hr : reachable twoWaiting)
    by (apply engine_reachable_run, reachable_start).
  pose proof (findMatch_outcome (userOf "cyd" 0) (VObj []) "entry-c" 3000 twoWaiting Hr)
    as H.
  assert (E : fst (findMatch (userOf "cyd" 0) (VObj []) "entry-c" 3000 twoWaiting)
              = Ok (Some (userOf "ann" 0))) by (vm_compute; reflexivity).
  destruct (findMatch (userOf "cyd" 0) (VObj []) "entry-c" 3000 twoWaiting)
    as [r e'] eqn:Ef.
  cbn [fst snd] in *. subst r.
  destruct H as (_ & _ & _ & Hq & _).
  split; [reflexivity |]. split; [exact Hq |].
  assert (E' : snd (findMatch (userOf "cyd" 0) (VObj []) "entry-c" 3000 twoWaiting) = e')
    by (rewrite Ef; reflexivity).
  rewrite <- E'. vm_compute. reflexivity.
Defined.

(** X25: on an engine reached by its operations, a round of the
    matching loop does nothing when fewer than two users wait.
    Otherwise it either matches nobody, and then the same users wait in
    the same order and only the attempts marked on their entries have
    changed; or it hands one pair to [emitMatchFound].  The two entries
    of the pair belong to two different users who were both waiting and
    whose compatibility reaches the threshold; both leave the queue,
    which loses exactly these two entries, and one more match is
    counted. *)
Theorem processMatchingQueue_outcome now e :
  reachable e ->
  ((om_size (matchingQueue (queue e)) < 2)%nat -> processMatchingQueue now e = (None, e))
  /\ match processMatchingQueue now e with
     | (None, e') => attemptsOnly e e'
     | (Some (entry, m), e') =>
         userId entry <> userId (candidate m)
         /\ queued (userId entry) (queue e) = true
         /\ queued (userId (candidate m)) (queue e) = true
         /\ PrimFloat.leb (getMinimumCompatibility entry now)
                          (calculateCompatibility weights entry (candidate m)) = true
         /\ queued (userId entry) (queue e') = false
         /\ queued (userId (candidate m)) (queue e') = false
         /\ (forall k, k <> userId entry -> k <> userId (candidate m) ->
               queued k (queue e') = queued k (queue e))
         /\ (om_size (matchingQueue (queue e')) + 2
             = om_size (matchingQueue (queue e)))%nat
         /\ totalMatches (matchingStats e') = totalMatches (matchingStats e) + 1
     end.
Proof.
  intros Hr. destruct (reachable_engine e Hr) as (HF & _ & _). split.
  - intros Hlt. unfold processMatchingQueue. apply Nat.ltb_lt in Hlt. rewrite Hlt.
    reflexivity.
  - pose proof (processMatchingQueue_cases now e HF) as H.
    destruct (processMatchingQueue now e) as [[[entry m]|] e']; [| exact (proj1 H)].
    destruct H as (e1 & (K & _ & _ & S1) & HF1 & G1 & G2 & Hne & Hsc & Hle & ->).
    assert (Hq : forall k, queued k (queue e1) = queued k (queue e)).
    { intros k. unfold queued. rewrite !om_has_keys, K. reflexivity. }
    split; [exact Hne |].
    split; [rewrite <- Hq; apply om_has_get; eauto |].
    split; [rewrite <- Hq; apply om_has_get; eauto |].
    split; [rewrite <- Hsc; exact Hle |].
    unfold queued at 1 2 3. cbn [queue matchingStats]. rewrite queue_removePair.
    split.
    { apply om_has_false. rewrite om_get_delete2, String.eqb_refl. reflexivity. }
    split.
    { apply om_has_false. rewrite om_get_delete2, String.eqb_refl, orb_true_r. reflexivity. }
    split.
    { intros k H1 H2. rewrite <- Hq. unfold queued, om_has. rewrite om_get_delete2.
      destruct (String.eqb k (userId entry)) eqn:E1;
        [apply String.eqb_eq in E1; contradiction |].
      destruct (String.eqb k (userId (candidate m))) eqn:E2;
        [apply String.eqb_eq in E2; contradiction |].
      reflexivity. }
    split.
    { rewrite <- (size_keys _ _ K). unfold om_size.
      destruct HF1 as [Hn1 _].
      rewrite <- (length_om_delete_present _ _ _ Hn1 G1).
      rewrite <- (length_om_delete_present (userId (candidate m)) (candidate m)
                    (om_delete (userId entry) (matchingQueue (queue e1)))).
      - lia.
      - apply NoDup_om_delete, Hn1.
      - rewrite om_get_delete_ne by exact Hne. exact G2. }
    cbn [recordMatch totalMatches]. rewrite S1. reflexivity.
Qed.

Lemma processMatchingQueue_outcome_witness :
  fst (processMatchingQueue 3000 twoWaiting)
  = Some (touch 3000
            (default entry1 (om_get "ann" (matchingQueue (queue twoWaiting)))),
          mkScored (default entry1 (om_get "bob" (matchingQueue (queue twoWaiting))))
                   0.55%float)
  /\ om_size (matchingQueue (queue (snd (processMatchingQueue 3000 twoWaiting)))) = 0%nat.
Proof.
  assert (Hr : reachable twoWaiting)
    by (apply engine_reachable_run, reachable_start).
  destruct (processMatchingQueue_outcome 3000 twoWaiting Hr) as [_ H].
  split; [vm_compute; reflexivity |].
  destruct (processMatchingQueue 3000 twoWaiting) as [[[entry m]|] e'] eqn:Ep.
  - destruct H as (_ & _ & _ & _ & _ & _ & _ & Hs & _). cbn [snd].
    assert (E2 : om_size (matchingQueue (queue twoWaiting)) = 2%nat)
      by (vm_compute; reflexivity).
    rewrite E2 in Hs. lia.
  - exfalso.
    assert (E : fst (processMatchingQueue 3000 twoWaiting) <> None)
      by (vm_compute; discriminate).
    rewrite Ep in E. apply E. reflexivity.
Defined.

(** X26: in every state the engine reaches, the queue holds at most
    [maxQueueSize] (1000) entries, each entry is filed under the id of
    its user and of the session it refers to, and every match counted
    is counted as successful. *)
Theorem queue_invariants e :
  reachable e ->
  (om_size (matchingQueue (queue e)) <= maxQueueSize)%nat
  /\ (forall k x, om_get k (matchingQueue (queue e)) = Some x ->
        userId x = k /\ UserManager.id (user x) = k)
  /\ successfulMatches (matchingStats e) = totalMatches (matchingStats e).
Proof.
  intros Hr. destruct (reachable_engine e Hr) as (HF & Hs & Hm).
  split; [exact Hs |]. split; [| exact Hm].
  intros k x Hg. exact (filed_get _ _ _ HF Hg).
Qed.

Lemma queue_invariants_witness :
  (om_size (matchingQueue (queue twoWaiting)) <= maxQueueSize)%nat.
Proof.
  apply queue_invariants. apply engine_reachable_run, reachable_start.
Defined.

(** *** The position in the queue *)

Lemma findIndexFrom_found {A} (p : A -> bool) l i :
  (exists x, In x l /\ p x = true) ->
  exists n x, findIndexFrom p l i = i + Z.of_nat n /\ l !! n = Some x /\ p x = true.
Proof.
  revert i. induction l as [|y l IH]; intros i (x & Hin & Hp); [destruct Hin |].
  cbn [findIndexFrom]. destruct (p y) eqn:Ey.
  - exists 0%nat, y. split; [lia | auto].
  - destruct Hin as [-> | Hin]; [congruence |].
    destruct (IH (i + 1) (ex_intro _ x (conj Hin Hp))) as (n & z & Hn & Hz & Hpz).
    exists (S n), z. split; [lia | auto].
Qed.

Lemma position_found uid s :
  filed s -> queued uid s = true ->
  exists n x,
    getQueuePosition uid s = Z.of_nat n + 1
    /\ sortBy byPriority (om_values (matchingQueue s)) !! n = Some x
    /\ userId x = uid.
Proof.
  intros HF Hq. unfold getQueuePosition. unfold queued in Hq. rewrite Hq. cbn [negb].
  apply om_has_get in Hq as [x Hx].
  destruct (filed_get _ _ _ HF Hx) as [Hu _].
  destruct (findIndexFrom_found (fun entry => String.eqb (userId entry) uid)
              (sortBy byPriority (om_values (matchingQueue s))) 0) as (n & y & Hn & Hy & Hp).
  { exists x. split; [| rewrite Hu; apply String.eqb_refl].
    apply sortBy_In. unfold om_values. apply List.in_map_iff.
    exists (uid, x). split; [reflexivity | apply om_get_In, Hx]. }
  exists n, y. unfold findIndex. rewrite Hn.
  split; [lia |]. split; [exact Hy |]. apply String.eqb_eq, Hp.
Qed.

Lemma position_range uid s :
  filed s -> queued uid s = true ->
  1 <= getQueuePosition uid s <= Z.of_nat (om_size (matchingQueue s)).
Proof.
  intros HF Hq. destruct (position_found uid _ HF Hq) as (n & x & -> & Hx & _).
  apply lookup_lt_Some in Hx.
  rewrite (Permutation_length (sortBy_perm _ _)) in Hx.
  unfold om_values in Hx. rewrite length_map in Hx. unfold om_size. lia.
Qed.

(** X27: on an engine reached by its operations, [getQueuePosition]
    is -1 for a user who is not in the queue; for a user who is, it lies
    between 1 and the size of the queue, and two different users never
    get the same position. *)
Theorem getQueuePosition_range e :
  reachable e ->
  (forall uid, queued uid (queue e) = false -> getQueuePosition uid (queue e) = -1)
  /\ (forall uid, queued uid (queue e) = true ->
        1 <= getQueuePosition uid (queue e)
        <= Z.of_nat (om_size (matchingQueue (queue e))))
  /\ (forall uid1 uid2,
        queued uid1 (queue e) = true -> queued uid2 (queue e) = true ->
        getQueuePosition uid1 (queue e) = getQueuePosition uid2 (queue e) ->
        uid1 = uid2).
Proof.
  intros Hr. destruct (reachable_engine e Hr) as (HF & _ & _). split; [| split].
  - intros uid Hq. unfold getQueuePosition. unfold queued in Hq. rewrite Hq. reflexivity.
  - intros uid Hq. apply position_range; assumption.
  - intros uid1 uid2 H1 H2 Heq.
    destruct (position_found uid1 _ HF H1) as (n1 & x1 & E1 & Hx1 & <-).
    destruct (position_found uid2 _ HF H2) as (n2 & x2 & E2 & Hx2 & <-).
    assert (n1 = n2) by lia. subst n2. congruence.
Qed.

Lemma getQueuePosition_range_witness :
  getQueuePosition "ann" (queue twoWaiting) = 1
  /\ getQueuePosition "bob" (queue twoWaiting) = 2
  /\ getQueuePosition "cyd" (queue twoWaiting) = -1.
Proof.
  assert (Hr : reachable twoWaiting)
    by (apply engine_reachable_run, reachable_start).
  destruct (getQueuePosition_range twoWaiting Hr) as (H & _ & _).
  split; [vm_compute; reflexivity |]. split; [vm_compute; reflexivity |].
  apply H. vm_compute. reflexivity.
Defined.

End MatchingEngineMore.

(* --------------------------------------------------------------------- *)
(** ** The server: what a handler leaves behind *)
(* --------------------------------------------------------------------- *)

Module ServerMore.
Import Js JsArray JsFacts CollectionFacts Server.

Lemma dequeue_queued uid now e :
  MatchingLoop.queued uid (MatchingLoop.queue (dequeue uid now e)) = false.
Proof.
  unfold dequeue, MatchingLoop.onQueue, MatchingLoop.queued. cbn [MatchingLoop.queue].
  rewrite MatchingEngineMore.queue_removeFromQueue.
  apply MatchingEngineMore.om_has_false, om_get_delete_eq.
Qed.

(** The room of a user, once that room is ended *)
Lemma room_ended uid room now cm :
  ChatManager.reachable cm ->
  ChatManager.getUserCurrentChat uid cm = Some room ->
  let cm' := snd (ChatManager.endChat (ChatManager.id room) None None now cm) in
  ChatManager.getChat (ChatManager.id room) cm' = None
  /\ ChatManager.getUserCurrentChat uid cm' = None
  /\ (forall p, In p (ChatManager.participants room) ->
        ChatManager.getUserCurrentChat p cm' = None)
  /\ (exists h, last (ChatManager.chatHistory cm') = Some h
                /\ ChatManager.h_id h = ChatManager.id room
                /\ ChatManager.h_endReason h = Some "user_action").
Proof.
  intros Hr Hg. cbv zeta.
  unfold ChatManager.getUserCurrentChat in Hg.
  destruct (ChatManager.userChats cm !! uid) as [key|] eqn:Eu; [| discriminate].
  destruct (String.eqb key ""); [discriminate |].
  pose proof (ChatManagerSpec.reachable_wf cm Hr) as Hwf.
  destruct (Forall_om_get ChatManager.wellFormed _ _ _ Hwf Hg) as (Hid & _).
  cbn [fst snd] in Hid. rewrite Hid.
  assert (Hdel : ChatManager.chats
                   (snd (ChatManager.endChat key None None now cm))
                 = om_delete key (ChatManager.chats cm))
    by apply ChatManagerMore.chats_endChat_delete.
  assert (Hu : forall p,
             ChatManager.userChats (snd (ChatManager.endChat key None None now cm)) !! p
             = if arr_includes (ChatManager.participants room) p then None
               else ChatManager.userChats cm !! p).
  { intros p. apply ChatManagerMore.userChats_endChat, Hg. }
  split; [unfold ChatManager.getChat; rewrite Hdel; apply om_get_delete_eq |].
  split; [| split].
  - unfold ChatManager.getUserCurrentChat. rewrite Hu, Hdel.
    destruct (arr_includes _ uid); [reflexivity |]. rewrite Eu.
    destruct (String.eqb key ""); [reflexivity | apply om_get_delete_eq].
  - intros p Hp. unfold ChatManager.getUserCurrentChat. rewrite Hu.
    apply arr_includes_In in Hp. rewrite Hp. reflexivity.
  - rewrite (ChatManagerSpec.endChat_found _ _ _ _ _ _ Hg).
    cbn [snd ChatManager.chatHistory].
    eexists. split; [apply ChatManagerSpec.last_addToHistory |].
    unfold ChatManager.historyEntry. cbn [ChatManager.h_id ChatManager.h_endReason].
    unfold ChatManager.calculateFinalAnalytics. destruct (Nat.ltb _ _); split; try reflexivity;
      cbn; congruence.
Qed.

(** X28: when the socket of a registered user disconnects, the user is
    left nowhere: the socket and the user id resolve to no session, the
    user is not in the queue and has no current chat.  If the user was
    in a room, that room is ended with reason [user_action] and removed,
    none of its participants has a current chat any more, and the others
    in the room are told [stranger_disconnected]; the new online count
    is broadcast.  A disconnection of a socket that is not registered
    changes nothing and sends nothing. *)
Theorem handleDisconnect_cleans_up sock now s :
  ChatManager.reachable (chatManager s) ->
  (UserManager.getUser sock (userManager s) = None ->
     handleDisconnect sock now s = ([], s))
  /\ (forall u, UserManager.getUser sock (userManager s) = Some u ->
        let s' := snd (handleDisconnect sock now s) in
        UserManager.getUser sock (userManager s') = None
        /\ UserManager.getUserById (UserManager.id u) (userManager s') = None
        /\ MatchingLoop.queued (UserManager.id u)
             (MatchingLoop.queue (matchingEngine s')) = false
        /\ ChatManager.getUserCurrentChat (UserManager.id u) (chatManager s') = None
        /\ (forall room,
              ChatManager.getUserCurrentChat (UserManager.id u) (chatManager s)
              = Some room ->
              ChatManager.getChat (ChatManager.id room) (chatManager s') = None
              /\ (forall p, In p (ChatManager.participants room) ->
                    ChatManager.getUserCurrentChat p (chatManager s') = None)
              /\ (exists h, last (ChatManager.chatHistory (chatManager s')) = Some h
                            /\ ChatManager.h_id h = ChatManager.id room
                            /\ ChatManager.h_endReason h = Some "user_action")
              /\ In (EmitToOthers sock (ChatManager.id room)
                       (ChatEnded "stranger_disconnected" "Stranger has disconnected"))
                    (fst (handleDisconnect sock now s)))
        /\ In (Broadcast (OnlineCountUpdate
                            (UserManager.getOnlineCount (userManager s'))))
              (fst (handleDisconnect sock now s))).
Proof.
  intros Hr. split.
  - intros Hn. unfold handleDisconnect. rewrite Hn. reflexivity.
  - intros u Hu. cbv zeta. unfold handleDisconnect. rewrite Hu.
    apply UserManagerMore.getUser_Some in Hu as [a Hl].
    destruct (UserManagerMore.removeUser_found sock now (userManager s) a u Hl)
      as (_ & Hh & Hus & Hb).
    assert (G1 : UserManager.getUser sock
                   (snd (UserManager.removeUser sock now (userManager s))) = None).
    { unfold UserManager.getUser, UserManager.lookupSocket.
      rewrite Hus, om_get_delete_eq. reflexivity. }
    assert (G2 : UserManager.getUserById (UserManager.id u)
                   (snd (UserManager.removeUser sock now (userManager s))) = None).
    { unfold UserManager.getUserById, UserManager.lookupUserId.
      rewrite Hb, lookup_delete_eq. reflexivity. }
    destruct (ChatManager.getUserCurrentChat (UserManager.id u) (chatManager s))
      as [room|] eqn:Ec; cbn [fst snd userManager chatManager matchingEngine].
    + destruct (room_ended _ _ now _ Hr Ec) as (R1 & R2 & R3 & R4).
      split; [exact G1 |]. split; [exact G2 |]. split; [apply dequeue_queued |].
      split; [exact R2 |]. split.
      * intros room' [= <-]. split; [exact R1 |]. split; [exact R3 |].
        split; [exact R4 |]. left. reflexivity.
      * right. left. reflexivity.
    + split; [exact G1 |]. split; [exact G2 |]. split; [apply dequeue_queued |].
      split; [exact Ec |]. split; [discriminate |]. left. reflexivity.
Qed.


Lemma handleDisconnect_cleans_up_witness :
  UserManager.getUser "sock-bob" (userManager (snd (handleDisconnect "sock-bob" 5000 chatting)))
  = None
  /\ ChatManager.getUserCurrentChat "ann"
       (chatManager (snd (handleDisconnect "sock-bob" 5000 chatting))) = None.
Proof.
  assert (Hr : ChatManager.reachable (chatManager chatting)).
  { assert (E : chatManager chatting
                = ChatManager.step (ChatManager.OpCreateChat "bob" "ann" VUndefined "room-1")
                    4000 ChatManager.init) by (vm_compute; reflexivity).
    rewrite E. constructor. constructor. }
  assert (Hu : UserManager.getUser "sock-bob" (userManager chatting)
               = Some (MatchingLoop.userOf "bob" 2000)).
  { vm_compute. reflexivity. }
  destruct (handleDisconnect_cleans_up "sock-bob" 5000 chatting Hr) as [_ H].
  destruct (H _ Hu) as (H1 & _ & _ & _ & H5 & _).
  split; [exact H1 |].
  assert (Hc : exists room,
             ChatManager.getUserCurrentChat (UserManager.id (MatchingLoop.userOf "bob" 2000))
               (chatManager chatting) = Some room
             /\ In "ann" (ChatManager.participants room)).
  { eexists. split; [vm_compute; reflexivity |]. right. left. reflexivity. }
  destruct Hc as (room & Hroom & Hann).
  destruct (H5 room Hroom) as (_ & Hp & _). apply Hp, Hann.
Defined.

(** *** Looking for a match *)




(** *** Ending a chat *)

(** X30: [end-chat] from a socket that is not registered, or from a
    user who has no current chat, changes nothing and sends nothing: in
    particular it does not take a waiting user out of the queue.  From a
    user in a room, it ends the room with reason [user_action] and
    removes it, so that none of its participants has a current chat any
    more; the user is out of the queue and stays registered; the others
    in the room are told [stranger_left] and the user gets the
    confirmation. *)
Theorem handleEndChat_outcome sock now s :
  ChatManager.reachable (chatManager s) ->
  (UserManager.getUser sock (userManager s) = None -> handleEndChat sock now s = ([], s))
  /\ (forall u, UserManager.getUser sock (userManager s) = Some u ->
        (ChatManager.getUserCurrentChat (UserManager.id u) (chatManager s) = None ->
           handleEndChat sock now s = ([], s))
        /\ (forall room,
              ChatManager.getUserCurrentChat (UserManager.id u) (chatManager s)
              = Some room ->
              let s' := snd (handleEndChat sock now s) in
              userManager s' = userManager s
              /\ ChatManager.getChat (ChatManager.id room) (chatManager s') = None
              /\ ChatManager.getUserCurrentChat (UserManager.id u) (chatManager s') = None
              /\ (forall p, In p (ChatManager.participants room) ->
                    ChatManager.getUserCurrentChat p (chatManager s') = None)
              /\ (exists h, last (ChatManager.chatHistory (chatManager s')) = Some h
                            /\ ChatManager.h_id h = ChatManager.id room
                            /\ ChatManager.h_endReason h = Some "user_action")
              /\ MatchingLoop.queued (UserManager.id u)
                   (MatchingLoop.queue (matchingEngine s')) = false
              /\ fst (handleEndChat sock now s)
                 = [EmitToOthers sock (ChatManager.id room)
                      (ChatEnded "stranger_left" "Stranger has disconnected");
                    Leave sock (ChatManager.id room);
                    Emit sock (ChatEndedConfirm "Chat ended successfully")])).
Proof.
  intros Hr. split.
  - intros Hn. unfold handleEndChat. rewrite Hn. reflexivity.
  - intros u Hu. unfold handleEndChat. rewrite Hu. split.
    + intros ->. reflexivity.
    + intros room Ec. cbv zeta. rewrite Ec.
      cbn [fst snd userManager chatManager matchingEngine].
      destruct (room_ended _ _ now _ Hr Ec) as (R1 & R2 & R3 & R4).
      split; [reflexivity |]. split; [exact R1 |]. split; [exact R2 |].
      split; [exact R3 |]. split; [exact R4 |].
      split; [apply dequeue_queued | reflexivity].
Qed.

Lemma handleEndChat_outcome_witness :
  ChatManager.getUserCurrentChat "bob"
    (chatManager (snd (handleEndChat "sock-ann" 6000 chatting))) = None
  /\ handleEndChat "sock-ann" 7000 (snd (handleEndChat "sock-ann" 6000 chatting))
     = ([], snd (handleEndChat "sock-ann" 6000 chatting)).
Proof.
  assert (Hr : ChatManager.reachable (chatManager chatting)).
  { assert (E : chatManager chatting
                = ChatManager.step (ChatManager.OpCreateChat "bob" "ann" VUndefined "room-1")
                    4000 ChatManager.init) by (vm_compute; reflexivity).
    rewrite E. constructor. constructor. }
  destruct (handleEndChat_outcome "sock-ann" 6000 chatting Hr) as [_ H].
  assert (Hu : UserManager.getUser "sock-ann" (userManager chatting)
               = Some (MatchingLoop.userOf "ann" 1000)) by (vm_compute; reflexivity).
  destruct (H _ Hu) as [_ H2].
  assert (Hc : exists room,
             ChatManager.getUserCurrentChat (UserManager.id (MatchingLoop.userOf "ann" 1000))
               (chatManager chatting) = Some room
             /\ In "bob" (ChatManager.participants room)).
  { eexists. split; [vm_compute; reflexivity |]. left. reflexivity. }
  destruct Hc as (room & Hroom & Hbob).
  destruct (H2 room Hroom) as (_ & _ & _ & Hp & _).
  split; [apply Hp, Hbob | vm_compute; reflexivity].
Defined.

End ServerMore.
